(** * The census ledger service (backend/blockchain_service.py)

    A shallow embedding of the ledger core: the canonical hasher
    ([compute_record_hash]), the in-memory store ([MockLedger]) with its
    audit log, and the facade ([BlockchainService]).

    Conventions of the embedding.
    - A [str] that the ledger stores, compares or formats (an id, a hash, a
      status, a time, a decision) is a Rocq [string]; a character stands for
      the code point of the same number (0..255).
    - A [str] held by a census record, which is what gets hashed, is the
      list of its code points ([Py.text]), of any plane, surrogates
      included.
    - A Python [int] is a [Z].
    - A [Dict[str, Any]] that is only read is a [gmap string value]; the
      dicts the code builds and iterates ([canonical], [self.records]) are
      insertion-ordered association lists ([PyDict]).
    - [datetime.now(timezone.utc)] is an input: every reading of the clock is
      a parameter of the operation that makes it.
    - A coroutine is the function it computes: no operation awaits anything
      but the ledger's own coroutines.
    - Exceptions and the mutable state are threaded by a state-and-exception
      monad whose result always carries the state reached, so that what a
      raising operation did before it raised stays visible.
    - [logger.info] is not modelled. *)

From Stdlib Require Import ZArith String Ascii List Lia DecimalString
  HexadecimalString DecimalZ HexadecimalN Sorted.
From stdpp Require Import gmap strings list.

Local Open Scope Z_scope.

(** ** Python strings and formatting *)

Module Py.

Definition dquote : ascii := "034"%char.
Definition backslash : ascii := "092"%char.

(** [s1 + s2] on strings. *)
Definition cat (l : list string) : string := String.concat EmptyString l.

(** [str.upper] on ASCII letters; other characters are left as they are.
    On a string of ASCII characters this is [str.upper]. It is not on the
    other characters below 256, which [str.upper] maps too (to characters
    that are not ASCII, or to [SS]): such a string does not upper-case to
    one of the enumerated values either way, but the text it upper-cases to
    is not the one given here. *)
Definition upper_char (c : ascii) : ascii :=
  let n := N_of_ascii c in
  if ((97 <=? n) && (n <=? 122))%N then ascii_of_N (n - 32) else c.

Fixpoint upper (s : string) : string :=
  match s with
  | EmptyString => EmptyString
  | String c s' => String (upper_char c) (upper s')
  end.



(** [s.isascii()] *)
Fixpoint isascii (s : string) : bool :=
  match s with
  | EmptyString => true
  | String c s' => (N_of_ascii c <? 128)%N && isascii s'
  end.

(** [str(n)] for an [int]. *)
Definition str_of_int (z : Z) : string :=
  DecimalString.NilZero.string_of_int (Z.to_int z).

(** [str(b)] for a [bool]. *)
Definition str_of_bool (b : bool) : string :=
  if b then "True"%string else "False"%string.

Definition hex_of_N (n : N) : string :=
  HexadecimalString.NilZero.string_of_uint (N.to_hex_uint n).

Fixpoint zeros (n : nat) : string :=
  match n with
  | O => EmptyString
  | S n' => String "0" (zeros n')
  end.

(** [digits.rjust(width, '0')]. *)
Definition zfill (width : nat) (digits : string) : string :=
  zeros (width - String.length digits) +:+ digits.

(** [f"{n:08x}"]: lower-case hexadecimal, padded with zeros to eight
    characters, the sign counted in. *)
Definition format_08x (z : Z) : string :=
  if z <? 0 then String "-" (zfill 7 (hex_of_N (Z.to_N (- z))))
  else zfill 8 (hex_of_N (Z.to_N z)).

(** [f"{n:04x}"] for a code point. *)
Definition format_04x (n : N) : string := zfill 4 (hex_of_N n).

(** A string rewritten character by character:
    [''.join(f(c) for c in s)]. *)
Fixpoint map_chars (f : ascii -> string) (s : string) : string :=
  match s with
  | EmptyString => EmptyString
  | String c s' => f c +:+ map_chars f s'
  end.

(** A [str] as the list of its code points, each below 0x110000. *)
Definition text : Type := list N.

(** The text of a string. *)
Fixpoint text_of (s : string) : text :=
  match s with
  | EmptyString => []
  | String c s' => N_of_ascii c :: text_of s'
  end.

(** The string of a text whose code points are all below 256. *)
Fixpoint latin1 (t : text) : option string :=
  match t with
  | [] => Some EmptyString
  | n :: t' =>
      if (n <? 256)%N then
        match latin1 t' with
        | Some s => Some (String (ascii_of_N n) s)
        | None => None
        end
      else None
  end.

(** [''.join(f(c) for c in t)] for a text. *)
Fixpoint map_points (f : N -> string) (t : text) : string :=
  match t with
  | [] => EmptyString
  | n :: t' => f n +:+ map_points f t'
  end.

(** The 16-bit units of [t.encode('utf-16-be', 'surrogatepass')]: a code
    point below 0x10000 is its own unit, a surrogate too; a code point from
    0x10000 on gives the two surrogates of its pair. (For a code point of a
    [str], below 0x110000, the first [mod] changes nothing.) *)
Definition code_units (n : N) : list N :=
  if (n <? 0x10000)%N then [n]
  else [ (0xd800 + ((n - 0x10000) / 0x400) mod 0x400)%N;
         (0xdc00 + (n - 0x10000) mod 0x400)%N ].

Definition utf16 (t : text) : list N := flat_map code_units t.

(** [s.encode('utf-8')] for code points below 256: the result is a byte
    string. *)
Definition utf8_char (c : ascii) : string :=
  let n := N_of_ascii c in
  if (n <? 128)%N then String c EmptyString
  else String (ascii_of_N (192 + N.shiftr n 6))
         (String (ascii_of_N (128 + N.land n 63)) EmptyString).

Definition encode_utf8 (s : string) : string := map_chars utf8_char s.

(** The inverse step of [utf8_char], used to show the encoding loses
    nothing. *)
Definition utf8_step (b : string) : option (ascii * string) :=
  match b with
  | EmptyString => None
  | String c r =>
      let n := N_of_ascii c in
      if (n <? 128)%N then Some (c, r)
      else match r with
           | EmptyString => None
           | String d r' =>
               Some (ascii_of_N (64 * (n - 192) + (N_of_ascii d - 128)), r')
           end
  end.

(** Truth value of an optional string ([if new_hash:]): [None] and the
    empty string are false. *)
Definition truthy_opt_str (o : option string) : bool :=
  match o with
  | Some (String _ _) => true
  | _ => false
  end.

(** [sorted(l)] for a list of strings, and [sorted(items)] by key: a stable
    insertion sort under [<] on code points. *)
Section Sorted.
Context {A : Type} (key : A -> string).

Fixpoint insert_sorted (x : A) (l : list A) : list A :=
    match l with
    | [] => [x]
    | y :: l' =>
        if String.ltb (key x) (key y) then x :: y :: l'
        else y :: insert_sorted x l'
    end.

Definition sorted_by (l : list A) : list A :=
    fold_left (fun acc x => insert_sorted x acc) l [].
End Sorted.

Definition sorted (l : list string) : list string := sorted_by (fun s => s) l.

(** No string of the list is less than a string before it. *)
Fixpoint ordered_strings (l : list string) : bool :=
  match l with
  | [] => true
  | y :: l' => forallb (fun x => negb (String.ltb x y)) l' && ordered_strings l'
  end.

(** No element is less than an element before it. *)
Definition ordered_by {A : Type} (key : A -> string) (l : list A) : Prop :=
  StronglySorted (fun y x => String.ltb (key x) (key y) = false) l.

End Py.

(** ** Insertion-ordered dictionaries with string keys *)

Module PyDict.

Section Dict.
Context {V : Type}.

Definition t := list (string * V).

  (** [d.get(k)] *)
Fixpoint get (k : string) (d : list (string * V)) : option V :=
    match d with
    | [] => None
    | (k', v) :: d' => if String.eqb k k' then Some v else get k d'
    end.

  (** [k in d] *)
Definition contains (k : string) (d : list (string * V)) : bool :=
    match get k d with Some _ => true | None => false end.

  (** [d[k] = v]: a present key keeps its place, a new key goes last. *)
Fixpoint set (k : string) (v : V) (d : list (string * V)) : list (string * V) :=
    match d with
    | [] => [(k, v)]
    | (k', v') :: d' =>
        if String.eqb k k' then (k', v) :: d' else (k', v') :: set k v d'
    end.

  (** The object stored under [k] is updated in place by [f]. *)
Fixpoint alter (f : V -> V) (k : string) (d : list (string * V)) : list (string * V) :=
    match d with
    | [] => []
    | (k', v') :: d' =>
        if String.eqb k k' then (k', f v') :: d' else (k', v') :: alter f k d'
    end.

Definition keys (d : list (string * V)) : list string := map fst d.
Definition values (d : list (string * V)) : list V := map snd d.
End Dict.

End PyDict.

(** ** SHA-256 ([hashlib.sha256(...).hexdigest()])

    FIPS 180-4 on 32-bit words held in [Z], wrap-around written out. *)

Module SHA256.

Definition w32 (x : Z) : Z := Z.land x 0xffffffff.
Definition add32 (x y : Z) : Z := w32 (x + y).
Definition rotr (n x : Z) : Z :=
  Z.lor (Z.shiftr x n) (w32 (Z.shiftl x (32 - n))).
Definition not32 (x : Z) : Z := Z.lxor x 0xffffffff.

Definition Ch (x y z : Z) : Z := Z.lxor (Z.land x y) (Z.land (not32 x) z).
Definition Maj (x y z : Z) : Z :=
  Z.lxor (Z.lxor (Z.land x y) (Z.land x z)) (Z.land y z).
Definition Sigma0 (x : Z) : Z :=
  Z.lxor (Z.lxor (rotr 2 x) (rotr 13 x)) (rotr 22 x).
Definition Sigma1 (x : Z) : Z :=
  Z.lxor (Z.lxor (rotr 6 x) (rotr 11 x)) (rotr 25 x).
Definition sigma0 (x : Z) : Z :=
  Z.lxor (Z.lxor (rotr 7 x) (rotr 18 x)) (Z.shiftr x 3).
Definition sigma1 (x : Z) : Z :=
  Z.lxor (Z.lxor (rotr 17 x) (rotr 19 x)) (Z.shiftr x 10).

(** The round constants are the first 32 bits of the fractional parts of
    the cube roots of the first 64 primes, the initial hash value those of
    the square roots of the first 8. *)
Definition is_prime (n : Z) : bool :=
  (1 <? n) && forallb (fun d => negb (n mod Z.of_nat d =? 0))
                (seq 2 (Z.to_nat n - 2)).

Definition primes (count : nat) : list Z :=
  firstn count (List.filter is_prime (map Z.of_nat (seq 2 310))).

(** The integer cube root, bit by bit from bit [n - 1] down. *)
Fixpoint cube_root_bits (n : nat) (x r : Z) : Z :=
  match n with
  | O => r
  | S n' =>
      let c := r + 2 ^ Z.of_nat n' in
      cube_root_bits n' x (if c * c * c <=? x then c else r)
  end.

Definition cube_root (x : Z) : Z := cube_root_bits 40 x 0.

Definition K : list Z :=
  Eval vm_compute in map (fun p => w32 (cube_root (p * 2 ^ 96))) (primes 64).

Definition H0 : list Z :=
  Eval vm_compute in map (fun p => w32 (Z.sqrt (p * 2 ^ 64))) (primes 8).

(** The [n] low bytes of [x], most significant first. *)
Fixpoint be_bytes (n : nat) (x : Z) : list Z :=
  match n with
  | O => []
  | S n' => Z.land (Z.shiftr x (8 * Z.of_nat n')) 0xff :: be_bytes n' x
  end.

Definition pad (msg : list Z) : list Z :=
  let len := Z.of_nat (length msg) in
  let fill := Z.to_nat ((55 - len) mod 64) in
  msg ++ 0x80 :: repeat 0 fill ++ be_bytes 8 (8 * len).

Fixpoint be_word (bs : list Z) (acc : Z) : Z :=
  match bs with
  | [] => acc
  | b :: bs' => be_word bs' (Z.lor (Z.shiftl acc 8) b)
  end.

Fixpoint words (fuel : nat) (bs : list Z) : list Z :=
  match fuel, bs with
  | S f, _ :: _ => be_word (firstn 4 bs) 0 :: words f (skipn 4 bs)
  | _, _ => []
  end.

(** The message schedule; [w] holds the words so far, newest first. *)
Fixpoint schedule (n : nat) (w : list Z) : list Z :=
  match n with
  | O => rev w
  | S n' =>
      let g i := nth i w 0 in
      schedule n' (add32 (add32 (sigma1 (g 1%nat)) (g 6%nat))
                         (add32 (sigma0 (g 14%nat)) (g 15%nat)) :: w)
  end.

Definition round (s : list Z) (kw : Z * Z) : list Z :=
  match s with
  | [a; b; c; d; e; f; g; h] =>
      let t1 :=
        add32 (add32 (add32 h (Sigma1 e)) (add32 (Ch e f g) (fst kw))) (snd kw) in
      let t2 := add32 (Sigma0 a) (Maj a b c) in
      [add32 t1 t2; a; b; c; add32 d t1; e; f; g]
  | _ => s
  end.

Definition compress (h : list Z) (block : list Z) : list Z :=
  let w := schedule 48 (rev (words 16 block)) in
  let s := fold_left round (combine K w) h in
  map (fun p => add32 (fst p) (snd p)) (combine h s).

Fixpoint blocks (fuel : nat) (bs : list Z) (h : list Z) : list Z :=
  match fuel, bs with
  | S f, _ :: _ => blocks f (skipn 64 bs) (compress h (firstn 64 bs))
  | _, _ => h
  end.

Definition digest (msg : list Z) : list Z :=
  let p := pad msg in
  flat_map (be_bytes 4) (blocks (length p) p H0).

Definition hex_digit (d : Z) : ascii :=
  ascii_of_nat (Z.to_nat (if d <? 10 then 48 + d else 87 + d)).

Fixpoint hex_of_bytes (bs : list Z) : string :=
  match bs with
  | [] => EmptyString
  | b :: bs' =>
      String (hex_digit (Z.shiftr b 4))
        (String (hex_digit (Z.land b 0xf)) (hex_of_bytes bs'))
  end.

Fixpoint bytes_of_string (s : string) : list Z :=
  match s with
  | EmptyString => []
  | String c s' => Z.of_nat (nat_of_ascii c) :: bytes_of_string s'
  end.

(** [hashlib.sha256(b).hexdigest()] for the byte string [b]. *)
Definition hexdigest (b : string) : string :=
  hex_of_bytes (digest (bytes_of_string b)).

End SHA256.

(** ** [json.dumps(d, sort_keys=True, separators=(',', ':'))] for a dict of
    strings ([ensure_ascii] is left at its default, true) *)

Module Json.

Import Py.

(** One character of a string literal, as the encoder's [replace] writes
    it: the short escapes, printable ASCII as it is, any other code point
    below 0x10000 as [\uXXXX], and a code point from 0x10000 on as the two
    [\uXXXX] of its surrogate pair. *)
Definition escape_char (n : N) : string :=
  if (n =? 34)%N then String backslash (String dquote EmptyString)
  else if (n =? 92)%N then String backslash (String backslash EmptyString)
  else if (n =? 10)%N then String backslash "n"
  else if (n =? 13)%N then String backslash "r"
  else if (n =? 9)%N then String backslash "t"
  else if (n =? 8)%N then String backslash "b"
  else if (n =? 12)%N then String backslash "f"
  else if ((32 <=? n) && (n <=? 126))%N then String (ascii_of_N n) EmptyString
  else if (n <? 0x10000)%N then String backslash (String "u" (format_04x n))
  else
    let n := (n - 0x10000)%N in
    let s1 := N.lor 0xd800 (N.land (N.shiftr n 10) 0x3ff) in
    let s2 := N.lor 0xdc00 (N.land n 0x3ff) in
    String backslash (String "u" (format_04x s1))
    +:+ String backslash (String "u" (format_04x s2)).

Definition escape (s : text) : string := map_points escape_char s.

Definition encode_str (s : text) : string :=
  String dquote (escape s +:+ String dquote EmptyString).

(** The keys are field names, the values the canonical strings. *)
Definition encode_item (kv : string * text) : string :=
  encode_str (text_of (fst kv)) +:+ ":" +:+ encode_str (snd kv).

Definition dumps (d : list (string * text)) : string :=
  "{" +:+ String.concat "," (map encode_item (sorted_by fst d)) +:+ "}".

(** Reading one escaped 16-bit unit back; [None] at the closing quote. Used
    to show what the encoding keeps. *)
Definition hex_value (c : ascii) : N :=
  let n := N_of_ascii c in
  if (n <? 58)%N then n - 48 else n - 87.

Definition unescape_step (s : string) : option (N * string) :=
  match s with
  | EmptyString => None
  | String c r =>
      if Ascii.eqb c dquote then None
      else if Ascii.eqb c backslash then
        match r with
        | EmptyString => None
        | String e r' =>
            if Ascii.eqb e "n" then Some (10%N, r')
            else if Ascii.eqb e "r" then Some (13%N, r')
            else if Ascii.eqb e "t" then Some (9%N, r')
            else if Ascii.eqb e "b" then Some (8%N, r')
            else if Ascii.eqb e "f" then Some (12%N, r')
            else if Ascii.eqb e "u" then
              match r' with
              | String a (String b (String h (String l r''))) =>
                  Some ((4096 * hex_value a + 256 * hex_value b
                         + 16 * hex_value h + hex_value l)%N, r'')
              | _ => None
              end
            else Some (N_of_ascii e, r')
        end
      else Some (N_of_ascii c, r)
  end.

End Json.

(** ** Hash computation *)

(** The values a census record holds. A [float] is carried as the text
    [str()] gives for it, and so is any other object. *)
Inductive value : Type :=
| VNone
| VBool (b : bool)
| VInt (z : Z)
| VFloat (repr : string)
| VStr (s : Py.text)
| VObj (repr : Py.text).

#[global] Instance value_eq_dec : EqDecision value.
Proof. solve_decision. Defined.

Definition py_str (v : value) : Py.text :=
  match v with
  | VNone => Py.text_of "None"
  | VBool b => Py.text_of (Py.str_of_bool b)
  | VInt z => Py.text_of (Py.str_of_int z)
  | VFloat r => Py.text_of r
  | VStr s => s
  | VObj r => r
  end.

(** [type(v).__name__], where the model knows the type. *)
Definition type_name (v : value) : option string :=
  match v with
  | VNone => Some "NoneType"
  | VBool _ => Some "bool"
  | VInt _ => Some "int"
  | VFloat _ => Some "float"
  | VStr _ => Some "str"
  | VObj _ => None
  end%string.

(** [isinstance(value, (int, float))]; [bool] is a subclass of [int]. *)
Definition is_int_or_float (v : value) : bool :=
  match v with
  | VBool _ | VInt _ | VFloat _ => true
  | _ => false
  end.

Definition hashable_fields : list string :=
  [ "record_id"; "household_id"; "name"; "age"; "sex"; "relation";
    "caste"; "income"; "region"; "district"; "state"; "pin_code";
    "latitude"; "longitude"; "welfare_score"; "ration_card_type";
    "scheme_enrollment_count"; "employment_status"; "occupation_category";
    "sector"; "housing_type"; "water_source"; "toilet_access";
    "cooking_fuel"; "internet_access"; "household_size";
    "parent_id"; "spouse_id" ]%string.

(** The string a field's value is hashed as. *)
Definition canonical_value (v : value) : Py.text :=
  match v with
  | VNone => []
  | _ => if is_int_or_float v then py_str v else py_str v
  end.

(** The loop that builds [canonical]. *)
Definition canonical_step (record : gmap string value)
    (canonical : list (string * Py.text)) (field : string) : list (string * Py.text) :=
  match record !! field with
  | Some v => PyDict.set field (canonical_value v) canonical
  | None => canonical
  end.

Definition canonical (record : gmap string value) : list (string * Py.text) :=
  fold_left (canonical_step record) (Py.sorted hashable_fields) [].

(** The items of [canonical], field by field: a field the record has
    gives one item, a field it does not have gives none. *)
Definition canonical_items (record : gmap string value) (fields : list string)
    : list (string * Py.text) :=
  omap (fun field => (fun v => (field, canonical_value v)) <$> record !! field) fields.

(** What a field contributes to the hash: nothing when the record does not
    have it, its canonical string otherwise. *)
Definition canonical_field (record : gmap string value) (field : string)
    : option Py.text :=
  canonical_value <$> record !! field.

(** The same in UTF-16 code units. *)
Definition canonical_units (record : gmap string value) (field : string)
    : option (list N) :=
  Py.utf16 <$> canonical_field record field.

(** [sorted(hashable_fields)], written out. *)
Definition sorted_fields : list string :=
  [ "age"; "caste"; "cooking_fuel"; "district"; "employment_status";
    "household_id"; "household_size"; "housing_type"; "income";
    "internet_access"; "latitude"; "longitude"; "name";
    "occupation_category"; "parent_id"; "pin_code"; "ration_card_type";
    "record_id"; "region"; "relation"; "scheme_enrollment_count";
    "sector"; "sex"; "spouse_id"; "state"; "toilet_access";
    "water_source"; "welfare_score" ]%string.

Definition canonical_json (record : gmap string value) : string :=
  Json.dumps (canonical record).

Definition compute_record_hash (record : gmap string value) : string :=
  SHA256.hexdigest (Py.encode_utf8 (canonical_json record)).

Definition verify_record_hash (record : gmap string value) (expected_hash : string) : bool :=
  String.eqb (compute_record_hash record) expected_hash.

(** ** Configuration, enumerations and data classes *)

(** [os.environ], read once when the module is loaded. *)
Class Environ : Type := { environ : gmap string string }.

Definition FABRIC_MSP_ID `{Environ} : string :=
  default "StateMSP"%string (environ !! "FABRIC_MSP_ID"%string).




Module RecordStatus.
Inductive t : Type :=
  | PENDING_REVIEW | APPROVED | REJECTED | NEEDS_VERIFICATION | PRIORITY.

Definition value (e : t) : string :=
    match e with
    | PENDING_REVIEW => "PENDING_REVIEW"
    | APPROVED => "APPROVED"
    | REJECTED => "REJECTED"
    | NEEDS_VERIFICATION => "NEEDS_VERIFICATION"
    | PRIORITY => "PRIORITY"
    end.

  (** Iteration over the enumeration, in definition order. *)
Definition members : list t :=
    [PENDING_REVIEW; APPROVED; REJECTED; NEEDS_VERIFICATION; PRIORITY].

Definition eqb (a b : t) : bool :=
    match a, b with
    | PENDING_REVIEW, PENDING_REVIEW | APPROVED, APPROVED
    | REJECTED, REJECTED | NEEDS_VERIFICATION, NEEDS_VERIFICATION
    | PRIORITY, PRIORITY => true
    | _, _ => false
    end.
End RecordStatus.

Module FlagStatus.
Inductive t : Type := NORMAL | REVIEW | PRIORITY.

Definition value (e : t) : string :=
    match e with
    | NORMAL => "NORMAL"
    | REVIEW => "REVIEW"
    | PRIORITY => "PRIORITY"
    end.

Definition members : list t := [NORMAL; REVIEW; PRIORITY].
End FlagStatus.

(** [x in l] for a list of strings. *)
Definition str_in (x : string) (l : list string) : bool :=
  existsb (String.eqb x) l.

Module LedgerRecord.
Record t : Type := mk {
    record_id : string;
    data_hash : string;
    owner_household_id : string;
    current_status : string;
    flag_status : string;
    created_by : string;
    created_at : string;
    last_updated_by : string;
    last_updated_at : string;
    version : Z;
    previous_hash : option string
  }.

  (** Attribute assignments. *)
Definition set_data_hash (x : string) (r : t) : t :=
    mk (record_id r) x (owner_household_id r) (current_status r)
       (flag_status r) (created_by r) (created_at r) (last_updated_by r)
       (last_updated_at r) (version r) (previous_hash r).
Definition set_current_status (x : string) (r : t) : t :=
    mk (record_id r) (data_hash r) (owner_household_id r) x
       (flag_status r) (created_by r) (created_at r) (last_updated_by r)
       (last_updated_at r) (version r) (previous_hash r).
Definition set_last_updated_by (x : string) (r : t) : t :=
    mk (record_id r) (data_hash r) (owner_household_id r) (current_status r)
       (flag_status r) (created_by r) (created_at r) x
       (last_updated_at r) (version r) (previous_hash r).
Definition set_last_updated_at (x : string) (r : t) : t :=
    mk (record_id r) (data_hash r) (owner_household_id r) (current_status r)
       (flag_status r) (created_by r) (created_at r) (last_updated_by r)
       x (version r) (previous_hash r).
Definition set_version (x : Z) (r : t) : t :=
    mk (record_id r) (data_hash r) (owner_household_id r) (current_status r)
       (flag_status r) (created_by r) (created_at r) (last_updated_by r)
       (last_updated_at r) x (previous_hash r).
Definition set_previous_hash (x : option string) (r : t) : t :=
    mk (record_id r) (data_hash r) (owner_household_id r) (current_status r)
       (flag_status r) (created_by r) (created_at r) (last_updated_by r)
       (last_updated_at r) (version r) x.
End LedgerRecord.

(** A reading of the clock: what the code uses of a [datetime] is its
    [isoformat()] and its [strftime('%Y%m%d%H%M%S')]. *)
Record datetime : Type := {
  isoformat : string;
  strftime_YmdHMS : string
}.

Module IntegrityResult.
Record t : Type := mk {
    record_id : string;
    verified : bool;
    on_chain_hash : option string;
    provided_hash : option string;
    current_status : option string;
    last_updated_at : option string;
    error : option string;
    timestamp : string
  }.

  (** [if not self.timestamp: self.timestamp = now().isoformat()] *)
Definition __post_init__ (now : datetime) (r : t) : t :=
    match timestamp r with
    | EmptyString =>
        mk (record_id r) (verified r) (on_chain_hash r) (provided_hash r)
           (current_status r) (last_updated_at r) (error r) (isoformat now)
    | String _ _ => r
    end.
End IntegrityResult.

Module AccessLogEntry.
Record t : Type := mk {
    log_id : string;
    record_id : string;
    accessor_id : string;
    accessor_msp : string;
    action_type : string;
    details : string;
    timestamp : string;
    tx_id : string
  }.
End AccessLogEntry.

(** ** State and exceptions *)

Inductive exn : Type :=
| ValueError (msg : string)
| AttributeError (msg : string)
(** the call has left the part of the program that is modelled: an
    argument does not have the type its annotation gives, or a [str] that
    the ledger is handed to store has a code point above 255 *)
| Untyped (what : string).

(** A computation on a state [S]: the outcome (an exception or a result)
    together with the state reached. *)
Definition M (S A : Type) : Type := S -> (exn + A) * S.

Definition ret {S A} (a : A) : M S A := fun s => (inr a, s).
Definition raise {S A} (e : exn) : M S A := fun s => (inl e, s).
Definition bind {S A B} (m : M S A) (k : A -> M S B) : M S B :=
  fun s => match m s with
           | (inr a, s') => k a s'
           | (inl e, s') => (inl e, s')
           end.
Definition get_state {S} : M S S := fun s => (inr s, s).
Definition modify {S} (f : S -> S) : M S unit := fun s => (inr tt, f s).

Notation "x <- m ;; k" := (bind m (fun x => k))
  (at level 100, m at next level, right associativity).
Notation "m ;;; k" := (bind m (fun _ => k))
  (at level 100, right associativity).

(** The positions, in order, of the elements of [l] that satisfy [p];
    positions count from [i]. *)
Fixpoint select_from {A} (p : A -> bool) (i : nat) (l : list A) : list nat :=
  match l with
  | [] => []
  | x :: l' =>
      if p x then i :: select_from p (S i) l' else select_from p (S i) l'
  end.

(** First position of key [k] in a dictionary. *)
Fixpoint index_of {V} (k : string) (d : list (string * V)) : option nat :=
  match d with
  | [] => None
  | (k', _) :: d' => if String.eqb k k' then Some O else option_map S (index_of k d')
  end.

(** ** The in-memory store *)

Module MockLedger.

Record t : Type := mk {
  records : list (string * LedgerRecord.t);
  access_logs : list AccessLogEntry.t;
  tx_counter : Z
}.

Definition __init__ : t := mk [] [] 0.

Definition with_records (f : list (string * LedgerRecord.t) -> list (string * LedgerRecord.t))
    (L : t) : t :=
  mk (f (records L)) (access_logs L) (tx_counter L).
Definition with_access_logs (f : list AccessLogEntry.t -> list AccessLogEntry.t)
    (L : t) : t :=
  mk (records L) (f (access_logs L)) (tx_counter L).
Definition with_tx_counter (f : Z -> Z) (L : t) : t :=
  mk (records L) (access_logs L) (f (tx_counter L)).

(** References into the store. [initialize_record] is the only place a
    record object is created, the log only grows, and nothing is ever
    replaced or removed: an object is identified by the position it holds
    in [records], respectively in [access_logs]. *)
Inductive record_ref : Type := RecordRef (position : nat).
Inductive log_ref : Type := LogRef (position : nat).

Definition deref_record (L : t) (r : record_ref) : option LedgerRecord.t :=
  let 'RecordRef i := r in snd <$> records L !! i.
Definition deref_log (L : t) (r : log_ref) : option AccessLogEntry.t :=
  let 'LogRef i := r in access_logs L !! i.

(** A caller's attribute assignments through a reference it holds. *)
Definition write_record (r : record_ref) (f : LedgerRecord.t -> LedgerRecord.t)
    (L : t) : t :=
  let 'RecordRef i := r in
  with_records (fun d => alter (fun kv => (fst kv, f (snd kv))) i d) L.
Definition write_log (r : log_ref) (f : AccessLogEntry.t -> AccessLogEntry.t)
    (L : t) : t :=
  let 'LogRef i := r in with_access_logs (fun l => alter f i l) L.

Section Operations.
Context `{Environ}.

Definition _generate_tx_id (now : datetime) : M t string :=
    modify (with_tx_counter (fun c => c + 1));;;
    L <- get_state;;
    ret (Py.cat ["tx_"; Py.format_08x (tx_counter L); "_"; strftime_YmdHMS now]%string).

  (** [self.access_logs.append(AccessLogEntry(log_id=f"LOG_{record_id}_{len(self.access_logs)}", ...))];
      [tx_id] is the last argument evaluated. *)
Definition append_log (record_id accessor_id action_type details timestamp : string)
      (tx_id : M t string) : M t unit :=
    L <- get_state;;
    let log_id :=
      Py.cat ["LOG_"; record_id; "_";
              Py.str_of_int (Z.of_nat (length (access_logs L)))]%string in
    tx <- tx_id;;
    modify (with_access_logs (fun l =>
      l ++ [AccessLogEntry.mk log_id record_id accessor_id FABRIC_MSP_ID
              action_type details timestamp tx])).

Definition initialize_record (record_id data_hash household_id flag_status user_id : string)
      (now tx_now : datetime) : M t string :=
    L <- get_state;;
    if PyDict.contains record_id (records L) then
      raise (ValueError (Py.cat ["Record "; record_id; " already exists on ledger"]%string))
    else
      let now := isoformat now in
      modify (with_records (PyDict.set record_id
        (LedgerRecord.mk record_id data_hash household_id
           (RecordStatus.value RecordStatus.PENDING_REVIEW) flag_status
           user_id now user_id now 1 None)));;;
      tx_id <- _generate_tx_id tx_now;;
      append_log record_id user_id "INITIALIZE" "Record initialized on ledger"
        now (ret tx_id);;;
      ret tx_id.

  (** The assignments [review_record] makes to the record object. *)
Definition reviewed (reviewer_id decision now : string) (new_hash : option string)
      (record : LedgerRecord.t) : LedgerRecord.t :=
    let record := LedgerRecord.set_current_status decision record in
    let record := LedgerRecord.set_last_updated_by reviewer_id record in
    let record := LedgerRecord.set_last_updated_at now record in
    let record :=
      LedgerRecord.set_version (LedgerRecord.version record + 1) record in
    if Py.truthy_opt_str new_hash then
      let record :=
        LedgerRecord.set_previous_hash (Some (LedgerRecord.data_hash record)) record in
      LedgerRecord.set_data_hash (default EmptyString new_hash) record
    else record.

Definition review_record (record_id reviewer_id decision : string)
      (new_hash : option string) (now tx_now : datetime) : M t string :=
    L <- get_state;;
    if negb (PyDict.contains record_id (records L)) then
      raise (ValueError (Py.cat ["Record "; record_id; " not found on ledger"]%string))
    else
      let now := isoformat now in
      modify (with_records
        (PyDict.alter (reviewed reviewer_id decision now new_hash) record_id));;;
      tx_id <- _generate_tx_id tx_now;;
      append_log record_id reviewer_id "REVIEW"
        (Py.cat ["Decision: "; decision]%string) now (ret tx_id);;;
      ret tx_id.

Definition verify_integrity (record_id provided_hash accessor_id : string)
      (now tx_now result_now : datetime) : M t IntegrityResult.t :=
    L <- get_state;;
    match PyDict.get record_id (records L) with
    | None =>
        ret (IntegrityResult.__post_init__ result_now
               (IntegrityResult.mk record_id false None None None None
                  (Some "Record not found on ledger"%string) EmptyString))
    | Some record =>
        let is_valid := String.eqb (LedgerRecord.data_hash record) provided_hash in
        let now := isoformat now in
        append_log record_id accessor_id "VERIFY"
          (Py.cat ["Integrity check: "; if is_valid then "PASSED" else "FAILED"]%string)
          now (_generate_tx_id tx_now);;;
        ret (IntegrityResult.__post_init__ result_now
               (IntegrityResult.mk record_id is_valid
                  (Some (LedgerRecord.data_hash record)) (Some provided_hash)
                  (Some (LedgerRecord.current_status record))
                  (Some (LedgerRecord.last_updated_at record))
                  None EmptyString))
    end.

Definition log_access (record_id accessor_id reason : string)
      (now tx_now : datetime) : M t string :=
    let now := isoformat now in
    tx_id <- _generate_tx_id tx_now;;
    append_log record_id accessor_id "ACCESS" reason now (ret tx_id);;;
    ret tx_id.

  (** [self.records.get(record_id)]: the stored object, not a copy. *)
Definition get_record (record_id : string) : M t (option record_ref) :=
    L <- get_state;;
    ret (RecordRef <$> index_of record_id (records L)).

  (** A new list of the stored entries themselves. *)
Definition get_access_logs (record_id : string) : M t (list log_ref) :=
    L <- get_state;;
    ret (LogRef <$>
           select_from (fun log => String.eqb (AccessLogEntry.record_id log) record_id)
             O (access_logs L)).

Definition query_by_status (status : string) : M t (list record_ref) :=
    L <- get_state;;
    ret (RecordRef <$>
           select_from (fun r => String.eqb (LedgerRecord.current_status r) status)
             O (PyDict.values (records L))).

Definition query_by_flag_status (flag_status : string) : M t (list record_ref) :=
    L <- get_state;;
    ret (RecordRef <$>
           select_from (fun r => String.eqb (LedgerRecord.flag_status r) flag_status)
             O (PyDict.values (records L))).
End Operations.

(** The transaction id and the log id the next audited call on [L] gets. *)
Definition tx_id_after (L : t) (tx_now : datetime) : string :=
  Py.cat ["tx_"; Py.format_08x (tx_counter L + 1); "_"; strftime_YmdHMS tx_now]%string.

Definition log_id_next (record_id : string) (L : t) : string :=
  Py.cat ["LOG_"; record_id; "_";
          Py.str_of_int (Z.of_nat (length (access_logs L)))]%string.

End MockLedger.

(** ** The facade *)

Module BlockchainService.

Record t : Type := mk {
  ledger : MockLedger.t;
  _initialized : bool
}.

Definition __init__ : t := mk MockLedger.__init__ false.

(** A call on [self.ledger]. *)
Definition on_ledger {A} (m : M MockLedger.t A) : M t A :=
  fun s =>
    let '(r, L) := m (ledger s) in (r, mk L (_initialized s)).

(** The dictionaries [anchor_record] and [review_record] return. *)
Record anchored : Type := {
  anchored_tx_id : string;
  anchored_record_id : string;
  anchored_data_hash : string;
  anchored_status : string;
  ledger_anchored : bool
}.

Record reviewed : Type := {
  reviewed_tx_id : string;
  reviewed_record_id : string;
  new_status : string;
  new_hash : option string
}.

(** The dictionaries [log_access] and [get_ledger_status] return. *)
Record access_logged : Type := {
  logged_tx_id : string;
  logged_record_id : string;
  logged : bool
}.


(** [record.get(key, default)] where the code goes on to use the value as a
    [str] of the ledger. *)
Definition get_str (record : gmap string value) (key default : string) : M t string :=
  match record !! key with
  | None => ret default
  | Some (VStr s) =>
      match Py.latin1 s with
      | Some s => ret s
      | None => raise (Untyped key)
      end
  | Some _ => raise (Untyped key)
  end.

(** [record.get('flag_status', 'NORMAL').upper()] *)
Definition get_flag_status_upper (record : gmap string value) : M t string :=
  match record !! "flag_status"%string with
  | None => ret (Py.upper "NORMAL")
  | Some (VStr s) =>
      match Py.latin1 s with
      | Some s => ret (Py.upper s)
      | None => raise (Untyped "flag_status")
      end
  | Some v =>
      match type_name v with
      | Some name =>
          raise (AttributeError
                   (Py.cat ["'"; name; "' object has no attribute 'upper'"]%string))
      | None => raise (Untyped "flag_status")
      end
  end.

(** Truth value of [updated_record]: absent and empty are false. *)
Definition truthy_opt_dict (o : option (gmap string value)) : bool :=
  match o with
  | Some d => negb (bool_decide (d = ∅))
  | None => false
  end.

Section Operations.
Context `{Environ}.

Definition initialize : M t unit :=
    s <- get_state;;
    if _initialized s then ret tt
    else modify (fun s => mk (ledger s) true).

Definition anchor_record (record : gmap string value) (user_id : string)
      (now tx_now : datetime) : M t anchored :=
    initialize;;;
    record_id <- get_str record "record_id" EmptyString;;
    household_id <- get_str record "household_id" EmptyString;;
    flag_status <- get_flag_status_upper record;;
    let flag_status :=
      if negb (str_in flag_status (map FlagStatus.value FlagStatus.members))
      then FlagStatus.value FlagStatus.NORMAL else flag_status in
    let data_hash := compute_record_hash record in
    tx_id <- on_ledger
      (MockLedger.initialize_record record_id data_hash household_id
         flag_status user_id now tx_now);;
    ret {| anchored_tx_id := tx_id;
           anchored_record_id := record_id;
           anchored_data_hash := data_hash;
           anchored_status := RecordStatus.value RecordStatus.PENDING_REVIEW;
           ledger_anchored := true |}.

Definition valid_decisions : list string :=
    map RecordStatus.value
      (filter (fun e => negb (RecordStatus.eqb e RecordStatus.PENDING_REVIEW))
         RecordStatus.members).

Definition review_record (record_id reviewer_id decision : string)
      (updated_record : option (gmap string value))
      (now tx_now : datetime) : M t reviewed :=
    initialize;;;
    let decision := Py.upper decision in
    if negb (str_in decision valid_decisions) then
      raise (ValueError (Py.cat ["Invalid decision: "; decision]%string))
    else
      let new_hash :=
        if truthy_opt_dict updated_record
        then compute_record_hash <$> updated_record else None in
      tx_id <- on_ledger
        (MockLedger.review_record record_id reviewer_id decision new_hash
           now tx_now);;
      ret {| reviewed_tx_id := tx_id;
             reviewed_record_id := record_id;
             new_status := decision;
             new_hash := new_hash |}.

  (** [asdict(result)] holds the fields of the result, by value. *)
Definition verify_integrity (record_id : string) (record : gmap string value)
      (accessor_id : string) (now tx_now result_now : datetime)
      : M t IntegrityResult.t :=
    initialize;;;
    let current_hash := compute_record_hash record in
    on_ledger
      (MockLedger.verify_integrity record_id current_hash accessor_id
         now tx_now result_now).

Definition log_access (record_id accessor_id reason : string)
      (now tx_now : datetime) : M t access_logged :=
    initialize;;;
    tx_id <- on_ledger
      (MockLedger.log_access record_id accessor_id reason now tx_now);;
    ret {| logged_tx_id := tx_id; logged_record_id := record_id; logged := true |}.

  (** [asdict(record)]: the fields of the record as they are at the call,
      copied. *)
Definition get_ledger_record (record_id : string) : M t (option LedgerRecord.t) :=
    initialize;;;
    record <- on_ledger (MockLedger.get_record record_id);;
    s <- get_state;;
    ret (record ≫= MockLedger.deref_record (ledger s)).

Definition get_access_logs (record_id : string) : M t (list AccessLogEntry.t) :=
    initialize;;;
    logs <- on_ledger (MockLedger.get_access_logs record_id);;
    s <- get_state;;
    ret (omap (MockLedger.deref_log (ledger s)) logs).

End Operations.

End BlockchainService.

(** ** Sequences of calls on the store *)

Module Trace.

Inductive call : Type :=
| InitializeRecord (record_id data_hash household_id flag_status user_id : string)
    (now tx_now : datetime)
| ReviewRecord (record_id reviewer_id decision : string) (new_hash : option string)
    (now tx_now : datetime)
| VerifyIntegrity (record_id provided_hash accessor_id : string)
    (now tx_now result_now : datetime)
| LogAccess (record_id accessor_id reason : string) (now tx_now : datetime).

Definition call_record_id (c : call) : string :=
  match c with
  | InitializeRecord record_id _ _ _ _ _ _ => record_id
  | ReviewRecord record_id _ _ _ _ _ => record_id
  | VerifyIntegrity record_id _ _ _ _ _ => record_id
  | LogAccess record_id _ _ _ _ => record_id
  end.

(** The entries of a log that carry [record_id]. *)
Definition entries_of (record_id : string) (logs : list AccessLogEntry.t)
    : list AccessLogEntry.t :=
  List.filter (fun log => String.eqb (AccessLogEntry.record_id log) record_id) logs.

Section Run.
Context `{Environ}.

  (** One call, its result dropped. *)
Definition exec (c : call) : M MockLedger.t unit :=
    match c with
    | InitializeRecord record_id data_hash household_id flag_status user_id now tx_now =>
        MockLedger.initialize_record record_id data_hash household_id
          flag_status user_id now tx_now;;; ret tt
    | ReviewRecord record_id reviewer_id decision new_hash now tx_now =>
        MockLedger.review_record record_id reviewer_id decision new_hash
          now tx_now;;; ret tt
    | VerifyIntegrity record_id provided_hash accessor_id now tx_now result_now =>
        MockLedger.verify_integrity record_id provided_hash accessor_id
          now tx_now result_now;;; ret tt
    | LogAccess record_id accessor_id reason now tx_now =>
        MockLedger.log_access record_id accessor_id reason now tx_now;;; ret tt
    end.

Definition returned {A} (r : exn + A) : bool :=
    match r with inr _ => true | inl _ => false end.

  (** The calls are made one after the other; a caller that gets an
      exception goes on with the next call. *)
Fixpoint run (cs : list call) (L : MockLedger.t) : MockLedger.t :=
    match cs with
    | [] => L
    | c :: cs' => run cs' (snd (exec c L))
    end.

  (** The calls on [record_id] that returned without an exception, in
      call order. *)
Fixpoint successes (record_id : string) (cs : list call) (L : MockLedger.t)
      : list call :=
    match cs with
    | [] => []
    | c :: cs' =>
        let '(r, L') := exec c L in
        if String.eqb (call_record_id c) record_id && returned r
        then c :: successes record_id cs' L'
        else successes record_id cs' L'
    end.

  (** The calls of the two kinds, on a given record. *)
Definition is_review (record_id : string) (c : call) : Prop :=
    exists reviewer_id decision new_hash now tx_now,
      c = ReviewRecord record_id reviewer_id decision new_hash now tx_now.

Definition is_initialize (record_id : string) (c : call) : Prop :=
    exists data_hash household_id flag_status user_id now tx_now,
      c = InitializeRecord record_id data_hash household_id flag_status user_id
            now tx_now.

  (** What [get_access_logs] shows a caller that reads the entries at
      once. *)
Definition audit_trail (record_id : string) (L : MockLedger.t)
      : list AccessLogEntry.t :=
    match MockLedger.get_access_logs record_id L with
    | (inr refs, L') => omap (MockLedger.deref_log L') refs
    | (inl _, _) => []
    end.

  (** A record with [n] reviews behind it: its version, and the action
      types of its audit trail. *)
Definition history_is (record_id : string) (n : nat) (L : MockLedger.t) : Prop :=
    (LedgerRecord.version <$> PyDict.get record_id (MockLedger.records L))
      = Some (1 + Z.of_nat n)
    /\ AccessLogEntry.action_type <$> audit_trail record_id L
       = "INITIALIZE"%string :: repeat "REVIEW"%string n.
End Run.

End Trace.

(** ** Digest collisions *)

(** Two different byte strings with the same SHA-256 digest. *)
Definition sha256_collision (a b : string) : Prop :=
  a ≠ b ∧ SHA256.hexdigest a = SHA256.hexdigest b.

(** The bytes [compute_record_hash] digests. *)
Definition hashed_bytes (record : gmap string value) : string :=
  Py.encode_utf8 (canonical_json record).

(** ** Sample data *)

Module Sample.

Definition env : Environ := {| environ := ∅ |}.

Definition t1 : datetime :=
  {| isoformat := "2026-01-01T10:00:00+00:00"; strftime_YmdHMS := "20260101100000" |}.
Definition t2 : datetime :=
  {| isoformat := "2026-01-02T11:30:00+00:00"; strftime_YmdHMS := "20260102113000" |}.

Definition R1 : gmap string value :=
  {[ "record_id"%string := VStr (Py.text_of "R1");
     "name"%string := VStr (Py.text_of "A");
     "income"%string := VInt 1000 ]}.
Definition R1_corrected : gmap string value :=
  {[ "record_id"%string := VStr (Py.text_of "R1");
     "name"%string := VStr (Py.text_of "A");
     "income"%string := VInt 1200 ]}.
(** The same content with the income as text and a storage field added. *)
Definition R1_as_text : gmap string value :=
  {[ "record_id"%string := VStr (Py.text_of "R1");
     "name"%string := VStr (Py.text_of "A");
     "income"%string := VStr (Py.text_of "1000");
     "_id"%string := VObj (Py.text_of "ObjectId(1)") ]}.

(** The same content as the database returns it, storage fields added. *)
Definition R1_stored : gmap string value :=
  {[ "record_id"%string := VStr (Py.text_of "R1");
     "name"%string := VStr (Py.text_of "A");
     "income"%string := VInt 1000;
     "_id"%string := VObj (Py.text_of "ObjectId(1)");
     "updated_at"%string := VStr (Py.text_of "2026-01-03") ]}.

(** The store after [R1] has been anchored by [u1]. *)
Definition anchored : BlockchainService.t :=
  snd (BlockchainService.anchor_record (H := env) R1 "u1" t1 t1
         BlockchainService.__init__).

(** and after [u2] has approved it. *)
Definition approved : BlockchainService.t :=
  snd (BlockchainService.review_record (H := env) "R1" "u2" "approved" None t2 t2
         anchored).

(** The record the store holds after the one and after the other. *)
Definition anchored_R1 : LedgerRecord.t :=
  LedgerRecord.mk "R1" (compute_record_hash R1) EmptyString "PENDING_REVIEW"
    "NORMAL" "u1" (isoformat t1) "u1" (isoformat t1) 1 None.
Definition approved_R1 : LedgerRecord.t :=
  LedgerRecord.mk "R1" (compute_record_hash R1) EmptyString "APPROVED"
    "NORMAL" "u1" (isoformat t1) "u2" (isoformat t2) 2 None.

(** The two stores themselves. *)
Definition anchored_ledger : MockLedger.t := BlockchainService.ledger anchored.
Definition approved_ledger : MockLedger.t := BlockchainService.ledger approved.

(** A run of calls: [R1] is anchored and reviewed twice, with calls on
    other records, a second anchor of [R1] and a review of an unknown record
    in between. *)
Definition first_call : Trace.call :=
  Trace.InitializeRecord "R1" "aa01" "H1" "NORMAL" "u1" t1 t1.
Definition review_calls : list Trace.call :=
  [ Trace.ReviewRecord "R1" "u2" "NEEDS_VERIFICATION" None t2 t2;
    Trace.ReviewRecord "R1" "u3" "APPROVED" (Some "aa02"%string) t2 t2 ].
Definition calls : list Trace.call :=
  [ Trace.ReviewRecord "R1" "u2" "APPROVED" None t1 t1;
    Trace.LogAccess "R2" "u4" "lookup" t1 t1;
    first_call;
    Trace.InitializeRecord "R2" "bb01" "H2" "REVIEW" "u1" t1 t1;
    Trace.ReviewRecord "R1" "u2" "NEEDS_VERIFICATION" None t2 t2;
    Trace.InitializeRecord "R1" "cc01" "H1" "NORMAL" "u5" t2 t2;
    Trace.VerifyIntegrity "R2" "bb01" "u4" t2 t2 t2;
    Trace.ReviewRecord "R1" "u3" "APPROVED" (Some "aa02"%string) t2 t2 ].

End Sample.

(** ** Further notions used in the properties *)

(** The character [c] occurs in [s]. *)
Definition occurs (c : ascii) (s : string) : Prop :=
  In c (list_ascii_of_string s).

(** Reading back what [Py.hex_of_N] and [Py.zfill] write. *)
Definition read_hex (s : string) : option N :=
  N.of_hex_uint <$> HexadecimalString.NilZero.uint_of_string s.

Module Numbered.

(** The audit entries of a store are numbered by position: the entry at
    position [i] has the log id of position [i] and the transaction number
    [i + 1]. *)
Definition entry_numbered (i : nat) (e : AccessLogEntry.t) : Prop :=
  AccessLogEntry.log_id e
    = Py.cat ["LOG_"; AccessLogEntry.record_id e; "_";
              Py.str_of_int (Z.of_nat i)]%string
  /\ exists stamp,
       AccessLogEntry.tx_id e
       = Py.cat ["tx_"; Py.format_08x (Z.of_nat i + 1); "_"; stamp]%string.

Definition numbered (L : MockLedger.t) : Prop :=
  MockLedger.tx_counter L = Z.of_nat (length (MockLedger.access_logs L))
  /\ forall i e, MockLedger.access_logs L !! i = Some e -> entry_numbered i e.

End Numbered.

(** Calls on records other than [R1]. *)
Module MoreSamples.
Definition other_calls : list Trace.call :=
  [ Trace.LogAccess "R2" "u4" "lookup" Sample.t1 Sample.t1;
    Trace.InitializeRecord "R2" "bb01" "H2" "REVIEW" "u1" Sample.t1 Sample.t1;
    Trace.VerifyIntegrity "R2" "bb01" "u4" Sample.t2 Sample.t2 Sample.t2;
    Trace.ReviewRecord "R3" "u2" "APPROVED" None Sample.t2 Sample.t2;
    Trace.ReviewRecord "R2" "u2" "REJECTED" (Some "bb02"%string) Sample.t2 Sample.t2 ].

(** A mapping with storage fields only. *)
Definition storage_only : gmap string value :=
  {[ "_id"%string := VObj (Py.text_of "ObjectId(7)");
     "updated_at"%string := VStr (Py.text_of "2026-01-03");
     "flag_status"%string := VStr (Py.text_of "review") ]}.

(** A name of one character above the basic plane (U+1F600), and the same
    name written as the two surrogates of its pair. *)
Definition named : gmap string value :=
  {[ "name"%string := VStr [0x1f600%N] ]}.
Definition named_in_surrogates : gmap string value :=
  {[ "name"%string := VStr [0xd83d%N; 0xde00%N] ]}.
End MoreSamples.

(** ** The facade over sequences of calls *)

(** What [record.get(key, default)] gives when it is a [str] of code
    points below 256. *)
Definition field_str (record : gmap string value) (key default : string)
    : option string :=
  match record !! key with
  | None => Some default
  | Some (VStr s) => Py.latin1 s
  | Some _ => None
  end.

(** The flag status [anchor_record] stores: upper-cased, and [NORMAL] when
    that is not a flag status. *)
Definition normalized_flag (flag_status : string) : string :=
  if negb (str_in (Py.upper flag_status) (map FlagStatus.value FlagStatus.members))
  then FlagStatus.value FlagStatus.NORMAL else Py.upper flag_status.

Module FacadeTrace.

Inductive call : Type :=
| AnchorRecord (record : gmap string value) (user_id : string) (now tx_now : datetime)
| ReviewRecord (record_id reviewer_id decision : string)
    (updated_record : option (gmap string value)) (now tx_now : datetime)
| VerifyIntegrity (record_id : string) (record : gmap string value)
    (accessor_id : string) (now tx_now result_now : datetime)
| LogAccess (record_id accessor_id reason : string) (now tx_now : datetime)
| GetLedgerRecord (record_id : string)
| GetAccessLogs (record_id : string).

Section Run.
Context `{Environ}.

Definition exec (c : call) : M BlockchainService.t unit :=
  match c with
  | AnchorRecord record user_id now tx_now =>
      BlockchainService.anchor_record record user_id now tx_now;;; ret tt
  | ReviewRecord record_id reviewer_id decision updated_record now tx_now =>
      BlockchainService.review_record record_id reviewer_id decision
        updated_record now tx_now;;; ret tt
  | VerifyIntegrity record_id record accessor_id now tx_now result_now =>
      BlockchainService.verify_integrity record_id record accessor_id
        now tx_now result_now;;; ret tt
  | LogAccess record_id accessor_id reason now tx_now =>
      BlockchainService.log_access record_id accessor_id reason now tx_now;;; ret tt
  | GetLedgerRecord record_id =>
      BlockchainService.get_ledger_record record_id;;; ret tt
  | GetAccessLogs record_id =>
      BlockchainService.get_access_logs record_id;;; ret tt
  end.

Fixpoint run (cs : list call) (S : BlockchainService.t) : BlockchainService.t :=
  match cs with
  | [] => S
  | c :: cs' => run cs' (snd (exec c S))
  end.
End Run.




End FacadeTrace.

Module FacadeSamples.

(** Calls through the facade: two anchors (one with a flag that is not a
    flag status), a refused and two accepted reviews, reads. *)
Definition R2 : gmap string value :=
  {[ "record_id"%string := VStr (Py.text_of "R2");
     "household_id"%string := VStr (Py.text_of "H2");
     "flag_status"%string := VStr (Py.text_of "urgent"); "age"%string := VInt 41 ]}.

Definition calls : list FacadeTrace.call :=
  [ FacadeTrace.AnchorRecord Sample.R1 "u1" Sample.t1 Sample.t1;
    FacadeTrace.AnchorRecord R2 "u1" Sample.t1 Sample.t1;
    FacadeTrace.ReviewRecord "R1" "u2" "pending_review" None Sample.t2 Sample.t2;
    FacadeTrace.ReviewRecord "R1" "u2" "approved" (Some Sample.R1_corrected)
      Sample.t2 Sample.t2;
    FacadeTrace.GetLedgerRecord "R1";
    FacadeTrace.VerifyIntegrity "R2" R2 "u3" Sample.t2 Sample.t2 Sample.t2;
    FacadeTrace.ReviewRecord "R2" "u2" "Priority" None Sample.t2 Sample.t2;
    FacadeTrace.AnchorRecord Sample.R1 "u5" Sample.t2 Sample.t2 ].

(** [R2] anchored after [R1]: the result and the state. *)
Definition R2_anchored : BlockchainService.anchored :=
  {| BlockchainService.anchored_tx_id := "tx_00000002_20260102113000";
     BlockchainService.anchored_record_id := "R2";
     BlockchainService.anchored_data_hash := compute_record_hash R2;
     BlockchainService.anchored_status := "PENDING_REVIEW";
     BlockchainService.ledger_anchored := true |}.

Definition after_R2 : BlockchainService.t :=
  snd (BlockchainService.anchor_record (H := Sample.env) R2 "u1" Sample.t2 Sample.t2
         Sample.anchored).


End FacadeSamples.

(** [p] holds of every number of [bits] bits written after [prefix]. *)
Fixpoint all_units (bits : nat) (prefix : N) (p : N -> bool) : bool :=
  match bits with
  | O => p prefix
  | S b => all_units b (2 * prefix) p && all_units b (2 * prefix + 1) p
  end.

(** What [Json.escape_char] writes for [u] reads back as [u]. *)
Definition reads_back (u : N) : bool :=
  match Json.unescape_step (Json.escape_char u) with
  | Some (v, EmptyString) => N.eqb v u
  | _ => false
  end.

(** Two items of a dict that [Json.dumps] writes the same: the same key,
    and values of the same code units. *)
Definition same_item (a b : string * Py.text) : Prop :=
  fst a = fst b /\ Py.utf16 (snd a) = Py.utf16 (snd b).

(** One of the characters [0]..[9], [a]..[f]. *)
Definition is_lower_hex (c : ascii) : bool :=
  let n := N_of_ascii c in
  (((48 <=? n) && (n <=? 57)) || ((97 <=? n) && (n <=? 102)))%N.

Fixpoint all_chars (p : ascii -> bool) (s : string) : bool :=
  match s with
  | EmptyString => true
  | String c s' => p c && all_chars p s'
  end.

(** A printable ASCII character, from the space to the tilde. *)
Definition is_printable (c : ascii) : bool :=
  let n := N_of_ascii c in ((32 <=? n) && (n <=? 126))%N.

(** The hash the ledger holds for a record id, if any. *)
Definition stored_hash (S : BlockchainService.t) (record_id : string) : option string :=
  LedgerRecord.data_hash
    <$> PyDict.get record_id (MockLedger.records (BlockchainService.ledger S)).

(** * Properties *)

(** ** Dictionaries *)

Section DictFacts.
Context {V : Type}.
Implicit Types (d : list (string * V)) (k : string).

Lemma contains_get k d :
    PyDict.contains k d = true <-> exists v, PyDict.get k d = Some v.
Proof.
    unfold PyDict.contains.
    destruct (PyDict.get k d) as [v|]; split; intros Hx; eauto;
      try discriminate.
    destruct Hx as [v Hv]. discriminate.
Qed.

Lemma contains_false k d :
    PyDict.contains k d = false <-> PyDict.get k d = None.
Proof.
    unfold PyDict.contains. destruct (PyDict.get k d); split; congruence.
Qed.

Lemma get_set_eq k v d : PyDict.get k (PyDict.set k v d) = Some v.
Proof.
    induction d as [|[k' v'] d IH]; simpl.
    - now rewrite String.eqb_refl.
    - destruct (String.eqb k k') eqn:E; simpl; rewrite E; auto.
Qed.

Lemma get_set_ne k k' v d :
    k <> k' -> PyDict.get k (PyDict.set k' v d) = PyDict.get k d.
Proof.
    intros Hne. induction d as [|[k0 v0] d IH]; simpl.
    - apply String.eqb_neq in Hne. now rewrite Hne.
    - destruct (String.eqb k' k0) eqn:E; simpl.
      + apply String.eqb_eq in E. subst k0.
        apply String.eqb_neq in Hne. now rewrite Hne.
      + now rewrite IH.
Qed.

Lemma get_alter_eq f k d :
    PyDict.get k (PyDict.alter f k d) = f <$> PyDict.get k d.
Proof.
    induction d as [|[k' v'] d IH]; simpl; [reflexivity|].
    destruct (String.eqb k k') eqn:E; simpl; rewrite E; auto.
Qed.

Lemma get_alter_ne f k k' d :
    k <> k' -> PyDict.get k (PyDict.alter f k' d) = PyDict.get k d.
Proof.
    intros Hne. induction d as [|[k0 v0] d IH]; simpl; [reflexivity|].
    destruct (String.eqb k' k0) eqn:E; simpl.
    - apply String.eqb_eq in E. subst k0.
      apply String.eqb_neq in Hne. now rewrite Hne.
    - now rewrite IH.
Qed.

  (** The position [index_of] gives holds what [get] gives. *)
Lemma index_of_get k d :
    (index_of k d ≫= fun i => snd <$> d !! i) = PyDict.get k d.
Proof.
    induction d as [|[k' v'] d IH]; simpl; [reflexivity|].
    destruct (String.eqb k k'); [reflexivity|].
    rewrite <- IH. destruct (index_of k d); reflexivity.
Qed.

Lemma index_of_key k d i :
    index_of k d = Some i -> fst <$> d !! i = Some k.
Proof.
    revert i. induction d as [|[k' v'] d IH]; simpl; [discriminate|].
    intros i. destruct (String.eqb k k') eqn:E.
    - apply String.eqb_eq in E. intros [= <-]. now subst.
    - destruct (index_of k d) as [j|]; [|discriminate].
      intros [= <-]. now apply IH.
Qed.

  (** An update at the position of a key is the update of the object
      stored under the key. *)
Lemma alter_at_index_of f k d i :
    index_of k d = Some i ->
    alter (fun kv : string * V => (fst kv, f (snd kv))) i d = PyDict.alter f k d.
Proof.
    revert i. induction d as [|[k' v'] d IH]; simpl; [discriminate|].
    intros i. destruct (String.eqb k k') eqn:E.
    - intros [= <-]. reflexivity.
    - destruct (index_of k d) as [j|]; [|discriminate].
      intros [= <-]. simpl. f_equal. now apply IH.
Qed.
End DictFacts.

(** ** Lists of positions *)

Lemma omap_after_fmap {A B C} (f : B -> option C) (g : A -> B) (l : list A) :
  omap f (g <$> l) = omap (fun x => f (g x)) l.
Proof.
  induction l as [|x l IH]; [reflexivity|].
  change (omap f (g <$> x :: l))
    with (match f (g x) with Some y => y :: omap f (g <$> l) | None => omap f (g <$> l) end).
  rewrite IH. reflexivity.
Qed.

Section SelectFacts.
Context {A : Type} (p : A -> bool).

Lemma select_from_contents (pre l : list A) :
    omap (fun i => (pre ++ l) !! i) (select_from p (length pre) l)
    = List.filter p l.
Proof.
    revert pre. induction l as [|x l IH]; intros pre; simpl; [reflexivity|].
    assert (Hshift : omap (fun i => (pre ++ x :: l) !! i)
                       (select_from p (S (length pre)) l) = List.filter p l).
    { specialize (IH (pre ++ [x])).
      rewrite <- app_assoc in IH. simpl in IH.
      rewrite length_app in IH. simpl in IH.
      now rewrite Nat.add_1_r in IH. }
    destruct (p x); simpl.
    - rewrite lookup_app_r by lia. rewrite Nat.sub_diag. simpl.
      f_equal. exact Hshift.
    - exact Hshift.
Qed.

Lemma select_from_lookup (l : list A) i n :
    i ∈ select_from p n l ->
    exists x, l !! (i - n)%nat = Some x /\ p x = true /\ (n <= i)%nat.
Proof.
    revert n. induction l as [|x l IH]; intros n; simpl.
    - intros Hin. inversion Hin.
    - destruct (p x) eqn:Hp.
      + intros Hin. apply elem_of_cons in Hin as [->|Hin].
        * exists x. rewrite Nat.sub_diag. auto.
        * destruct (IH _ Hin) as (y & Hy & Hpy & Hle).
          exists y. replace (i - n)%nat with (S (i - S n)) by lia. auto with lia.
      + intros Hin. destruct (IH _ Hin) as (y & Hy & Hpy & Hle).
        exists y. replace (i - n)%nat with (S (i - S n)) by lia. auto with lia.
Qed.
End SelectFacts.

(** ** The store's operations as state transformers *)

Ltac unfold_M :=
  unfold bind, ret, raise, get_state, modify in *.

Section StoreFacts.
Context `{Environ}.
Import MockLedger.

Lemma initialize_record_absent record_id data_hash household_id flag_status user_id
      now tx_now L :
    PyDict.get record_id (records L) = None ->
    initialize_record record_id data_hash household_id flag_status user_id now tx_now L
    = (inr (tx_id_after L tx_now),
       mk (PyDict.set record_id
             (LedgerRecord.mk record_id data_hash household_id "PENDING_REVIEW"
                flag_status user_id (isoformat now) user_id (isoformat now) 1 None)
             (records L))
          (access_logs L ++
             [AccessLogEntry.mk (log_id_next record_id L) record_id user_id
                FABRIC_MSP_ID "INITIALIZE" "Record initialized on ledger"
                (isoformat now) (tx_id_after L tx_now)])
          (tx_counter L + 1)).
Proof.
    intros Habs. apply contains_false in Habs.
    unfold initialize_record, append_log, _generate_tx_id. unfold_M.
    rewrite Habs. reflexivity.
Qed.

Lemma initialize_record_present record_id data_hash household_id flag_status user_id
      now tx_now L r :
    PyDict.get record_id (records L) = Some r ->
    initialize_record record_id data_hash household_id flag_status user_id now tx_now L
    = (inl (ValueError (Py.cat ["Record "; record_id; " already exists on ledger"]%string)),
       L).
Proof.
    intros Hpres.
    assert (Hc : PyDict.contains record_id (records L) = true)
      by (apply contains_get; eauto).
    unfold initialize_record. unfold_M. now rewrite Hc.
Qed.

Lemma review_record_absent record_id reviewer_id decision new_hash now tx_now L :
    PyDict.get record_id (records L) = None ->
    review_record record_id reviewer_id decision new_hash now tx_now L
    = (inl (ValueError (Py.cat ["Record "; record_id; " not found on ledger"]%string)),
       L).
Proof.
    intros Habs. apply contains_false in Habs.
    unfold review_record. unfold_M. now rewrite Habs.
Qed.

Lemma review_record_present record_id reviewer_id decision new_hash now tx_now L r :
    PyDict.get record_id (records L) = Some r ->
    review_record record_id reviewer_id decision new_hash now tx_now L
    = (inr (tx_id_after L tx_now),
       mk (PyDict.alter (reviewed reviewer_id decision (isoformat now) new_hash)
             record_id (records L))
          (access_logs L ++
             [AccessLogEntry.mk (log_id_next record_id L) record_id reviewer_id
                FABRIC_MSP_ID "REVIEW" (Py.cat ["Decision: "; decision]%string)
                (isoformat now) (tx_id_after L tx_now)])
          (tx_counter L + 1)).
Proof.
    intros Hpres.
    assert (Hc : PyDict.contains record_id (records L) = true)
      by (apply contains_get; eauto).
    unfold review_record, append_log, _generate_tx_id. unfold_M.
    rewrite Hc. reflexivity.
Qed.

Lemma verify_integrity_absent record_id provided_hash accessor_id now tx_now result_now L :
    PyDict.get record_id (records L) = None ->
    verify_integrity record_id provided_hash accessor_id now tx_now result_now L
    = (inr (IntegrityResult.mk record_id false None None None None
              (Some "Record not found on ledger"%string) (isoformat result_now)),
       L).
Proof.
    intros Habs. unfold verify_integrity. unfold_M. now rewrite Habs.
Qed.

Lemma verify_integrity_present record_id provided_hash accessor_id now tx_now
      result_now L r :
    PyDict.get record_id (records L) = Some r ->
    let is_valid := String.eqb (LedgerRecord.data_hash r) provided_hash in
    verify_integrity record_id provided_hash accessor_id now tx_now result_now L
    = (inr (IntegrityResult.mk record_id is_valid
              (Some (LedgerRecord.data_hash r)) (Some provided_hash)
              (Some (LedgerRecord.current_status r))
              (Some (LedgerRecord.last_updated_at r)) None (isoformat result_now)),
       mk (records L)
          (access_logs L ++
             [AccessLogEntry.mk (log_id_next record_id L) record_id accessor_id
                FABRIC_MSP_ID "VERIFY"
                (Py.cat ["Integrity check: "; if is_valid then "PASSED" else "FAILED"]%string)
                (isoformat now) (tx_id_after L tx_now)])
          (tx_counter L + 1)).
Proof.
    intros Hpres. unfold verify_integrity, append_log, _generate_tx_id. unfold_M.
    rewrite Hpres. reflexivity.
Qed.

Lemma log_access_eq record_id accessor_id reason now tx_now L :
    log_access record_id accessor_id reason now tx_now L
    = (inr (tx_id_after L tx_now),
       mk (records L)
          (access_logs L ++
             [AccessLogEntry.mk (log_id_next record_id L) record_id accessor_id
                FABRIC_MSP_ID "ACCESS" reason (isoformat now) (tx_id_after L tx_now)])
          (tx_counter L + 1)).
Proof. reflexivity. Qed.
End StoreFacts.

(** ** The store: lookups that fail, transitions, duplicates *)

Section StoreClaims.
Context `{Environ}.
Import MockLedger.

  (** C1 (as the code has it). [verify_integrity] on a [record_id] the store
      does not hold returns a result with [verified = False] and the error
      text, and returns before anything is logged: the store, its access
      log and its transaction counter are what they were. *)
Theorem verify_integrity_unknown_record
      record_id provided_hash accessor_id now tx_now result_now L :
    PyDict.get record_id (records L) = None ->
    exists result,
      verify_integrity record_id provided_hash accessor_id now tx_now result_now L
        = (inr result, L)
      /\ IntegrityResult.verified result = false
      /\ IntegrityResult.error result = Some "Record not found on ledger"%string
      /\ IntegrityResult.record_id result = record_id.
Proof.
    intros Habs. eexists. split.
    - now apply verify_integrity_absent.
    - simpl. auto.
Qed.

  (** C2 (as the code has it). An accepted [review_record] on a stored
      record adds one to [version] and sets [last_updated_by] and
      [last_updated_at] to the reviewer and the time of the call; when a
      non-empty [new_hash] is given, [previous_hash] becomes the former
      [data_hash] and [data_hash] the new hash; when [new_hash] is [None] or
      the empty string, both are left as they were. *)
Theorem review_record_updates
      record_id reviewer_id decision new_hash now tx_now L r :
    PyDict.get record_id (records L) = Some r ->
    exists tx_id L' r',
      review_record record_id reviewer_id decision new_hash now tx_now L
        = (inr tx_id, L')
      /\ PyDict.get record_id (records L') = Some r'
      /\ LedgerRecord.version r' = LedgerRecord.version r + 1
      /\ LedgerRecord.last_updated_by r' = reviewer_id
      /\ LedgerRecord.last_updated_at r' = isoformat now
      /\ match new_hash with
         | Some (String c h) =>
             LedgerRecord.previous_hash r' = Some (LedgerRecord.data_hash r)
             /\ LedgerRecord.data_hash r' = String c h
         | _ =>
             LedgerRecord.previous_hash r' = LedgerRecord.previous_hash r
             /\ LedgerRecord.data_hash r' = LedgerRecord.data_hash r
         end.
Proof.
    intros Hpres. do 3 eexists. split.
    - now apply review_record_present with (r := r).
    - simpl. rewrite get_alter_eq, Hpres. simpl. split; [reflexivity|].
      unfold reviewed. destruct new_hash as [[|c h]|]; simpl; auto.
Qed.

  (** C6 (as the code has it). The store's [review_record] does not look at
      the status it is given: on a stored record it succeeds for every
      [decision] string, [PENDING_REVIEW] and strings outside the
      enumeration included, and sets [current_status] to it. *)
Theorem review_record_any_status
      record_id reviewer_id decision new_hash now tx_now L r :
    PyDict.get record_id (records L) = Some r ->
    exists tx_id L' r',
      review_record record_id reviewer_id decision new_hash now tx_now L
        = (inr tx_id, L')
      /\ PyDict.get record_id (records L') = Some r'
      /\ LedgerRecord.current_status r' = decision.
Proof.
    intros Hpres. do 3 eexists. split.
    - now apply review_record_present with (r := r).
    - simpl. rewrite get_alter_eq, Hpres. simpl. split; [reflexivity|].
      unfold reviewed. destruct (Py.truthy_opt_str new_hash); reflexivity.
Qed.

  (** C8. [initialize_record] on a [record_id] the store already holds
      raises the "already exists" [ValueError] and leaves the store as it
      was: the stored record in every field, the access log, the
      transaction counter. *)
Theorem initialize_record_duplicate
      record_id data_hash household_id flag_status user_id now tx_now L r :
    PyDict.get record_id (records L) = Some r ->
    exists L',
      initialize_record record_id data_hash household_id flag_status user_id
        now tx_now L
        = (inl (ValueError
                  (Py.cat ["Record "; record_id; " already exists on ledger"]%string)),
           L')
      /\ L' = L
      /\ PyDict.get record_id (records L') = Some r
      /\ access_logs L' = access_logs L.
Proof.
    intros Hpres. exists L. split; [|auto].
    now apply initialize_record_present with (r := r).
Qed.
End StoreClaims.

Section StoreExamples.
Import MockLedger.
#[local] Existing Instance Sample.env.

Lemma verify_integrity_unknown_record_witness :
    PyDict.get "R9" (records Sample.anchored_ledger) = None
    /\ exists result,
         verify_integrity "R9" "00ff" "u3" Sample.t1 Sample.t1 Sample.t2 Sample.anchored_ledger
           = (inr result, Sample.anchored_ledger)
         /\ IntegrityResult.verified result = false
         /\ IntegrityResult.error result = Some "Record not found on ledger"%string
         /\ IntegrityResult.record_id result = "R9"%string.
Proof.
    split; [vm_compute; reflexivity|].
    apply (verify_integrity_unknown_record "R9" "00ff" "u3"
             Sample.t1 Sample.t1 Sample.t2 Sample.anchored_ledger).
    vm_compute; reflexivity.
Defined.

  (** C1 as stated fails: the lookup of the unknown [R9] leaves the access
      log as it was, no [VERIFY] entry is appended. *)
Lemma verify_integrity_unknown_record_not_logged :
    PyDict.get "R9" (records Sample.anchored_ledger) = None
    /\ forall L',
         snd (verify_integrity "R9" "00ff" "u3"
                Sample.t1 Sample.t1 Sample.t2 Sample.anchored_ledger) = L' ->
         ~ exists e,
             access_logs L' = access_logs Sample.anchored_ledger ++ [e]
             /\ AccessLogEntry.action_type e = "VERIFY"%string.
Proof.
    split; [vm_compute; reflexivity|].
    intros L' <- (e & Hlog & _).
    apply (f_equal (@length _)) in Hlog.
    rewrite length_app in Hlog. vm_compute in Hlog. discriminate.
Qed.

Lemma review_record_updates_witness :
    PyDict.get "R1" (records Sample.anchored_ledger) = Some Sample.anchored_R1
    /\ exists tx_id L' r',
         review_record "R1" "u2" "APPROVED" (Some "ab12"%string)
           Sample.t2 Sample.t2 Sample.anchored_ledger = (inr tx_id, L')
         /\ PyDict.get "R1" (records L') = Some r'
         /\ LedgerRecord.version r' = LedgerRecord.version Sample.anchored_R1 + 1
         /\ LedgerRecord.last_updated_by r' = "u2"%string
         /\ LedgerRecord.last_updated_at r' = isoformat Sample.t2
         /\ LedgerRecord.previous_hash r'
              = Some (LedgerRecord.data_hash Sample.anchored_R1)
            /\ LedgerRecord.data_hash r' = "ab12"%string.
Proof.
    split; [vm_compute; reflexivity|].
    apply (review_record_updates "R1" "u2" "APPROVED" (Some "ab12"%string)
             Sample.t2 Sample.t2 Sample.anchored_ledger Sample.anchored_R1).
    vm_compute; reflexivity.
Defined.

  (** C2 as stated fails: a [new_hash] that is given but empty is not
      chained, [data_hash] and [previous_hash] stay as they were. *)
Lemma review_record_empty_hash_not_chained :
    exists r tx_id L' r',
      PyDict.get "R1" (records Sample.anchored_ledger) = Some r
      /\ review_record "R1" "u2" "APPROVED" (Some EmptyString) Sample.t2 Sample.t2
           Sample.anchored_ledger = (inr tx_id, L')
      /\ PyDict.get "R1" (records L') = Some r'
      /\ ~ (LedgerRecord.previous_hash r' = Some (LedgerRecord.data_hash r)
            /\ LedgerRecord.data_hash r' = EmptyString).
Proof.
    do 4 eexists. repeat split; try (vm_compute; reflexivity).
    intros [Hprev _]. vm_compute in Hprev. discriminate.
Qed.

Lemma review_record_any_status_witness :
    PyDict.get "R1" (records Sample.approved_ledger) = Some Sample.approved_R1
    /\ exists tx_id L' r',
         review_record "R1" "u2" "no such status" None Sample.t2 Sample.t2
           Sample.approved_ledger = (inr tx_id, L')
         /\ PyDict.get "R1" (records L') = Some r'
         /\ LedgerRecord.current_status r' = "no such status"%string.
Proof.
    split; [vm_compute; reflexivity|].
    apply (review_record_any_status "R1" "u2" "no such status" None
             Sample.t2 Sample.t2 Sample.approved_ledger Sample.approved_R1).
    vm_compute; reflexivity.
Defined.

  (** C6 as stated fails: the store takes an approved record back to
      [PENDING_REVIEW]. *)
Lemma review_record_back_to_pending :
    exists r tx_id L' r',
      PyDict.get "R1" (records Sample.approved_ledger) = Some r
      /\ LedgerRecord.current_status r = "APPROVED"%string
      /\ review_record "R1" "u2" (RecordStatus.value RecordStatus.PENDING_REVIEW)
           None Sample.t2 Sample.t2 Sample.approved_ledger = (inr tx_id, L')
      /\ PyDict.get "R1" (records L') = Some r'
      /\ LedgerRecord.current_status r' = "PENDING_REVIEW"%string.
Proof.
    do 4 eexists. repeat split; vm_compute; reflexivity.
Qed.

Lemma initialize_record_duplicate_witness :
    PyDict.get "R1" (records Sample.approved_ledger) = Some Sample.approved_R1
    /\ exists L',
         initialize_record "R1" "00ff" "H7" "PRIORITY" "u5" Sample.t2 Sample.t2
           Sample.approved_ledger
           = (inl (ValueError
                     (Py.cat ["Record "; "R1"; " already exists on ledger"]%string)),
              L')
         /\ L' = Sample.approved_ledger
         /\ PyDict.get "R1" (records L') = Some Sample.approved_R1
         /\ access_logs L' = access_logs Sample.approved_ledger.
Proof.
    split; [vm_compute; reflexivity|].
    apply (initialize_record_duplicate "R1" "00ff" "H7" "PRIORITY" "u5"
             Sample.t2 Sample.t2 Sample.approved_ledger Sample.approved_R1).
    vm_compute; reflexivity.
Defined.
End StoreExamples.

(** ** The facade *)

Lemma str_in_true x l : str_in x l = true <-> In x l.
Proof.
  unfold str_in. rewrite existsb_exists. split.
  - intros (y & Hy & E). apply String.eqb_eq in E. now subst.
  - intros Hin. exists x. split; [assumption|apply String.eqb_refl].
Qed.

Lemma str_in_false x l : str_in x l = false <-> ~ In x l.
Proof.
  rewrite <- str_in_true. destruct (str_in x l); split; congruence.
Qed.

Lemma bind_inr {S A B} (m : M S A) (k : A -> M S B) s b s' :
  bind m k s = (inr b, s') ->
  exists a s1, m s = (inr a, s1) /\ k a s1 = (inr b, s').
Proof. unfold bind. destruct (m s) as [[e|a] s1]; [discriminate|eauto]. Qed.

Lemma bind_inl {S A B} (m : M S A) (k : A -> M S B) s e s' :
  bind m k s = (inl e, s') ->
  m s = (inl e, s') \/ exists a s1, m s = (inr a, s1) /\ k a s1 = (inl e, s').
Proof.
  unfold bind. destruct (m s) as [[e0|a] s1] eqn:E; intros Heq.
  - left. injection Heq as <- <-. reflexivity.
  - right. exists a, s1. split; [reflexivity|exact Heq].
Qed.

Section FacadeFacts.
Context `{Environ}.
Import BlockchainService.

Lemma get_str_state record key default S x S' :
    get_str record key default S = (x, S') -> S' = S.
Proof.
    unfold get_str, ret, raise.
    destruct (record !! key) as [[| | | |s|]|];
      try destruct (Py.latin1 s); now intros [= _ <-].
Qed.

Lemma get_flag_status_upper_state record S x S' :
    get_flag_status_upper record S = (x, S') -> S' = S.
Proof.
    unfold get_flag_status_upper, ret, raise.
    destruct (record !! "flag_status"%string) as [[| | | |s|]|];
      try destruct (Py.latin1 s); now intros [= _ <-].
Qed.

Lemma on_ledger_inr {A} (m : M MockLedger.t A) S a S' :
    on_ledger m S = (inr a, S') ->
    exists L', m (ledger S) = (inr a, L') /\ S' = mk L' (_initialized S).
Proof.
    unfold on_ledger. destruct (m (ledger S)) as [[e|a0] L'].
    - discriminate.
    - intros [= <- <-]. eauto.
Qed.

Lemma on_ledger_inl {A} (m : M MockLedger.t A) S e S' :
    on_ledger m S = (inl e, S') ->
    exists L', m (ledger S) = (inl e, L') /\ S' = mk L' (_initialized S).
Proof.
    unfold on_ledger. destruct (m (ledger S)) as [[e0|a0] L'].
    - intros [= <- <-]. eauto.
    - discriminate.
Qed.

Lemma initialize_eq S : initialize S = (inr tt, mk (ledger S) true).
Proof.
    unfold initialize. unfold_M. destruct S as [L [|]]; reflexivity.
Qed.

Lemma valid_decisions_eq :
    valid_decisions = ["APPROVED"; "REJECTED"; "NEEDS_VERIFICATION"; "PRIORITY"]%string.
Proof. reflexivity. Qed.

  (** A decision outside the list is refused before the store is called. *)
Lemma review_record_refused record_id reviewer_id decision updated_record now tx_now S :
    str_in (Py.upper decision) valid_decisions = false ->
    review_record record_id reviewer_id decision updated_record now tx_now S
    = (inl (ValueError (Py.cat ["Invalid decision: "; Py.upper decision]%string)),
       mk (ledger S) true).
Proof.
    intros Hbad. unfold review_record. unfold bind at 1. rewrite initialize_eq.
    rewrite Hbad. reflexivity.
Qed.

  (** An accepted decision goes to the store with the hash of the updated
      record, if one is given and is not empty. *)
Lemma review_record_accepted record_id reviewer_id decision updated_record now tx_now S :
    str_in (Py.upper decision) valid_decisions = true ->
    let new_hash :=
      if truthy_opt_dict updated_record
      then compute_record_hash <$> updated_record else None in
    review_record record_id reviewer_id decision updated_record now tx_now S
    = match MockLedger.review_record record_id reviewer_id (Py.upper decision)
              new_hash now tx_now (ledger S) with
      | (inr tx_id, L') =>
          (inr {| reviewed_tx_id := tx_id; reviewed_record_id := record_id;
                  new_status := Py.upper decision; new_hash := new_hash |},
           mk L' true)
      | (inl e, L') => (inl e, mk L' true)
      end.
Proof.
    intros Hok. unfold review_record. unfold bind at 1. rewrite initialize_eq.
    rewrite Hok. simpl. unfold bind, on_ledger, ret. simpl.
    destruct (MockLedger.review_record _ _ _ _ _ _ _) as [[e|tx] L']; reflexivity.
Qed.

Lemma verify_integrity_eq record_id record accessor_id now tx_now result_now S :
    verify_integrity record_id record accessor_id now tx_now result_now S
    = let '(r, L') :=
        MockLedger.verify_integrity record_id (compute_record_hash record)
          accessor_id now tx_now result_now (ledger S) in
      (r, mk L' true).
Proof.
    unfold verify_integrity. unfold bind. rewrite initialize_eq.
    unfold on_ledger. reflexivity.
Qed.
End FacadeFacts.

Section FacadeClaims.
Context `{Environ}.
Import BlockchainService.

  (** C9. The facade's [review_record] with a decision that upper-cases to
      [PENDING_REVIEW], or to anything that is not one of the four other
      statuses, raises a [ValueError]; the ledger it holds is left as it
      was: no audit entry, every record unchanged. For a decision of ASCII
      characters the error reads "Invalid decision: " and the upper-cased
      decision. (What the error reads for another decision is not stated:
      [Py.upper] is [str.upper] on ASCII only.) *)
Theorem review_record_invalid_decision
      record_id reviewer_id decision updated_record now tx_now S :
    Py.upper decision = "PENDING_REVIEW"%string
    \/ ~ In (Py.upper decision)
           ["APPROVED"; "REJECTED"; "NEEDS_VERIFICATION"; "PRIORITY"]%string ->
    exists message S',
      review_record record_id reviewer_id decision updated_record now tx_now S
        = (inl (ValueError message), S')
      /\ (Py.isascii decision = true ->
          message = Py.cat ["Invalid decision: "; Py.upper decision]%string)
      /\ ledger S' = ledger S
      /\ MockLedger.access_logs (ledger S') = MockLedger.access_logs (ledger S)
      /\ MockLedger.records (ledger S') = MockLedger.records (ledger S).
Proof.
    intros Hbad.
    assert (Hout : str_in (Py.upper decision) valid_decisions = false).
    { apply str_in_false. rewrite valid_decisions_eq.
      destruct Hbad as [-> | Hnot]; [|assumption].
      simpl. intros [E|[E|[E|[E|[]]]]]; discriminate. }
    do 2 eexists. split; [now apply review_record_refused|]. simpl. auto.
Qed.

  (** C10. With an accepted decision on a stored record, an [updated_record]
      that is the empty mapping is treated as an absent one: the two calls
      give the same result and the same state, no hash is computed
      ([new_hash] is [None]), [data_hash] and [previous_hash] stay, and
      [version] goes up by one. *)
Theorem review_record_empty_update
      record_id reviewer_id decision now tx_now S r :
    PyDict.get record_id (MockLedger.records (ledger S)) = Some r ->
    In (Py.upper decision)
       ["APPROVED"; "REJECTED"; "NEEDS_VERIFICATION"; "PRIORITY"]%string ->
    review_record record_id reviewer_id decision (Some ∅) now tx_now S
      = review_record record_id reviewer_id decision None now tx_now S
    /\ exists result S' r',
         review_record record_id reviewer_id decision (Some ∅) now tx_now S
           = (inr result, S')
         /\ new_hash result = None
         /\ new_status result = Py.upper decision
         /\ PyDict.get record_id (MockLedger.records (ledger S')) = Some r'
         /\ LedgerRecord.data_hash r' = LedgerRecord.data_hash r
         /\ LedgerRecord.previous_hash r' = LedgerRecord.previous_hash r
         /\ LedgerRecord.version r' = LedgerRecord.version r + 1.
Proof.
    intros Hpres Hok.
    assert (Hin : str_in (Py.upper decision) valid_decisions = true)
      by (apply str_in_true; now rewrite valid_decisions_eq).
    assert (Hempty : truthy_opt_dict (Some (∅ : gmap string value)) = false).
    { unfold truthy_opt_dict. now rewrite bool_decide_eq_true_2. }
    rewrite !review_record_accepted by assumption.
    rewrite Hempty. simpl. split; [reflexivity|].
    rewrite (review_record_present _ _ _ _ _ _ _ r Hpres).
    do 3 eexists. split; [reflexivity|]. simpl.
    rewrite get_alter_eq, Hpres. simpl. auto 10.
Qed.
End FacadeClaims.

Section FacadeExamples.
Import BlockchainService.
#[local] Existing Instance Sample.env.

Lemma review_record_invalid_decision_witness :
    (Py.upper "pending_review" = "PENDING_REVIEW"%string
     \/ ~ In (Py.upper "pending_review")
            ["APPROVED"; "REJECTED"; "NEEDS_VERIFICATION"; "PRIORITY"]%string)
    /\ exists message S',
         review_record "R1" "u2" "pending_review" (Some Sample.R1_corrected)
           Sample.t2 Sample.t2 Sample.approved
           = (inl (ValueError message), S')
         /\ (Py.isascii "pending_review" = true ->
             message
             = Py.cat ["Invalid decision: "; Py.upper "pending_review"]%string)
         /\ ledger S' = ledger Sample.approved
         /\ MockLedger.access_logs (ledger S')
            = MockLedger.access_logs (ledger Sample.approved)
         /\ MockLedger.records (ledger S')
            = MockLedger.records (ledger Sample.approved).
Proof.
    split; [left; reflexivity|].
    apply (review_record_invalid_decision "R1" "u2" "pending_review"
             (Some Sample.R1_corrected) Sample.t2 Sample.t2 Sample.approved).
    left. reflexivity.
Defined.

Lemma review_record_empty_update_witness :
    PyDict.get "R1" (MockLedger.records (ledger Sample.anchored))
      = Some Sample.anchored_R1
    /\ In (Py.upper "rejected")
          ["APPROVED"; "REJECTED"; "NEEDS_VERIFICATION"; "PRIORITY"]%string
    /\ review_record "R1" "u2" "rejected" (Some ∅) Sample.t2 Sample.t2 Sample.anchored
       = review_record "R1" "u2" "rejected" None Sample.t2 Sample.t2 Sample.anchored
    /\ exists result S' r',
         review_record "R1" "u2" "rejected" (Some ∅) Sample.t2 Sample.t2 Sample.anchored
           = (inr result, S')
         /\ new_hash result = None
         /\ new_status result = Py.upper "rejected"
         /\ PyDict.get "R1" (MockLedger.records (ledger S')) = Some r'
         /\ LedgerRecord.data_hash r' = LedgerRecord.data_hash Sample.anchored_R1
         /\ LedgerRecord.previous_hash r' = LedgerRecord.previous_hash Sample.anchored_R1
         /\ LedgerRecord.version r' = LedgerRecord.version Sample.anchored_R1 + 1.
Proof.
    split; [vm_compute; reflexivity|].
    split; [vm_compute; auto|].
    apply (review_record_empty_update "R1" "u2" "rejected" Sample.t2 Sample.t2
             Sample.anchored Sample.anchored_R1).
    - vm_compute; reflexivity.
    - vm_compute; auto.
Defined.
End FacadeExamples.

(** ** Sequences of calls *)

Section TraceFacts.
Context `{Environ}.
Import MockLedger Trace.

Implicit Types (L : MockLedger.t) (c : call).

Lemma audit_trail_filter rid L :
    audit_trail rid L = entries_of rid (access_logs L).
Proof.
    unfold audit_trail, get_access_logs, entries_of. unfold_M.
    rewrite omap_after_fmap.
    apply (select_from_contents _ [] (access_logs L)).
Qed.

Lemma entries_of_app rid l1 l2 :
    entries_of rid (l1 ++ l2) = entries_of rid l1 ++ entries_of rid l2.
Proof. apply List.filter_app. Qed.

Lemma entries_of_other rid l e :
    AccessLogEntry.record_id e <> rid ->
    entries_of rid (l ++ [e]) = entries_of rid l.
Proof.
    intros Hne. rewrite entries_of_app. unfold entries_of at 2. simpl.
    apply String.eqb_neq in Hne. rewrite Hne. apply app_nil_r.
Qed.

Lemma entries_of_same rid l e :
    AccessLogEntry.record_id e = rid ->
    entries_of rid (l ++ [e]) = entries_of rid l ++ [e].
Proof.
    intros He. rewrite entries_of_app. unfold entries_of at 2. simpl.
    apply String.eqb_eq in He. now rewrite He.
Qed.

  (** A call that raises leaves the store as it was. *)
Lemma exec_raised c L e : fst (exec c L) = inl e -> snd (exec c L) = L.
Proof.
    destruct c; unfold exec; unfold bind, ret.
    - destruct (PyDict.get record_id (records L)) as [r|] eqn:E.
      + now rewrite (initialize_record_present _ _ _ _ _ _ _ _ r E).
      + rewrite initialize_record_absent by assumption. discriminate.
    - destruct (PyDict.get record_id (records L)) as [r|] eqn:E.
      + rewrite (review_record_present _ _ _ _ _ _ _ r E). discriminate.
      + now rewrite review_record_absent.
    - destruct (PyDict.get record_id (records L)) as [r|] eqn:E.
      + rewrite (verify_integrity_present _ _ _ _ _ _ _ r E). discriminate.
      + rewrite verify_integrity_absent by assumption. discriminate.
    - rewrite log_access_eq. discriminate.
Qed.

  (** A call on another record leaves this record and its audit trail as
      they were. *)
Lemma exec_other rid c L :
    call_record_id c <> rid ->
    PyDict.get rid (records (snd (exec c L))) = PyDict.get rid (records L)
    /\ entries_of rid (access_logs (snd (exec c L))) = entries_of rid (access_logs L).
Proof.
    intros Hne. destruct c; unfold exec, call_record_id in *; unfold bind, ret.
    - destruct (PyDict.get record_id (records L)) as [r|] eqn:E.
      + now rewrite (initialize_record_present _ _ _ _ _ _ _ _ r E).
      + rewrite initialize_record_absent by assumption. simpl. split.
        * apply get_set_ne. congruence.
        * now apply entries_of_other.
    - destruct (PyDict.get record_id (records L)) as [r|] eqn:E.
      + rewrite (review_record_present _ _ _ _ _ _ _ r E). simpl. split.
        * apply get_alter_ne. congruence.
        * now apply entries_of_other.
      + now rewrite review_record_absent.
    - destruct (PyDict.get record_id (records L)) as [r|] eqn:E.
      + rewrite (verify_integrity_present _ _ _ _ _ _ _ r E). simpl. split.
        * reflexivity.
        * now apply entries_of_other.
      + now rewrite verify_integrity_absent.
    - rewrite log_access_eq. simpl. split; [reflexivity|].
      now apply entries_of_other.
Qed.

Lemma reviews_after_initialize rid cs : forall L k reviews,
    history_is rid k L ->
    successes rid cs L = reviews ->
    Forall (is_review rid) reviews ->
    history_is rid (k + length reviews) (run cs L).
Proof.
    induction cs as [|c cs IH]; intros L k reviews Hhist Hsucc Hall; simpl in *.
    - subst reviews. simpl. now rewrite Nat.add_0_r.
    - destruct (exec c L) as [res L'] eqn:Hexec. simpl.
      assert (HL' : L' = snd (exec c L)) by now rewrite Hexec.
      destruct (String.eqb (call_record_id c) rid) eqn:Hid; simpl in Hsucc.
      + apply String.eqb_eq in Hid.
        destruct res as [e|[]]; simpl in Hsucc.
        * assert (L' = L) as ->.
          { rewrite HL'. apply exec_raised with (e := e). now rewrite Hexec. }
          now apply IH with (reviews := reviews).
        * destruct reviews as [|rv reviews]; [discriminate|].
          injection Hsucc as Hc Hsucc. subst rv.
          apply Forall_cons in Hall as [Hrev Hall'].
          destruct Hrev as (reviewer & decision & new_hash & now & tx_now & Hc).
          rewrite Hc in Hexec. clear Hid. simpl length.
          replace (k + S (length reviews))%nat
            with (S k + length reviews)%nat by lia.
          apply IH; [|assumption|assumption].
          destruct Hhist as [Hver Htrail].
          destruct (PyDict.get rid (records L)) as [r|] eqn:E; [|discriminate].
          unfold exec in Hexec. unfold bind, ret in Hexec.
          rewrite (review_record_present _ _ _ _ _ _ _ r E) in Hexec.
          injection Hexec as <-.
          unfold history_is. rewrite audit_trail_filter in *. simpl.
          rewrite get_alter_eq, E. simpl. split.
          -- simpl in Hver. injection Hver as Hver. f_equal.
             unfold reviewed. destruct (Py.truthy_opt_str new_hash); simpl; lia.
          -- rewrite entries_of_same by reflexivity.
             rewrite fmap_app, Htrail. simpl. f_equal.
             symmetry. apply repeat_cons.
      + apply String.eqb_neq in Hid.
        apply IH with (reviews := reviews); [|assumption|assumption].
        destruct (exec_other rid c L Hid) as [Hget Hent].
        destruct Hhist as [Hver Htrail]. unfold history_is.
        rewrite audit_trail_filter in *. rewrite HL'.
        now rewrite Hget, Hent.
Qed.

Lemma initialize_then_reviews rid cs : forall L first reviews,
    PyDict.get rid (records L) = None ->
    audit_trail rid L = [] ->
    successes rid cs L = first :: reviews ->
    is_initialize rid first ->
    Forall (is_review rid) reviews ->
    history_is rid (length reviews) (run cs L).
Proof.
    induction cs as [|c cs IH]; intros L first reviews Habs Hnone Hsucc Hinit Hall;
      simpl in *; [discriminate|].
    destruct (exec c L) as [res L'] eqn:Hexec. simpl.
    assert (HL' : L' = snd (exec c L)) by now rewrite Hexec.
    destruct (String.eqb (call_record_id c) rid) eqn:Hid; simpl in Hsucc.
    - apply String.eqb_eq in Hid.
      destruct res as [e|[]]; simpl in Hsucc.
      + assert (L' = L) as ->.
        { rewrite HL'. apply exec_raised with (e := e). now rewrite Hexec. }
        now apply IH with (first := first) (reviews := reviews).
      + injection Hsucc as Hc Hsucc. subst first.
        destruct Hinit as (dh & hh & fs & u & now & tx_now & Hc).
        rewrite Hc in Hexec. clear Hid.
        apply (reviews_after_initialize rid cs L' 0 reviews); [|assumption|assumption].
        unfold exec in Hexec. unfold bind, ret in Hexec.
        rewrite initialize_record_absent in Hexec by assumption.
        injection Hexec as <-.
        unfold history_is. rewrite audit_trail_filter in *. simpl.
        rewrite get_set_eq. simpl. split; [reflexivity|].
        rewrite entries_of_same by reflexivity. now rewrite Hnone.
    - apply String.eqb_neq in Hid.
      destruct (exec_other rid c L Hid) as [Hget Hent].
      apply IH with (first := first) (reviews := reviews); try assumption.
      + now rewrite HL', Hget.
      + rewrite audit_trail_filter in *. now rewrite HL', Hent.
Qed.
End TraceFacts.

Section TraceClaims.
Context `{Environ}.
Import MockLedger Trace.

  (** C3. Calls are made on a new store, in any order and on any records.
      If the calls on [record_id] that returned without an exception are,
      in order, one [initialize_record] and then N [review_record] calls,
      the record's [version] is [1 + N] and [get_access_logs] gives exactly
      [1 + N] entries: one [INITIALIZE], then N [REVIEW]. *)
Theorem version_and_trail_after_reviews record_id calls first reviews :
    successes record_id calls MockLedger.__init__ = first :: reviews ->
    is_initialize record_id first ->
    Forall (is_review record_id) reviews ->
    (LedgerRecord.version
       <$> PyDict.get record_id (records (run calls MockLedger.__init__)))
      = Some (1 + Z.of_nat (length reviews))
    /\ AccessLogEntry.action_type
         <$> audit_trail record_id (run calls MockLedger.__init__)
       = "INITIALIZE"%string :: repeat "REVIEW"%string (length reviews)
    /\ length (audit_trail record_id (run calls MockLedger.__init__))
       = S (length reviews).
Proof.
    intros Hsucc Hfirst Hrev.
    destruct (initialize_then_reviews record_id calls MockLedger.__init__
                first reviews) as [Hver Htrail]; try assumption; try reflexivity.
    split; [assumption|]. split; [assumption|].
    apply (f_equal (@length _)) in Htrail.
    rewrite length_fmap in Htrail. rewrite Htrail. simpl.
    now rewrite repeat_length.
Qed.
End TraceClaims.

Section TraceExamples.
Import MockLedger Trace.
#[local] Existing Instance Sample.env.

Lemma version_and_trail_after_reviews_witness :
    successes "R1" Sample.calls MockLedger.__init__
      = Sample.first_call :: Sample.review_calls
    /\ is_initialize "R1" Sample.first_call
    /\ Forall (is_review "R1") Sample.review_calls
    /\ (LedgerRecord.version
          <$> PyDict.get "R1" (records (run Sample.calls MockLedger.__init__)))
         = Some (1 + Z.of_nat (length Sample.review_calls))
    /\ AccessLogEntry.action_type
         <$> audit_trail "R1" (run Sample.calls MockLedger.__init__)
       = "INITIALIZE"%string :: repeat "REVIEW"%string (length Sample.review_calls)
    /\ length (audit_trail "R1" (run Sample.calls MockLedger.__init__))
       = S (length Sample.review_calls).
Proof.
    assert (H1 : successes "R1" Sample.calls MockLedger.__init__
                 = Sample.first_call :: Sample.review_calls)
      by (vm_compute; reflexivity).
    assert (H2 : is_initialize "R1" Sample.first_call)
      by (do 6 eexists; reflexivity).
    assert (H3 : Forall (is_review "R1") Sample.review_calls)
      by (repeat constructor; do 5 eexists; reflexivity).
    split; [exact H1|]. split; [exact H2|]. split; [exact H3|].
    exact (version_and_trail_after_reviews "R1" Sample.calls
             Sample.first_call Sample.review_calls H1 H2 H3).
Defined.
End TraceExamples.

(** ** The canonical text loses nothing *)

Lemma append_assoc (a b c : string) : (a +:+ b) +:+ c = a +:+ (b +:+ c).
Proof. induction a as [|x a IH]; [reflexivity|]. cbv [append]. fold append. now rewrite IH. Qed.

Lemma append_cons (x : ascii) (a b : string) : String x a +:+ b = String x (a +:+ b).
Proof. reflexivity. Qed.

Lemma string_cons_inj (c : ascii) (a b : string) : String c a = String c b -> a = b.
Proof. now intros [= ->]. Qed.

Lemma append_nil_r (a : string) : a +:+ EmptyString = a.
Proof. induction a as [|x a IH]; [reflexivity|]. rewrite append_cons. now rewrite IH. Qed.

(** A character-wise encoding that can be read back one character at a
    time is one-to-one, whatever follows it, as long as what follows cannot
    be read as a further character. *)
Section CharCode.
Variable enc : ascii -> string.
Variable step : string -> option (ascii * string).
Hypothesis step_enc : forall c r, step (enc c +:+ r) = Some (c, r).

Lemma map_chars_inj_app s1 : forall s2 r1 r2,
    step r1 = None -> step r2 = None ->
    Py.map_chars enc s1 +:+ r1 = Py.map_chars enc s2 +:+ r2 ->
    s1 = s2 /\ r1 = r2.
Proof.
    induction s1 as [|c1 s1 IH]; intros [|c2 s2] r1 r2 H1 H2 Heq; simpl in Heq.
    - auto.
    - rewrite append_assoc in Heq. simpl in Heq.
      change (EmptyString +:+ r1) with r1 in Heq.
      rewrite Heq, step_enc in H1. discriminate.
    - rewrite append_assoc in Heq.
      change (EmptyString +:+ r2) with r2 in Heq.
      rewrite <- Heq, step_enc in H2. discriminate.
    - rewrite !append_assoc in Heq.
      apply (f_equal step) in Heq. rewrite !step_enc in Heq.
      injection Heq as -> Heq.
      destruct (IH _ _ _ H1 H2 Heq) as [-> ->]. auto.
Qed.
End CharCode.

(** The same for an encoding of numbers that can be read back on the
    numbers of a given kind. *)
Section UnitCode.
Variable enc : N -> string.
Variable step : string -> option (N * string).
Variable unit : N -> Prop.
Hypothesis step_enc : forall u r, unit u -> step (enc u +:+ r) = Some (u, r).

Lemma map_points_inj_app t1 : forall t2 r1 r2,
    Forall unit t1 -> Forall unit t2 ->
    step r1 = None -> step r2 = None ->
    Py.map_points enc t1 +:+ r1 = Py.map_points enc t2 +:+ r2 ->
    t1 = t2 /\ r1 = r2.
Proof.
    induction t1 as [|u1 t1 IH]; intros [|u2 t2] r1 r2 Hu1 Hu2 H1 H2 Heq;
      cbn [Py.map_points] in Heq.
    - auto.
    - apply Forall_cons in Hu2 as [Hu2 _].
      rewrite append_assoc in Heq.
      change (EmptyString +:+ r1) with r1 in Heq.
      rewrite Heq, step_enc in H1 by exact Hu2. discriminate.
    - apply Forall_cons in Hu1 as [Hu1 _].
      rewrite append_assoc in Heq.
      change (EmptyString +:+ r2) with r2 in Heq.
      rewrite <- Heq, step_enc in H2 by exact Hu1. discriminate.
    - apply Forall_cons in Hu1 as [Hu1 Ht1]. apply Forall_cons in Hu2 as [Hu2 Ht2].
      rewrite !append_assoc in Heq.
      apply (f_equal step) in Heq. rewrite !step_enc in Heq by assumption.
      injection Heq as -> Heq.
      destruct (IH _ _ _ Ht1 Ht2 H1 H2 Heq) as [-> ->]. auto.
Qed.
End UnitCode.

Lemma map_points_app f t1 t2 :
  Py.map_points f (t1 ++ t2) = Py.map_points f t1 +:+ Py.map_points f t2.
Proof.
  induction t1 as [|n t1 IH]; [reflexivity|].
  cbn [app Py.map_points]. now rewrite IH, append_assoc.
Qed.

Lemma utf8_step_char c r : Py.utf8_step (Py.utf8_char c +:+ r) = Some (c, r).
Proof. destruct c as [[] [] [] [] [] [] [] []]; reflexivity. Qed.

Lemma encode_utf8_inj s1 s2 : Py.encode_utf8 s1 = Py.encode_utf8 s2 -> s1 = s2.
Proof.
  intros Heq.
  apply (map_chars_inj_app _ _ utf8_step_char s1 s2 EmptyString EmptyString);
    try reflexivity.
  unfold Py.encode_utf8 in Heq. now rewrite !append_nil_r.
Qed.

(** ** Code points, code units and the escapes of a string literal *)

Lemma all_units_spec bits : forall prefix p,
  all_units bits prefix p = true ->
  forall u, (prefix * 2 ^ N.of_nat bits <= u < (prefix + 1) * 2 ^ N.of_nat bits)%N ->
  p u = true.
Proof.
  induction bits as [|b IH]; intros prefix p Hall u Hu.
  - cbn [all_units] in Hall. change (2 ^ N.of_nat 0)%N with 1%N in Hu.
    assert (u = prefix) as -> by lia. exact Hall.
  - cbn [all_units] in Hall. apply andb_prop in Hall as [H0 H1].
    rewrite Nat2N.inj_succ, N.pow_succ_r' in Hu.
    destruct (N.lt_ge_cases u ((2 * prefix + 1) * 2 ^ N.of_nat b)) as [Hlt|Hge].
    + apply (IH _ _ H0). lia.
    + apply (IH _ _ H1). lia.
Qed.

(** Reading goes by the head of the text: what follows does not matter. *)
Lemma unescape_step_append s u rest r :
  Json.unescape_step s = Some (u, rest) ->
  Json.unescape_step (s +:+ r) = Some (u, rest +:+ r).
Proof.
  destruct s as [|c s]; [discriminate|].
  rewrite append_cons. cbn [Json.unescape_step].
  destruct (Ascii.eqb c Py.dquote); [discriminate|].
  destruct (Ascii.eqb c Py.backslash); [|now intros [= <- <-]].
  destruct s as [|e s]; [discriminate|]. rewrite append_cons.
  destruct (Ascii.eqb e "n"); [now intros [= <- <-]|].
  destruct (Ascii.eqb e "r"); [now intros [= <- <-]|].
  destruct (Ascii.eqb e "t"); [now intros [= <- <-]|].
  destruct (Ascii.eqb e "b"); [now intros [= <- <-]|].
  destruct (Ascii.eqb e "f"); [now intros [= <- <-]|].
  destruct (Ascii.eqb e "u"); [|now intros [= <- <-]].
  destruct s as [|a [|b [|h [|l s]]]]; try discriminate.
  rewrite !append_cons. now intros [= <- <-].
Qed.

Lemma units_read_back : all_units 16 0 reads_back = true.
Proof. vm_compute. reflexivity. Qed.

(** Every 16-bit unit reads back from what is written for it. *)
Lemma unescape_step_char u r :
  (u < 0x10000)%N ->
  Json.unescape_step (Json.escape_char u +:+ r) = Some (u, r).
Proof.
  intros Hu.
  assert (Hback : reads_back u = true).
  { apply (all_units_spec 16 0 reads_back units_read_back).
    change (2 ^ N.of_nat 16)%N with 0x10000%N. lia. }
  unfold reads_back in Hback.
  destruct (Json.unescape_step (Json.escape_char u)) as [[v [|]]|] eqn:E;
    try discriminate.
  apply N.eqb_eq in Hback as ->.
  exact (unescape_step_append _ _ _ r E).
Qed.

Lemma escape_char_high u :
  (126 < u)%N -> (u < 0x10000)%N ->
  Json.escape_char u = String Py.backslash (String "u" (Py.format_04x u)).
Proof.
  intros Hlo Hhi. unfold Json.escape_char.
  repeat match goal with
         | |- context [(u =? ?k)%N] =>
             replace (u =? k)%N with false by (symmetry; apply N.eqb_neq; lia)
         end.
  replace (u <=? 126)%N with false by (symmetry; apply N.leb_gt; lia).
  rewrite andb_false_r.
  replace (u <? 65536)%N with true by (symmetry; apply N.ltb_lt; lia).
  reflexivity.
Qed.

Lemma surrogates_add : all_units 10 0
  (fun y => (N.lor 0xd800 y =? 0xd800 + y)%N && (N.lor 0xdc00 y =? 0xdc00 + y)%N)
  = true.
Proof. vm_compute. reflexivity. Qed.

Lemma surrogate_units y :
  (y < 0x400)%N ->
  N.lor 0xd800 y = (0xd800 + y)%N /\ N.lor 0xdc00 y = (0xdc00 + y)%N.
Proof.
  intros Hy.
  pose proof (all_units_spec 10 0 _ surrogates_add y) as Hs.
  cbv beta in Hs. change (2 ^ N.of_nat 10)%N with 0x400%N in Hs.
  apply andb_prop in Hs as [H1 H2]; [|lia].
  apply N.eqb_eq in H1, H2. auto.
Qed.

Lemma land_0x3ff x : N.land x 0x3ff = (x mod 0x400)%N.
Proof. exact (N.land_ones x 10). Qed.

(** What is written for a code point is what is written for its code
    units, one after the other. *)
Lemma escape_char_units n :
  Json.escape_char n = Py.map_points Json.escape_char (Py.code_units n).
Proof.
  unfold Py.code_units. destruct (n <? 0x10000)%N eqn:E.
  - cbn [Py.map_points]. now rewrite append_nil_r.
  - apply N.ltb_ge in E. cbn [Py.map_points]. rewrite append_nil_r.
    assert (H1 : ((n - 0x10000) / 0x400 mod 0x400 < 0x400)%N)
      by (apply N.mod_lt; discriminate).
    assert (H2 : ((n - 0x10000) mod 0x400 < 0x400)%N)
      by (apply N.mod_lt; discriminate).
    set (a := ((n - 0x10000) / 0x400 mod 0x400)%N) in *.
    set (b := ((n - 0x10000) mod 0x400)%N) in *.
    rewrite (escape_char_high (0xd800 + a)), (escape_char_high (0xdc00 + b)) by lia.
    unfold Json.escape_char.
    repeat match goal with
           | |- context [(n =? ?k)%N] =>
               replace (n =? k)%N with false by (symmetry; apply N.eqb_neq; lia)
           end.
    replace (n <=? 126)%N with false by (symmetry; apply N.leb_gt; lia).
    rewrite andb_false_r.
    replace (n <? 65536)%N with false by (symmetry; apply N.ltb_ge; lia).
    cbv zeta. rewrite !land_0x3ff, N.shiftr_div_pow2.
    change (2 ^ 10)%N with 0x400%N. fold a b.
    destruct (surrogate_units _ H1) as [-> _].
    destruct (surrogate_units _ H2) as [_ ->].
    reflexivity.
Qed.

Lemma escape_utf16 t : Json.escape t = Json.escape (Py.utf16 t).
Proof.
  unfold Json.escape, Py.utf16. induction t as [|n t IH]; [reflexivity|].
  cbn [Py.map_points flat_map]. rewrite map_points_app, <- IH.
  now rewrite escape_char_units.
Qed.

Lemma code_units_small n : Forall (fun u => (u < 0x10000)%N) (Py.code_units n).
Proof.
  unfold Py.code_units. destruct (n <? 0x10000)%N eqn:E.
  - apply N.ltb_lt in E. repeat constructor. exact E.
  - assert (H1 : ((n - 0x10000) / 0x400 mod 0x400 < 0x400)%N)
      by (apply N.mod_lt; discriminate).
    assert (H2 : ((n - 0x10000) mod 0x400 < 0x400)%N)
      by (apply N.mod_lt; discriminate).
    repeat constructor; lia.
Qed.

Lemma utf16_small t : Forall (fun u => (u < 0x10000)%N) (Py.utf16 t).
Proof.
  unfold Py.utf16. induction t as [|n t IH]; [constructor|].
  cbn [flat_map]. apply Forall_app. split; [apply code_units_small|exact IH].
Qed.

(** A string literal keeps the code units of its string, and nothing
    else of it. *)
Lemma encode_str_inj_app a b x y :
  Json.encode_str a +:+ x = Json.encode_str b +:+ y ->
  Py.utf16 a = Py.utf16 b /\ x = y.
Proof.
  unfold Json.encode_str. rewrite !append_cons, !append_assoc, !append_cons.
  change (EmptyString +:+ x) with x. change (EmptyString +:+ y) with y.
  rewrite (escape_utf16 a), (escape_utf16 b). unfold Json.escape.
  intros Heq. injection Heq as Heq.
  destruct (map_points_inj_app Json.escape_char Json.unescape_step
              (fun u => (u < 0x10000)%N) unescape_step_char
              (Py.utf16 a) (Py.utf16 b)
              (String Py.dquote x) (String Py.dquote y)
              (utf16_small a) (utf16_small b) eq_refl eq_refl Heq)
    as [Hab Hxy].
  injection Hxy as ->. auto.
Qed.

Lemma encode_str_of_units a b :
  Py.utf16 a = Py.utf16 b -> Json.encode_str a = Json.encode_str b.
Proof.
  intros Heq. unfold Json.encode_str.
  now rewrite (escape_utf16 a), (escape_utf16 b), Heq.
Qed.

Lemma N_of_ascii_small c : (N_of_ascii c < 256)%N.
Proof. destruct c as [[] [] [] [] [] [] [] []]; reflexivity. Qed.

Lemma utf16_text_of s : Py.utf16 (Py.text_of s) = Py.text_of s.
Proof.
  unfold Py.utf16. induction s as [|c s IH]; [reflexivity|].
  cbn [Py.text_of flat_map]. rewrite IH. unfold Py.code_units.
  pose proof (N_of_ascii_small c) as Hc.
  replace (N_of_ascii c <? 65536)%N with true by (symmetry; apply N.ltb_lt; lia).
  reflexivity.
Qed.

Lemma text_of_inj s1 : forall s2, Py.text_of s1 = Py.text_of s2 -> s1 = s2.
Proof.
  induction s1 as [|c1 s1 IH]; intros [|c2 s2] Heq; try discriminate;
    [reflexivity|].
  cbn [Py.text_of] in Heq. injection Heq as Hc Hs.
  apply (f_equal ascii_of_N) in Hc. rewrite !ascii_N_embedding in Hc.
  subst c2. f_equal. now apply IH.
Qed.

Lemma latin1_text_of s : Py.latin1 (Py.text_of s) = Some s.
Proof.
  induction s as [|c s IH]; [reflexivity|].
  cbn [Py.text_of Py.latin1]. rewrite IH.
  pose proof (N_of_ascii_small c) as Hc.
  replace (N_of_ascii c <? 256)%N with true by (symmetry; apply N.ltb_lt; lia).
  now rewrite ascii_N_embedding.
Qed.

Lemma encode_item_inj_app a b x y :
  Json.encode_item a +:+ x = Json.encode_item b +:+ y ->
  fst a = fst b /\ Py.utf16 (snd a) = Py.utf16 (snd b) /\ x = y.
Proof.
  destruct a as [ka va], b as [kb vb]. unfold Json.encode_item. cbn [fst snd].
  rewrite !append_assoc. intros Heq.
  apply encode_str_inj_app in Heq as [Hk Heq].
  rewrite !utf16_text_of in Hk. apply text_of_inj in Hk as ->.
  rewrite !append_cons in Heq. apply string_cons_inj in Heq.
  change (EmptyString +:+ Json.encode_str va +:+ x)
    with (Json.encode_str va +:+ x) in Heq.
  change (EmptyString +:+ Json.encode_str vb +:+ y)
    with (Json.encode_str vb +:+ y) in Heq.
  apply encode_str_inj_app in Heq as [Hv ->]. auto.
Qed.

Lemma encode_item_of_units a b :
  fst a = fst b -> Py.utf16 (snd a) = Py.utf16 (snd b) ->
  Json.encode_item a = Json.encode_item b.
Proof.
  intros Hk Hv. unfold Json.encode_item.
  now rewrite Hk, (encode_str_of_units _ _ Hv).
Qed.

Lemma encode_item_starts_with_quote a :
  exists rest, Json.encode_item a = String Py.dquote rest.
Proof. destruct a. unfold Json.encode_item, Json.encode_str. simpl. rewrite append_cons. eauto. Qed.

Lemma concat_cons_cons (sep x y : string) l :
  String.concat sep (x :: y :: l) = x +:+ sep +:+ String.concat sep (y :: l).
Proof. reflexivity. Qed.

Lemma items_inj l1 : forall l2,
  String.concat "," (map Json.encode_item l1) +:+ "}"
  = String.concat "," (map Json.encode_item l2) +:+ "}" ->
  Forall2 same_item l1 l2.
Proof.
  induction l1 as [|a l1 IH]; intros [|b l2] Heq.
  - constructor.
  - exfalso. destruct l2 as [|b' l2]; simpl in Heq;
      destruct (encode_item_starts_with_quote b) as [rest Hb];
      rewrite Hb in Heq; discriminate.
  - exfalso. destruct l1 as [|a' l1]; simpl in Heq;
      destruct (encode_item_starts_with_quote a) as [rest Ha];
      rewrite Ha in Heq; discriminate.
  - assert (Hstep : same_item a b /\
        match l1, l2 with
        | [], [] => True
        | a' :: l1', b' :: l2' =>
            String.concat "," (map Json.encode_item (a' :: l1')) +:+ "}"
            = String.concat "," (map Json.encode_item (b' :: l2')) +:+ "}"
        | _, _ => False
        end).
    { destruct l1 as [|a' l1], l2 as [|b' l2]; simpl map in Heq;
        rewrite ?concat_cons_cons, ?append_assoc in Heq;
        apply encode_item_inj_app in Heq as (Hk & Hv & Heq);
        (split; [split; assumption|]); auto; try discriminate.
      rewrite !append_cons in Heq. apply string_cons_inj in Heq. exact Heq. }
    destruct Hstep as [Hab Hrest].
    destruct l1 as [|a' l1], l2 as [|b' l2]; try contradiction;
      constructor; try assumption; [constructor|].
    now apply IH.
Qed.

Lemma items_of_units l1 l2 :
  Forall2 same_item l1 l2 -> map Json.encode_item l1 = map Json.encode_item l2.
Proof.
  induction 1 as [|a b l1 l2 [Hk Hv] _ IH]; [reflexivity|].
  cbn [map]. now rewrite IH, (encode_item_of_units a b Hk Hv).
Qed.

(** ** Sorting what is in order already *)

Section SortedFacts.
Context {A : Type} (key : A -> string).

Lemma insert_sorted_last x acc :
    Forall (fun y => String.ltb (key x) (key y) = false) acc ->
    Py.insert_sorted key x acc = acc ++ [x].
Proof.
    induction acc as [|y acc IH]; intros Hall; simpl; [reflexivity|].
    apply Forall_cons in Hall as [Hy Hall]. rewrite Hy. now rewrite IH.
Qed.

Lemma ordered_by_app_inv (l1 : list A) x l2 :
    Py.ordered_by key (l1 ++ x :: l2) ->
    Forall (fun y => String.ltb (key x) (key y) = false) l1.
Proof.
    unfold Py.ordered_by. induction l1 as [|y l1 IH]; simpl; intros Hs.
    - constructor.
    - apply StronglySorted_inv in Hs as [Hs Hy]. constructor.
      + rewrite List.Forall_forall in Hy. apply Hy.
        apply in_or_app. right. now left.
      + now apply IH.
Qed.

Lemma fold_insert_ordered l : forall acc,
    Py.ordered_by key (acc ++ l) ->
    fold_left (fun acc x => Py.insert_sorted key x acc) l acc = acc ++ l.
Proof.
    induction l as [|x l IH]; intros acc Hs; simpl.
    - now rewrite app_nil_r.
    - rewrite insert_sorted_last by now apply ordered_by_app_inv with (l2 := l).
      rewrite IH; rewrite <- app_assoc; [reflexivity|exact Hs].
Qed.

Lemma sorted_by_ordered l : Py.ordered_by key l -> Py.sorted_by key l = l.
Proof. intros Hs. unfold Py.sorted_by. now rewrite fold_insert_ordered. Qed.
End SortedFacts.

(** ** The canonical mapping *)

Lemma sorted_hashable_fields : Py.sorted hashable_fields = sorted_fields.
Proof. vm_compute. reflexivity. Qed.

Lemma sorted_fields_NoDup : NoDup sorted_fields.
Proof. apply (bool_decide_unpack _). vm_compute. reflexivity. Qed.

Lemma sorted_fields_hashable f : f ∈ sorted_fields <-> f ∈ hashable_fields.
Proof.
  split; intros Hin.
  - assert (Hall : Forall (fun g => g ∈ hashable_fields) sorted_fields)
      by (apply (bool_decide_unpack _); vm_compute; reflexivity).
    rewrite Forall_forall in Hall. now apply Hall.
  - assert (Hall : Forall (fun g => g ∈ sorted_fields) hashable_fields)
      by (apply (bool_decide_unpack _); vm_compute; reflexivity).
    rewrite Forall_forall in Hall. now apply Hall.
Qed.

Lemma ordered_strings_spec l :
  Py.ordered_strings l = true -> Py.ordered_by (fun s => s) l.
Proof.
  unfold Py.ordered_by. induction l as [|y l IH]; simpl; intros Hb.
  - constructor.
  - apply andb_prop in Hb as [Hy Hl]. constructor; [now apply IH|].
    apply List.Forall_forall. intros x Hx.
    rewrite forallb_forall in Hy. specialize (Hy x Hx).
    now destruct (String.ltb x y).
Qed.

Lemma sorted_fields_ordered : Py.ordered_by (fun s => s) sorted_fields.
Proof. apply ordered_strings_spec. vm_compute. reflexivity. Qed.

Lemma set_new_key {V} k (v : V) d :
  k ∉ PyDict.keys d -> PyDict.set k v d = d ++ [(k, v)].
Proof.
  induction d as [|[k' v'] d IH]; simpl; intros Hk; [reflexivity|].
  apply not_elem_of_cons in Hk as [Hne Hk].
  apply String.eqb_neq in Hne. rewrite Hne. now rewrite IH.
Qed.

Lemma canonical_items_keys record fields kv :
  kv ∈ canonical_items record fields -> fst kv ∈ fields.
Proof.
  unfold canonical_items. intros Hin.
  apply list_elem_of_omap in Hin as (f & Hf & Hkv).
  destruct (record !! f); simpl in Hkv; [|discriminate].
  injection Hkv as <-. exact Hf.
Qed.

Lemma canonical_fold record fields : forall acc,
  NoDup fields ->
  (forall f, f ∈ fields -> f ∉ PyDict.keys acc) ->
  fold_left (canonical_step record) fields acc
  = acc ++ canonical_items record fields.
Proof.
  induction fields as [|f fields IH]; intros acc Hnd Hfresh; simpl.
  - now rewrite app_nil_r.
  - apply NoDup_cons in Hnd as [Hf Hnd].
    unfold canonical_step at 2.
    change (canonical_items record (f :: fields))
      with (match (fun v => (f, canonical_value v)) <$> record !! f with
            | Some y => y :: canonical_items record fields
            | None => canonical_items record fields
            end).
    destruct (record !! f) as [v|]; simpl.
    + rewrite set_new_key by (apply Hfresh; left).
      rewrite IH; [now rewrite <- app_assoc|assumption|].
      intros g Hg. unfold PyDict.keys. rewrite map_app. simpl.
      rewrite elem_of_app, list_elem_of_singleton.
      intros [Hin | ->]; [|contradiction].
      apply (Hfresh g); [now right|exact Hin].
    + apply IH; [assumption|]. intros g Hg. apply Hfresh. now right.
Qed.

Lemma canonical_eq record :
  canonical record = canonical_items record sorted_fields.
Proof.
  unfold canonical. rewrite sorted_hashable_fields.
  rewrite canonical_fold; [reflexivity|apply sorted_fields_NoDup|].
  intros f _. simpl. apply not_elem_of_nil.
Qed.

Lemma canonical_items_ordered record fields :
  Py.ordered_by (fun s => s) fields ->
  Py.ordered_by fst (canonical_items record fields).
Proof.
  unfold Py.ordered_by. induction fields as [|f fields IH]; intros Hs.
  - constructor.
  - apply StronglySorted_inv in Hs as [Hs Hf].
    change (canonical_items record (f :: fields))
      with (match (fun v => (f, canonical_value v)) <$> record !! f with
            | Some y => y :: canonical_items record fields
            | None => canonical_items record fields
            end).
    destruct (record !! f) as [v|]; simpl; [|now apply IH].
    constructor; [now apply IH|].
    apply List.Forall_forall. intros kv Hkv. simpl.
    rewrite List.Forall_forall in Hf. apply Hf.
    apply list_elem_of_In. apply canonical_items_keys with (record := record).
    now apply list_elem_of_In.
Qed.

(** The text that is hashed: the items in the order of the fields,
    nothing re-ordered by [sort_keys]. *)
Lemma canonical_json_eq record :
  canonical_json record
  = "{" +:+ String.concat "," (map Json.encode_item (canonical_items record sorted_fields))
        +:+ "}".
Proof.
  unfold canonical_json, Json.dumps. rewrite canonical_eq.
  rewrite sorted_by_ordered; [reflexivity|].
  apply canonical_items_ordered, sorted_fields_ordered.
Qed.

Lemma canonical_items_cons record f fields :
  canonical_items record (f :: fields)
  = match record !! f with
    | Some v => (f, canonical_value v) :: canonical_items record fields
    | None => canonical_items record fields
    end.
Proof.
  change (canonical_items record (f :: fields))
    with (match (fun v => (f, canonical_value v)) <$> record !! f with
          | Some y => y :: canonical_items record fields
          | None => canonical_items record fields
          end).
  now destruct (record !! f).
Qed.

Lemma canonical_items_agree record1 record2 fields :
  (forall f, f ∈ fields -> canonical_units record1 f = canonical_units record2 f) ->
  Forall2 same_item (canonical_items record1 fields) (canonical_items record2 fields).
Proof.
  unfold canonical_units, canonical_field.
  induction fields as [|f fields IH]; intros Hag; [constructor|].
  rewrite !canonical_items_cons.
  assert (IH' := IH (fun g Hg => Hag g (list_elem_of_further _ _ _ Hg))).
  specialize (Hag f (list_elem_of_here _ _)).
  destruct (record1 !! f), (record2 !! f); cbn [fmap option_fmap option_map] in Hag;
    try discriminate; [|exact IH'].
  injection Hag as Hag. constructor; [|exact IH']. split; [reflexivity|exact Hag].
Qed.

Lemma same_item_key a b : same_item a b -> fst a = fst b.
Proof. now intros [Hk _]. Qed.

Lemma canonical_items_inj record1 record2 fields :
  NoDup fields ->
  Forall2 same_item (canonical_items record1 fields) (canonical_items record2 fields) ->
  forall f, f ∈ fields -> canonical_units record1 f = canonical_units record2 f.
Proof.
  unfold canonical_units, canonical_field.
  induction fields as [|f fields IH]; intros Hnd Heq g Hg.
  - inversion Hg.
  - apply NoDup_cons in Hnd as [Hf Hnd].
    rewrite !canonical_items_cons in Heq.
    assert (Hhead : Py.utf16 <$> (canonical_value <$> record1 !! f)
                    = Py.utf16 <$> (canonical_value <$> record2 !! f)
                    /\ Forall2 same_item (canonical_items record1 fields)
                         (canonical_items record2 fields)).
    { destruct (record1 !! f) as [v1|] eqn:E1, (record2 !! f) as [v2|] eqn:E2;
        cbn [fmap option_fmap option_map].
      - apply Forall2_cons in Heq as [[_ Hv] Heq]. cbn [snd] in Hv.
        rewrite Hv. auto.
      - exfalso. apply Hf.
        destruct (canonical_items record2 fields) as [|b l2] eqn:E;
          [inversion Heq|].
        apply Forall2_cons in Heq as [Hab _]. apply same_item_key in Hab.
        cbn [fst] in Hab. rewrite Hab.
        apply (canonical_items_keys record2 fields b). rewrite E. left.
      - exfalso. apply Hf.
        destruct (canonical_items record1 fields) as [|a l1] eqn:E;
          [inversion Heq|].
        apply Forall2_cons in Heq as [Hab _]. apply same_item_key in Hab.
        cbn [fst] in Hab. rewrite <- Hab.
        apply (canonical_items_keys record1 fields a). rewrite E. left.
      - auto. }
    destruct Hhead as [Hh Ht].
    apply elem_of_cons in Hg as [-> | Hg]; [exact Hh|].
    now apply IH.
Qed.

Lemma object_text_inj l1 l2 :
  "{" +:+ String.concat "," (map Json.encode_item l1) +:+ "}"
  = "{" +:+ String.concat "," (map Json.encode_item l2) +:+ "}" ->
  Forall2 same_item l1 l2.
Proof.
  intros Heq. apply items_inj.
  exact (string_cons_inj "{" _ _ Heq).
Qed.

(** Two records have the same canonical text exactly when every hashable
    field contributes the same code units to both. *)
Lemma canonical_json_same record1 record2 :
  canonical_json record1 = canonical_json record2
  <-> forall f, f ∈ hashable_fields ->
        canonical_units record1 f = canonical_units record2 f.
Proof.
  rewrite !canonical_json_eq. split.
  - intros Heq f Hf. apply sorted_fields_hashable in Hf.
    apply object_text_inj in Heq.
    now apply (canonical_items_inj record1 record2 sorted_fields sorted_fields_NoDup).
  - intros Hag.
    rewrite (items_of_units (canonical_items record1 sorted_fields)
               (canonical_items record2 sorted_fields)); [reflexivity|].
    apply canonical_items_agree.
    intros f Hf. apply Hag. now apply sorted_fields_hashable.
Qed.

(** Different canonical texts give different digests unless SHA-256
    collides on them. *)
Lemma hash_differs record1 record2 :
  canonical_json record1 <> canonical_json record2 ->
  ~ sha256_collision (hashed_bytes record1) (hashed_bytes record2) ->
  compute_record_hash record1 <> compute_record_hash record2.
Proof.
  unfold sha256_collision, hashed_bytes, compute_record_hash.
  intros Hne Hnc Heq. apply Hnc. split; [|exact Heq].
  intros Hb. apply Hne. apply encode_utf8_inj. exact Hb.
Qed.

(** ** What the hash depends on *)

Lemma canonical_units_of_lookup record1 record2 f :
  record1 !! f = record2 !! f -> canonical_units record1 f = canonical_units record2 f.
Proof. unfold canonical_units, canonical_field. now intros ->. Qed.

Lemma same_fields_same_hash record1 record2 :
  (forall f, f ∈ hashable_fields ->
     canonical_units record1 f = canonical_units record2 f) ->
  compute_record_hash record1 = compute_record_hash record2.
Proof.
  intros Hag. apply canonical_json_same in Hag.
  unfold compute_record_hash. rewrite Hag. reflexivity.
Qed.

Lemma different_field_different_hash record1 record2 f :
  f ∈ hashable_fields ->
  canonical_units record1 f <> canonical_units record2 f ->
  ~ sha256_collision (hashed_bytes record1) (hashed_bytes record2) ->
  compute_record_hash record1 <> compute_record_hash record2.
Proof.
  intros Hf Hne Hnc. apply hash_differs; [|exact Hnc].
  intros Heq. apply Hne.
  exact (proj1 (canonical_json_same record1 record2) Heq f Hf).
Qed.

(** C5 (as the code has it). Two records that hold the same value, or both
    none, at every hashable field have the same hash, whatever else they
    hold. What a hashable field contributes to the hash is whether the
    record has it and, when it has, the UTF-16 code units of its canonical
    string (the empty string for [None], [str(value)] otherwise): two
    records that agree in this at every hashable field have the same hash,
    and two records that differ in it at some hashable field have
    different hashes, unless SHA-256 collides on their canonical texts. *)
Theorem compute_record_hash_depends_on_canonical_fields record1 record2 :
  ((forall f, f ∈ hashable_fields -> record1 !! f = record2 !! f) ->
   compute_record_hash record1 = compute_record_hash record2)
  /\ ((forall f, f ∈ hashable_fields ->
         canonical_units record1 f = canonical_units record2 f) ->
      compute_record_hash record1 = compute_record_hash record2)
  /\ (forall f,
        f ∈ hashable_fields ->
        canonical_units record1 f <> canonical_units record2 f ->
        ~ sha256_collision (hashed_bytes record1) (hashed_bytes record2) ->
        compute_record_hash record1 <> compute_record_hash record2).
Proof.
  split; [|split].
  - intros Hag. apply same_fields_same_hash.
    intros f Hf. apply canonical_units_of_lookup. exact (Hag f Hf).
  - apply same_fields_same_hash.
  - intros f. apply different_field_different_hash.
Qed.

Lemma compute_record_hash_depends_on_canonical_fields_witness :
  ((forall f, f ∈ hashable_fields -> Sample.R1 !! f = Sample.R1_stored !! f)
   /\ compute_record_hash Sample.R1 = compute_record_hash Sample.R1_stored)
  /\ ((forall f, f ∈ hashable_fields ->
         canonical_units MoreSamples.named f
         = canonical_units MoreSamples.named_in_surrogates f)
      /\ compute_record_hash MoreSamples.named
         = compute_record_hash MoreSamples.named_in_surrogates)
  /\ ("income"%string ∈ hashable_fields
      /\ canonical_units Sample.R1 "income" <> canonical_units Sample.R1_corrected "income"
      /\ ~ sha256_collision (hashed_bytes Sample.R1) (hashed_bytes Sample.R1_corrected)
      /\ compute_record_hash Sample.R1 <> compute_record_hash Sample.R1_corrected).
Proof.
  assert (Hsame : forall f, f ∈ hashable_fields -> Sample.R1 !! f = Sample.R1_stored !! f).
  { intros f Hf.
    assert (Hall : Forall (fun f => Sample.R1 !! f = Sample.R1_stored !! f) hashable_fields)
      by (apply (bool_decide_unpack _); vm_compute; reflexivity).
    rewrite Forall_forall in Hall. exact (Hall f Hf). }
  assert (Hunits : forall f, f ∈ hashable_fields ->
            canonical_units MoreSamples.named f
            = canonical_units MoreSamples.named_in_surrogates f).
  { intros f Hf.
    assert (Hall : Forall (fun f => canonical_units MoreSamples.named f
                            = canonical_units MoreSamples.named_in_surrogates f)
                     hashable_fields)
      by (apply (bool_decide_unpack _); vm_compute; reflexivity).
    rewrite Forall_forall in Hall. exact (Hall f Hf). }
  assert (Hin : "income"%string ∈ hashable_fields)
    by (apply (bool_decide_unpack _); vm_compute; reflexivity).
  assert (Hdiff : canonical_units Sample.R1 "income"
                  <> canonical_units Sample.R1_corrected "income")
    by (vm_compute; discriminate).
  assert (Hnc : ~ sha256_collision (hashed_bytes Sample.R1)
                    (hashed_bytes Sample.R1_corrected)).
  { intros [_ Heq]. vm_compute in Heq. discriminate. }
  split; [|split].
  - split; [exact Hsame|].
    exact (proj1 (compute_record_hash_depends_on_canonical_fields
                    Sample.R1 Sample.R1_stored) Hsame).
  - split; [exact Hunits|].
    exact (proj1 (proj2 (compute_record_hash_depends_on_canonical_fields
                           MoreSamples.named MoreSamples.named_in_surrogates))
             Hunits).
  - split; [exact Hin|]. split; [exact Hdiff|]. split; [exact Hnc|].
    exact (proj2 (proj2 (compute_record_hash_depends_on_canonical_fields
                           Sample.R1 Sample.R1_corrected))
             "income"%string Hin Hdiff Hnc).
Defined.

(** C5 as stated fails: the income as the number 1000 and as the text
    "1000" are different values of a hashable field, and the two records
    have the same hash, with no collision: the canonical texts are the
    same. *)
Lemma compute_record_hash_text_for_number :
  "income"%string ∈ hashable_fields
  /\ Sample.R1 !! "income"%string = Some (VInt 1000)
  /\ Sample.R1_as_text !! "income"%string = Some (VStr (Py.text_of "1000"))
  /\ Sample.R1 !! "income"%string <> Sample.R1_as_text !! "income"%string
  /\ canonical_json Sample.R1 = canonical_json Sample.R1_as_text
  /\ ~ sha256_collision (hashed_bytes Sample.R1) (hashed_bytes Sample.R1_as_text)
  /\ compute_record_hash Sample.R1 = compute_record_hash Sample.R1_as_text.
Proof.
  split; [apply (bool_decide_unpack _); vm_compute; reflexivity|].
  split; [vm_compute; reflexivity|]. split; [vm_compute; reflexivity|].
  split; [vm_compute; discriminate|]. split; [vm_compute; reflexivity|].
  split; [|vm_compute; reflexivity].
  intros [Hne _]. apply Hne. vm_compute. reflexivity.
Qed.

(** Nor does the hash tell a character above the basic plane from the two
    surrogates of its pair: the names differ as strings, the canonical
    texts are the same, in both the name is written as the two escapes of
    the pair. *)
Example compute_record_hash_surrogate_pair :
  "name"%string ∈ hashable_fields
  /\ canonical_field MoreSamples.named "name" = Some [0x1f600%N]
  /\ canonical_field MoreSamples.named_in_surrogates "name"
     = Some [0xd83d%N; 0xde00%N]
  /\ canonical_json MoreSamples.named
     = Py.cat [ "{"; String Py.dquote "name"; String Py.dquote ":";
                String Py.dquote (String Py.backslash "ud83d");
                String Py.backslash "ude00"; String Py.dquote "}" ]%string
  /\ canonical_json MoreSamples.named_in_surrogates = canonical_json MoreSamples.named
  /\ ~ sha256_collision (hashed_bytes MoreSamples.named)
         (hashed_bytes MoreSamples.named_in_surrogates)
  /\ compute_record_hash MoreSamples.named
     = compute_record_hash MoreSamples.named_in_surrogates.
Proof.
  split; [apply (bool_decide_unpack _); vm_compute; reflexivity|].
  split; [vm_compute; reflexivity|]. split; [vm_compute; reflexivity|].
  split; [vm_compute; reflexivity|]. split; [vm_compute; reflexivity|].
  split; [|vm_compute; reflexivity].
  intros [Hne _]. apply Hne. vm_compute. reflexivity.
Qed.

(** ** Verification through the facade *)

Section VerifyClaims.
Context `{Environ}.
Import BlockchainService.

Lemma verify_integrity_stored record_id record accessor_id now tx_now result_now S r :
    PyDict.get record_id (MockLedger.records (ledger S)) = Some r ->
    exists result S',
      verify_integrity record_id record accessor_id now tx_now result_now S
        = (inr result, S')
      /\ IntegrityResult.verified result
         = String.eqb (LedgerRecord.data_hash r) (compute_record_hash record)
      /\ IntegrityResult.on_chain_hash result = Some (LedgerRecord.data_hash r)
      /\ IntegrityResult.provided_hash result = Some (compute_record_hash record).
Proof.
    intros Hpres. rewrite verify_integrity_eq.
    rewrite (verify_integrity_present _ _ _ _ _ _ _ r Hpres).
    do 2 eexists. split; [reflexivity|]. cbn [IntegrityResult.verified
      IntegrityResult.on_chain_hash IntegrityResult.provided_hash]. auto.
Qed.

  (** C4 (as the code has it). Let the store hold, for [record_id], the hash
      of the content [record] (as it does after [record] is anchored, or
      after a review with [record] as a non-empty updated record). Then
      [verify_integrity] with [record] returns [verified = True] and
      [on_chain_hash] equal to [provided_hash]; and with a mapping [other]
      that agrees with [record] at every hashable field in what the field
      contributes (present or not, and the UTF-16 code units of its
      canonical string) it returns [verified = True] too; and with a
      mapping [other] that differs from [record] in this at some hashable
      field it returns [verified = False], unless SHA-256 collides on the
      two canonical texts. *)
Theorem verify_integrity_of_content
      record_id record other accessor_id now tx_now result_now S r :
    PyDict.get record_id (MockLedger.records (ledger S)) = Some r ->
    LedgerRecord.data_hash r = compute_record_hash record ->
    (exists result S',
       verify_integrity record_id record accessor_id now tx_now result_now S
         = (inr result, S')
       /\ IntegrityResult.verified result = true
       /\ IntegrityResult.on_chain_hash result = IntegrityResult.provided_hash result
       /\ IntegrityResult.provided_hash result = Some (compute_record_hash record))
    /\ ((forall f, f ∈ hashable_fields ->
           canonical_units other f = canonical_units record f) ->
        exists result S',
          verify_integrity record_id other accessor_id now tx_now result_now S
            = (inr result, S')
          /\ IntegrityResult.verified result = true)
    /\ (forall f,
          f ∈ hashable_fields ->
          canonical_units other f <> canonical_units record f ->
          ~ sha256_collision (hashed_bytes other) (hashed_bytes record) ->
          exists result S',
            verify_integrity record_id other accessor_id now tx_now result_now S
              = (inr result, S')
            /\ IntegrityResult.verified result = false).
Proof.
    intros Hpres Hhash. split; [|split].
    - destruct (verify_integrity_stored record_id record accessor_id
                  now tx_now result_now S r Hpres)
        as (result & S' & Hrun & Hver & Hon & Hprov).
      exists result, S'. split; [exact Hrun|]. split.
      + rewrite Hver, Hhash. apply String.eqb_refl.
      + rewrite Hon, Hprov, Hhash. auto.
    - intros Hsame.
      destruct (verify_integrity_stored record_id other accessor_id
                  now tx_now result_now S r Hpres)
        as (result & S' & Hrun & Hver & _).
      exists result, S'. split; [exact Hrun|].
      rewrite Hver, Hhash, (same_fields_same_hash other record Hsame).
      apply String.eqb_refl.
    - intros f Hf Hdiff Hnc.
      destruct (verify_integrity_stored record_id other accessor_id
                  now tx_now result_now S r Hpres)
        as (result & S' & Hrun & Hver & _).
      exists result, S'. split; [exact Hrun|].
      rewrite Hver, Hhash. apply String.eqb_neq. intros Heq.
      apply (different_field_different_hash other record f Hf Hdiff Hnc).
      symmetry. exact Heq.
Qed.

  (** What [anchor_record] leaves in the store. *)
Lemma anchor_record_stores_hash record user_id now tx_now S result S' :
    anchor_record record user_id now tx_now S = (inr result, S') ->
    exists r,
      PyDict.get (anchored_record_id result) (MockLedger.records (ledger S')) = Some r
      /\ LedgerRecord.data_hash r = compute_record_hash record
      /\ anchored_data_hash result = compute_record_hash record
      /\ LedgerRecord.version r = 1
      /\ LedgerRecord.current_status r = "PENDING_REVIEW"%string
      /\ LedgerRecord.previous_hash r = None.
Proof.
    unfold anchor_record. intros Hrun.
    apply bind_inr in Hrun as (u & S1 & Hinit & Hrun).
    rewrite initialize_eq in Hinit. injection Hinit as _ <-.
    apply bind_inr in Hrun as (rid & S2 & Hrid & Hrun).
    apply get_str_state in Hrid as ->.
    apply bind_inr in Hrun as (hh & S3 & Hhh & Hrun).
    apply get_str_state in Hhh as ->.
    apply bind_inr in Hrun as (fs & S4 & Hfs & Hrun).
    apply get_flag_status_upper_state in Hfs as ->.
    apply bind_inr in Hrun as (tx & S5 & Hstore & Hrun).
    apply on_ledger_inr in Hstore as (L' & Hstore & ->).
    unfold ret in Hrun. injection Hrun as <- <-.
    cbn [ledger _initialized anchored_record_id anchored_data_hash] in *.
    destruct (PyDict.get rid (MockLedger.records (ledger S))) as [r0|] eqn:E.
    - rewrite (initialize_record_present _ _ _ _ _ _ _ _ r0 E) in Hstore.
      discriminate.
    - rewrite initialize_record_absent in Hstore by exact E.
      injection Hstore as _ <-. cbn [MockLedger.records].
      eexists. split; [apply get_set_eq|].
      cbn [LedgerRecord.data_hash LedgerRecord.version LedgerRecord.current_status
             LedgerRecord.previous_hash]. auto.
Qed.
End VerifyClaims.

Section VerifyExamples.
Import BlockchainService.
#[local] Existing Instance Sample.env.

Lemma verify_integrity_of_content_witness :
    PyDict.get "R1" (MockLedger.records (ledger Sample.anchored))
      = Some Sample.anchored_R1
    /\ LedgerRecord.data_hash Sample.anchored_R1 = compute_record_hash Sample.R1
    /\ (exists result S',
          verify_integrity "R1" Sample.R1 "u3" Sample.t2 Sample.t2 Sample.t2
            Sample.anchored = (inr result, S')
          /\ IntegrityResult.verified result = true
          /\ IntegrityResult.on_chain_hash result = IntegrityResult.provided_hash result
          /\ IntegrityResult.provided_hash result = Some (compute_record_hash Sample.R1))
    /\ ((forall f, f ∈ hashable_fields ->
           canonical_units Sample.R1_as_text f = canonical_units Sample.R1 f)
        /\ exists result S',
             verify_integrity "R1" Sample.R1_as_text "u3" Sample.t2 Sample.t2
               Sample.t2 Sample.anchored = (inr result, S')
             /\ IntegrityResult.verified result = true)
    /\ "income"%string ∈ hashable_fields
    /\ canonical_units Sample.R1_corrected "income" <> canonical_units Sample.R1 "income"
    /\ ~ sha256_collision (hashed_bytes Sample.R1_corrected) (hashed_bytes Sample.R1)
    /\ exists result S',
         verify_integrity "R1" Sample.R1_corrected "u3" Sample.t2 Sample.t2 Sample.t2
           Sample.anchored = (inr result, S')
         /\ IntegrityResult.verified result = false.
Proof.
    assert (H1 : PyDict.get "R1" (MockLedger.records (ledger Sample.anchored))
                 = Some Sample.anchored_R1) by (vm_compute; reflexivity).
    assert (H2 : LedgerRecord.data_hash Sample.anchored_R1
                 = compute_record_hash Sample.R1) by (vm_compute; reflexivity).
    assert (H3 : "income"%string ∈ hashable_fields)
      by (apply (bool_decide_unpack _); vm_compute; reflexivity).
    assert (H4 : canonical_units Sample.R1_corrected "income"
                 <> canonical_units Sample.R1 "income") by (vm_compute; discriminate).
    assert (H6 : forall f, f ∈ hashable_fields ->
              canonical_units Sample.R1_as_text f = canonical_units Sample.R1 f).
    { intros f Hf.
      assert (Hall : Forall (fun f => canonical_units Sample.R1_as_text f
                              = canonical_units Sample.R1 f) hashable_fields)
        by (apply (bool_decide_unpack _); vm_compute; reflexivity).
      rewrite Forall_forall in Hall. exact (Hall f Hf). }
    assert (H5 : ~ sha256_collision (hashed_bytes Sample.R1_corrected)
                     (hashed_bytes Sample.R1)).
    { intros [_ Heq]. vm_compute in Heq. discriminate. }
    destruct (verify_integrity_of_content "R1" Sample.R1 Sample.R1_corrected "u3"
                Sample.t2 Sample.t2 Sample.t2 Sample.anchored Sample.anchored_R1
                H1 H2) as (Hsame & _ & Hother).
    destruct (verify_integrity_of_content "R1" Sample.R1 Sample.R1_as_text "u3"
                Sample.t2 Sample.t2 Sample.t2 Sample.anchored Sample.anchored_R1
                H1 H2) as (_ & Hagree & _).
    split; [exact H1|]. split; [exact H2|]. split; [exact Hsame|].
    split; [split; [exact H6|exact (Hagree H6)]|].
    split; [exact H3|]. split; [exact H4|]. split; [exact H5|].
    exact (Hother "income"%string H3 H4 H5).
Defined.

  (** C4 as stated fails: [R1] was anchored with the income 1000, a number;
      a mapping that has the text "1000" there, a different value of a
      hashable field, is verified, and SHA-256 has not collided: the two
      canonical texts are the same. *)
Lemma verify_integrity_text_for_number :
    PyDict.get "R1" (MockLedger.records (ledger Sample.anchored))
      = Some Sample.anchored_R1
    /\ LedgerRecord.data_hash Sample.anchored_R1 = compute_record_hash Sample.R1
    /\ "income"%string ∈ hashable_fields
    /\ Sample.R1_as_text !! "income"%string <> Sample.R1 !! "income"%string
    /\ ~ sha256_collision (hashed_bytes Sample.R1_as_text) (hashed_bytes Sample.R1)
    /\ exists result S',
         verify_integrity "R1" Sample.R1_as_text "u3" Sample.t2 Sample.t2 Sample.t2
           Sample.anchored = (inr result, S')
         /\ IntegrityResult.verified result = true.
Proof.
    split; [vm_compute; reflexivity|]. split; [vm_compute; reflexivity|].
    split; [apply (bool_decide_unpack _); vm_compute; reflexivity|].
    split; [vm_compute; discriminate|].
    split.
    - intros [Hne _]. apply Hne. vm_compute. reflexivity.
    - do 2 eexists. split; vm_compute; reflexivity.
Qed.

  (** Nor is a name of one character above the basic plane told from the
      two surrogates of its pair: anchored with the one, the record is
      verified with the other. *)
Example verify_integrity_surrogate_pair :
    MoreSamples.named !! "name"%string = Some (VStr [0x1f600%N])
    /\ MoreSamples.named_in_surrogates !! "name"%string
       = Some (VStr [0xd83d%N; 0xde00%N])
    /\ ~ sha256_collision (hashed_bytes MoreSamples.named_in_surrogates)
           (hashed_bytes MoreSamples.named)
    /\ exists anchored S result S',
         anchor_record MoreSamples.named "u1" Sample.t1 Sample.t1 __init__
           = (inr anchored, S)
         /\ verify_integrity (anchored_record_id anchored)
              MoreSamples.named_in_surrogates "u3" Sample.t2 Sample.t2 Sample.t2 S
            = (inr result, S')
         /\ IntegrityResult.verified result = true.
Proof.
    split; [vm_compute; reflexivity|]. split; [vm_compute; reflexivity|].
    split.
    - intros [Hne _]. apply Hne. vm_compute. reflexivity.
    - do 4 eexists. split; [vm_compute; reflexivity|].
      split; vm_compute; reflexivity.
Qed.
End VerifyExamples.

(** ** What the read operations return *)

Section ReadFacts.
Import MockLedger.

Lemma selected_record (p : LedgerRecord.t -> bool) L i :
    i ∈ select_from p O (PyDict.values (records L)) ->
    exists r, deref_record L (RecordRef i) = Some r /\ p r = true
              /\ forall f, deref_record (write_record (RecordRef i) f L) (RecordRef i)
                           = Some (f r).
Proof.
    intros Hin. apply select_from_lookup in Hin as (r & Hr & Hp & _).
    rewrite Nat.sub_0_r in Hr. unfold PyDict.values in Hr.
    change (map snd (records L)) with (snd <$> records L) in Hr.
    rewrite list_lookup_fmap in Hr.
    exists r. split; [exact Hr|]. split; [exact Hp|].
    intros f. unfold deref_record, write_record, with_records. simpl.
    rewrite list_lookup_alter_eq.
    destruct (records L !! i) as [[k v]|]; simpl in *; [|discriminate].
    injection Hr as ->. reflexivity.
Qed.

Lemma selected_log (p : AccessLogEntry.t -> bool) L i :
    i ∈ select_from p O (access_logs L) ->
    exists e, deref_log L (LogRef i) = Some e /\ p e = true
              /\ forall f, deref_log (write_log (LogRef i) f L) (LogRef i) = Some (f e).
Proof.
    intros Hin. apply select_from_lookup in Hin as (e & He & Hp & _).
    rewrite Nat.sub_0_r in He.
    exists e. split; [exact He|]. split; [exact Hp|].
    intros f. unfold deref_log, write_log, with_access_logs. simpl.
    rewrite list_lookup_alter_eq, He. reflexivity.
Qed.

Lemma ref_of_position {A} (mk_ref : nat -> A) (ref : A) (l : list nat) :
    ref ∈ mk_ref <$> l -> exists i, ref = mk_ref i /\ i ∈ l.
Proof. intros Hin. apply list_elem_of_fmap in Hin as (i & -> & Hi). eauto. Qed.

  (** C7 (as the code has it). The store's read operations leave the store
      as it is and return the stored objects themselves, not copies (only
      the lists that [get_access_logs] and the queries return are new):
      what a caller assigns to a field of a returned [LedgerRecord] or
      [AccessLogEntry] is assigned in the store. *)
Theorem reads_return_stored_objects L :
    (forall record_id,
       exists found,
         get_record record_id L = (inr found, L)
         /\ (found ≫= deref_record L) = PyDict.get record_id (records L)
         /\ forall ref f,
              found = Some ref ->
              PyDict.get record_id (records (write_record ref f L))
              = f <$> PyDict.get record_id (records L))
    /\ (forall status,
          exists refs,
            query_by_status status L = (inr refs, L)
            /\ forall ref,
                 ref ∈ refs ->
                 exists r,
                   deref_record L ref = Some r
                   /\ LedgerRecord.current_status r = status
                   /\ forall f, deref_record (write_record ref f L) ref = Some (f r))
    /\ (forall flag_status,
          exists refs,
            query_by_flag_status flag_status L = (inr refs, L)
            /\ forall ref,
                 ref ∈ refs ->
                 exists r,
                   deref_record L ref = Some r
                   /\ LedgerRecord.flag_status r = flag_status
                   /\ forall f, deref_record (write_record ref f L) ref = Some (f r))
    /\ (forall record_id,
          exists refs,
            get_access_logs record_id L = (inr refs, L)
            /\ forall ref,
                 ref ∈ refs ->
                 exists e,
                   deref_log L ref = Some e
                   /\ AccessLogEntry.record_id e = record_id
                   /\ forall f, deref_log (write_log ref f L) ref = Some (f e)).
Proof.
    split; [|split; [|split]].
    - intros record_id. eexists. split; [reflexivity|]. split.
      + destruct (index_of record_id (records L)) as [i|] eqn:E; simpl.
        * rewrite <- index_of_get, E. reflexivity.
        * rewrite <- index_of_get, E. reflexivity.
      + intros [i] f Hfound.
        destruct (index_of record_id (records L)) as [j|] eqn:E;
          simpl in Hfound; [|discriminate].
        injection Hfound as <-.
        unfold write_record, with_records. simpl.
        rewrite (alter_at_index_of f record_id (records L) j E).
        apply get_alter_eq.
    - intros status. eexists. split; [reflexivity|].
      intros ref Hin. apply ref_of_position in Hin as (i & -> & Hi).
      destruct (selected_record _ L i Hi) as (r & Hr & Hp & Hw).
      exists r. split; [exact Hr|]. split; [now apply String.eqb_eq|exact Hw].
    - intros flag_status. eexists. split; [reflexivity|].
      intros ref Hin. apply ref_of_position in Hin as (i & -> & Hi).
      destruct (selected_record _ L i Hi) as (r & Hr & Hp & Hw).
      exists r. split; [exact Hr|]. split; [now apply String.eqb_eq|exact Hw].
    - intros record_id. eexists. split; [reflexivity|].
      intros ref Hin. apply ref_of_position in Hin as (i & -> & Hi).
      destruct (selected_log _ L i Hi) as (e & He & Hp & Hw).
      exists e. split; [exact He|]. split; [now apply String.eqb_eq|exact Hw].
Qed.

  (** C7 as stated fails: the record [get_record] returns for [R1] is the
      stored one; setting its status through the returned reference changes
      the record the store holds. *)
Lemma get_record_is_not_a_copy :
    exists ref L',
      get_record "R1" Sample.anchored_ledger = (inr (Some ref), Sample.anchored_ledger)
      /\ L' = write_record ref (LedgerRecord.set_current_status "APPROVED")
                Sample.anchored_ledger
      /\ (LedgerRecord.current_status
            <$> PyDict.get "R1" (records Sample.anchored_ledger))
         = Some "PENDING_REVIEW"%string
      /\ (LedgerRecord.current_status <$> PyDict.get "R1" (records L'))
         = Some "APPROVED"%string
      /\ records L' <> records Sample.anchored_ledger.
Proof.
    do 2 eexists. split; [vm_compute; reflexivity|]. split; [reflexivity|].
    split; [vm_compute; reflexivity|]. split; [vm_compute; reflexivity|].
    intros Heq. vm_compute in Heq. discriminate.
Qed.

Lemma reads_return_stored_objects_witness :
    get_record "R1" Sample.anchored_ledger
      = (inr (Some (RecordRef 0)), Sample.anchored_ledger)
    /\ PyDict.get "R1"
         (records (write_record (RecordRef 0) (LedgerRecord.set_version 7)
                     Sample.anchored_ledger))
       = LedgerRecord.set_version 7
           <$> PyDict.get "R1" (records Sample.anchored_ledger).
Proof.
    assert (Hc : get_record "R1" Sample.anchored_ledger
                 = (inr (Some (RecordRef 0)), Sample.anchored_ledger))
      by (vm_compute; reflexivity).
    split; [exact Hc|].
    destruct (proj1 (reads_return_stored_objects Sample.anchored_ledger) "R1"%string)
      as (found & Hrun & _ & Hwrite).
    apply Hwrite. congruence.
Defined.
End ReadFacts.

(** ** The store over any sequence of calls *)

Section StoreRuns.
Context `{Environ}.
Import MockLedger Trace.

Implicit Types (L : MockLedger.t) (c : call).

(** Every call either leaves the store as it was or appends one audit
    entry, numbered with the next transaction number; the entry carries the
    call's [record_id], the next log id and the new transaction id. *)
Lemma exec_appends c L :
  snd (exec c L) = L
  \/ exists e records',
       snd (exec c L) = mk records' (access_logs L ++ [e]) (tx_counter L + 1)
       /\ AccessLogEntry.record_id e = call_record_id c
       /\ AccessLogEntry.log_id e = log_id_next (call_record_id c) L
       /\ AccessLogEntry.accessor_msp e = FABRIC_MSP_ID
       /\ exists tx_now, AccessLogEntry.tx_id e = tx_id_after L tx_now.
Proof.
  destruct c; unfold exec, call_record_id; unfold bind, ret.
  - destruct (PyDict.get record_id (records L)) as [r|] eqn:E.
    + left. now rewrite (initialize_record_present _ _ _ _ _ _ _ _ r E).
    + right. rewrite initialize_record_absent by assumption.
      do 2 eexists. split; [reflexivity|]. simpl. eauto 10.
  - destruct (PyDict.get record_id (records L)) as [r|] eqn:E.
    + right. rewrite (review_record_present _ _ _ _ _ _ _ r E).
      do 2 eexists. split; [reflexivity|]. simpl. eauto 10.
    + left. now rewrite review_record_absent.
  - destruct (PyDict.get record_id (records L)) as [r|] eqn:E.
    + right. rewrite (verify_integrity_present _ _ _ _ _ _ _ r E).
      do 2 eexists. split; [reflexivity|]. simpl. eauto 10.
    + left. now rewrite verify_integrity_absent.
  - right. rewrite log_access_eq.
    do 2 eexists. split; [reflexivity|]. simpl. eauto 10.
Qed.

Lemma run_appends calls : forall L,
  exists appended,
    access_logs (run calls L) = access_logs L ++ appended
    /\ tx_counter (run calls L) = tx_counter L + Z.of_nat (length appended)
    /\ (length appended <= length calls)%nat.
Proof.
  induction calls as [|c calls IH]; intros L; simpl.
  - exists []. rewrite app_nil_r. simpl. split; [reflexivity|]. split; lia.
  - destruct (IH (snd (exec c L))) as (app' & Hlog & Hctr & Hlen).
    destruct (exec_appends c L) as [Hsame | (e & recs & Hstep & _)].
    + rewrite Hsame in *. exists app'. split; [exact Hlog|].
      split; [exact Hctr|]. lia.
    + rewrite Hstep in Hlog, Hctr |- *. simpl in Hlog, Hctr.
      exists (e :: app'). rewrite Hlog, Hctr, <- app_assoc. simpl.
      split; [reflexivity|]. split; lia.
Qed.

(** X1. The audit log is append-only. Whatever calls are made on a store,
    the log it had before is a prefix of the log it has after, with at most
    one entry more per call, and the transaction counter has grown by
    exactly the number of entries appended; on a store that started empty
    the counter is the number of audit entries. *)
Theorem run_log_append_only calls L :
  (exists appended,
     access_logs (run calls L) = access_logs L ++ appended
     /\ tx_counter (run calls L) = tx_counter L + Z.of_nat (length appended)
     /\ (length appended <= length calls)%nat)
  /\ tx_counter (run calls MockLedger.__init__)
     = Z.of_nat (length (access_logs (run calls MockLedger.__init__))).
Proof.
  split; [apply run_appends|].
  destruct (run_appends calls MockLedger.__init__) as (appended & Hlog & Hctr & _).
  rewrite Hlog, Hctr. reflexivity.
Qed.
End StoreRuns.

(** ** Numbers as text *)

Lemma occurs_cons c x s : occurs c (String x s) <-> c = x \/ occurs c s.
Proof. unfold occurs. simpl. split; intros [E|E]; auto. Qed.

Lemma occurs_append c a b : occurs c (a +:+ b) <-> occurs c a \/ occurs c b.
Proof.
  induction a as [|x a IH].
  - change (EmptyString +:+ b) with b. unfold occurs at 2. simpl. tauto.
  - rewrite append_cons, !occurs_cons, IH. tauto.
Qed.

(** A text cut at its last occurrence of [c]. *)
Lemma split_at_last c r1 : forall r2 d1 d2,
  ~ occurs c d1 -> ~ occurs c d2 ->
  r1 +:+ String c d1 = r2 +:+ String c d2 ->
  r1 = r2 /\ d1 = d2.
Proof.
  induction r1 as [|x r1 IH]; intros [|y r2] d1 d2 H1 H2 Heq.
  - injection Heq as ->. auto.
  - change (EmptyString +:+ String c d1) with (String c d1) in Heq.
    rewrite append_cons in Heq. injection Heq as -> ->.
    exfalso. apply H1. apply occurs_append. right. apply occurs_cons. now left.
  - change (EmptyString +:+ String c d2) with (String c d2) in Heq.
    rewrite append_cons in Heq. injection Heq as -> <-.
    exfalso. apply H2. apply occurs_append. right. apply occurs_cons. now left.
  - rewrite !append_cons in Heq. injection Heq as -> Heq.
    destruct (IH _ _ _ H1 H2 Heq) as [-> ->]. auto.
Qed.

(** A text cut at its first occurrence of [c]. *)
Lemma split_at_first c h1 : forall h2 s1 s2,
  ~ occurs c h1 -> ~ occurs c h2 ->
  h1 +:+ String c s1 = h2 +:+ String c s2 ->
  h1 = h2 /\ s1 = s2.
Proof.
  induction h1 as [|x h1 IH]; intros [|y h2] s1 s2 H1 H2 Heq.
  - injection Heq as ->. auto.
  - change (EmptyString +:+ String c s1) with (String c s1) in Heq.
    rewrite append_cons in Heq. injection Heq as -> _.
    exfalso. apply H2. apply occurs_cons. now left.
  - change (EmptyString +:+ String c s2) with (String c s2) in Heq.
    rewrite append_cons in Heq. injection Heq as <- _.
    exfalso. apply H1. apply occurs_cons. now left.
  - rewrite !append_cons in Heq. injection Heq as -> Heq.
    assert (H1' : ~ occurs c h1) by (intros Ho; apply H1, occurs_cons; now right).
    assert (H2' : ~ occurs c h2) by (intros Ho; apply H2, occurs_cons; now right).
    destruct (IH _ _ _ H1' H2' Heq) as [-> ->]. auto.
Qed.

Lemma to_int_not_nil z :
  Z.to_int z <> Decimal.Pos Decimal.Nil /\ Z.to_int z <> Decimal.Neg Decimal.Nil.
Proof.
  split; intros E; pose proof (f_equal Z.of_int E) as E2;
    rewrite DecimalZ.of_to in E2; simpl in E2; subst z; discriminate E.
Qed.

(** [str(n)] can be read back: it is one-to-one. *)
Lemma str_of_int_inj a b : Py.str_of_int a = Py.str_of_int b -> a = b.
Proof.
  unfold Py.str_of_int. intros Heq.
  apply (f_equal DecimalString.NilZero.int_of_string) in Heq.
  destruct (to_int_not_nil a) as [Ha1 Ha2], (to_int_not_nil b) as [Hb1 Hb2].
  rewrite !DecimalString.NilZero.isi in Heq by assumption.
  injection Heq as Heq. now apply DecimalZ.to_int_inj.
Qed.

Lemma decimal_digits_no_underscore d :
  ~ occurs "_" (DecimalString.NilEmpty.string_of_uint d).
Proof.
  induction d; simpl;
    [ unfold occurs; simpl; tauto
    | rewrite occurs_cons; intros [E|E]; [discriminate|contradiction] .. ].
Qed.

Lemma str_of_nat_no_underscore i : ~ occurs "_" (Py.str_of_int (Z.of_nat i)).
Proof.
  unfold Py.str_of_int. destruct (Z.of_nat i) as [|p|p] eqn:E; [| |lia].
  - simpl. rewrite occurs_cons. intros [E'|E']; [discriminate|exact E'].
  - simpl. destruct (Pos.to_uint p); try apply decimal_digits_no_underscore.
    simpl. rewrite occurs_cons. intros [E'|E']; [discriminate|exact E'].
Qed.

Lemma hex_digits_no_underscore d :
  ~ occurs "_" (HexadecimalString.NilEmpty.string_of_uint d).
Proof.
  induction d; simpl;
    [ unfold occurs; simpl; tauto
    | rewrite occurs_cons; intros [E|E]; [discriminate|contradiction] .. ].
Qed.

Lemma hex_of_N_no_underscore n : ~ occurs "_" (Py.hex_of_N n).
Proof.
  unfold Py.hex_of_N, HexadecimalString.NilZero.string_of_uint.
  destruct (N.to_hex_uint n); try apply hex_digits_no_underscore.
  rewrite occurs_cons. intros [E|E]; [discriminate|exact E].
Qed.

Lemma zfill_no_underscore w s : ~ occurs "_" s -> ~ occurs "_" (Py.zfill w s).
Proof.
  unfold Py.zfill. intros Hs. generalize (w - String.length s)%nat. intros k.
  induction k as [|k IH]; simpl.
  - exact Hs.
  - rewrite append_cons, occurs_cons. intros [E|E]; [discriminate|contradiction].
Qed.

Lemma hex_of_N_nonempty n : Py.hex_of_N n <> EmptyString.
Proof.
  unfold Py.hex_of_N, HexadecimalString.NilZero.string_of_uint.
  destruct (N.to_hex_uint n); simpl; discriminate.
Qed.

(** What [hex_of_N] writes reads back as the number written. *)
Lemma read_hex_of_N n : read_hex (Py.hex_of_N n) = Some n.
Proof.
  unfold read_hex, Py.hex_of_N.
  pose proof (HexadecimalN.Unsigned.of_to n) as Hn.
  set (d := N.to_hex_uint n) in *.
  assert (Hd : d = Hexadecimal.Nil \/ d <> Hexadecimal.Nil)
    by (destruct d; [left; reflexivity | right; discriminate ..]).
  destruct Hd as [Hd | Hd].
  - rewrite Hd in *. rewrite HexadecimalString.NilZero.usu_nil.
    simpl in *. now subst n.
  - rewrite HexadecimalString.NilZero.usu by exact Hd. simpl. now f_equal.
Qed.

(** Padding with zeros does not change the number read. *)
Lemma read_hex_zfill w s : s <> EmptyString -> read_hex (Py.zfill w s) = read_hex s.
Proof.
  unfold Py.zfill. intros Hs. generalize (w - String.length s)%nat. intros k.
  induction k as [|k IH]; [reflexivity|].
  simpl. rewrite append_cons. rewrite <- IH.
  unfold read_hex, HexadecimalString.NilZero.uint_of_string.
  destruct (Py.zeros k +:+ s) as [|x t] eqn:E.
  - exfalso. destruct k; simpl in E; [now apply Hs|].
    rewrite append_cons in E. discriminate.
  - simpl. destruct (HexadecimalString.uint_of_char x _); reflexivity.
Qed.

(** [f"{n:08x}"] is one-to-one on the numbers from 0 on, and writes no
    underscore. *)
Lemma format_08x_inj a b :
  0 <= a -> 0 <= b -> Py.format_08x a = Py.format_08x b -> a = b.
Proof.
  unfold Py.format_08x. intros Ha Hb.
  destruct (Z.ltb_spec a 0); [lia|]. destruct (Z.ltb_spec b 0); [lia|].
  intros Heq. apply (f_equal read_hex) in Heq.
  rewrite !read_hex_zfill, !read_hex_of_N in Heq by apply hex_of_N_nonempty.
  injection Heq as Heq. lia.
Qed.

Lemma format_08x_no_underscore a : 0 <= a -> ~ occurs "_" (Py.format_08x a).
Proof.
  unfold Py.format_08x. intros Ha. destruct (Z.ltb_spec a 0); [lia|].
  apply zfill_no_underscore, hex_of_N_no_underscore.
Qed.

Lemma log_id_inj r1 r2 i j :
  Py.cat ["LOG_"; r1; "_"; Py.str_of_int (Z.of_nat i)]%string
  = Py.cat ["LOG_"; r2; "_"; Py.str_of_int (Z.of_nat j)]%string ->
  r1 = r2 /\ i = j.
Proof.
  change (Py.cat ["LOG_"; r1; "_"; Py.str_of_int (Z.of_nat i)]%string)
    with ("LOG_" +:+ (r1 +:+ String "_" (Py.str_of_int (Z.of_nat i)))).
  change (Py.cat ["LOG_"; r2; "_"; Py.str_of_int (Z.of_nat j)]%string)
    with ("LOG_" +:+ (r2 +:+ String "_" (Py.str_of_int (Z.of_nat j)))).
  intros Heq. apply String.app_inj in Heq.
  apply split_at_last in Heq as [-> Hd]; try apply str_of_nat_no_underscore.
  apply str_of_int_inj in Hd. split; [reflexivity|lia].
Qed.

Lemma tx_id_inj a b s1 s2 :
  0 <= a -> 0 <= b ->
  Py.cat ["tx_"; Py.format_08x a; "_"; s1]%string
  = Py.cat ["tx_"; Py.format_08x b; "_"; s2]%string ->
  a = b /\ s1 = s2.
Proof.
  change (Py.cat ["tx_"; Py.format_08x a; "_"; s1]%string)
    with ("tx_" +:+ (Py.format_08x a +:+ String "_" s1)).
  change (Py.cat ["tx_"; Py.format_08x b; "_"; s2]%string)
    with ("tx_" +:+ (Py.format_08x b +:+ String "_" s2)).
  intros Ha Hb Heq. apply String.app_inj in Heq.
  apply split_at_first in Heq as [Hh ->]; try now apply format_08x_no_underscore.
  split; [now apply format_08x_inj|reflexivity].
Qed.

(** ** Log ids and transaction ids *)

Section Numbering.
Context `{Environ}.
Import MockLedger Trace Numbered.

Lemma numbered_init : numbered MockLedger.__init__.
Proof. split; [reflexivity|]. intros i e Hi. destruct i; discriminate. Qed.

Lemma numbered_exec c L : numbered L -> numbered (snd (exec c L)).
Proof.
  intros [Hctr Hpos].
  destruct (exec_appends c L)
    as [-> | (e & recs & -> & Hrid & Hlog & _ & stamp & Htx)]; [now split|].
  split; simpl.
  - rewrite length_app. simpl. lia.
  - intros i e' Hi. apply lookup_snoc_Some in Hi as [[Hlt Hi] | [-> ->]].
    + now apply Hpos.
    + split.
      * rewrite Hlog, Hrid. reflexivity.
      * exists (strftime_YmdHMS stamp). rewrite Htx. unfold tx_id_after.
        now rewrite Hctr.
Qed.

Lemma numbered_run calls : forall L, numbered L -> numbered (run calls L).
Proof.
  induction calls as [|c calls IH]; intros L HL; simpl; [exact HL|].
  apply IH. now apply numbered_exec.
Qed.

(** X2. In a store that started empty, the audit entry at position [i] has
    the log id [LOG_<record_id>_<i>] and a transaction id
    [tx_<i + 1 in eight hex digits>_<time stamp>]; no two entries have the
    same log id, and no two the same transaction id. *)
Theorem audit_ids_unique calls :
  let logs := access_logs (run calls MockLedger.__init__) in
  (forall i e, logs !! i = Some e -> entry_numbered i e)
  /\ NoDup (AccessLogEntry.log_id <$> logs)
  /\ NoDup (AccessLogEntry.tx_id <$> logs).
Proof.
  intros logs.
  destruct (numbered_run calls MockLedger.__init__ numbered_init) as [_ Hpos].
  fold logs in Hpos. split; [exact Hpos|]. split.
  - apply NoDup_alt. intros i j x Hi Hj.
    rewrite list_lookup_fmap in Hi, Hj.
    destruct (logs !! i) as [e1|] eqn:E1; [|discriminate].
    destruct (logs !! j) as [e2|] eqn:E2; [|discriminate].
    simpl in Hi, Hj. injection Hi as Hi. injection Hj as Hj.
    destruct (Hpos i e1 E1) as [H1 _], (Hpos j e2 E2) as [H2 _].
    rewrite H1 in Hi. rewrite H2 in Hj. rewrite <- Hj in Hi.
    now apply log_id_inj in Hi.
  - apply NoDup_alt. intros i j x Hi Hj.
    rewrite list_lookup_fmap in Hi, Hj.
    destruct (logs !! i) as [e1|] eqn:E1; [|discriminate].
    destruct (logs !! j) as [e2|] eqn:E2; [|discriminate].
    simpl in Hi, Hj. injection Hi as Hi. injection Hj as Hj.
    destruct (Hpos i e1 E1) as [_ [s1 H1]], (Hpos j e2 E2) as [_ [s2 H2]].
    rewrite H1 in Hi. rewrite H2 in Hj. rewrite <- Hj in Hi.
    apply tx_id_inj in Hi as [Hij _]; lia.
Qed.
End Numbering.

(** ** Records over any sequence of calls *)

Section DictKeys.
Context {V : Type}.
Implicit Types (d : list (string * V)) (k : string).

Lemma get_None_keys k d : PyDict.get k d = None <-> k ∉ PyDict.keys d.
Proof.
  induction d as [|[k' v'] d IH]; simpl.
  - split; [intros _; apply not_elem_of_nil|reflexivity].
  - rewrite not_elem_of_cons, <- IH.
    destruct (String.eqb_spec k k') as [->|Hne].
    + split; [discriminate | intros [Hc _]; contradiction].
    + split; [intros Hg; split; assumption | intros [_ Hg]; exact Hg].
Qed.

Lemma keys_set_new k v d :
  PyDict.get k d = None -> PyDict.keys (PyDict.set k v d) = PyDict.keys d ++ [k].
Proof.
  intros Hk. apply get_None_keys in Hk. rewrite set_new_key by assumption.
  unfold PyDict.keys. now rewrite map_app.
Qed.

Lemma keys_alter f k d : PyDict.keys (PyDict.alter f k d) = PyDict.keys d.
Proof.
  induction d as [|[k' v'] d IH]; simpl; [reflexivity|].
  destruct (String.eqb k k'); simpl; [reflexivity|]. now rewrite IH.
Qed.
End DictKeys.

Section RecordRuns.
Context `{Environ}.
Import MockLedger Trace.

Implicit Types (L : MockLedger.t) (c : call).

(** What one call does to the records. *)
Lemma exec_records c L :
  records (snd (exec c L)) = records L
  \/ (exists data_hash household_id flag_status user_id now,
        PyDict.get (call_record_id c) (records L) = None
        /\ records (snd (exec c L))
           = PyDict.set (call_record_id c)
               (LedgerRecord.mk (call_record_id c) data_hash household_id
                  "PENDING_REVIEW" flag_status user_id now user_id now 1 None)
               (records L))
  \/ (exists reviewer_id decision now new_hash,
        records (snd (exec c L))
        = PyDict.alter (reviewed reviewer_id decision now new_hash)
            (call_record_id c) (records L)).
Proof.
  destruct c; unfold exec, call_record_id; unfold bind, ret.
  - destruct (PyDict.get record_id (records L)) as [r|] eqn:E.
    + left. now rewrite (initialize_record_present _ _ _ _ _ _ _ _ r E).
    + right. left. rewrite initialize_record_absent by assumption.
      simpl. eauto 10.
  - destruct (PyDict.get record_id (records L)) as [r|] eqn:E.
    + right. right. rewrite (review_record_present _ _ _ _ _ _ _ r E).
      simpl. eauto 10.
    + left. now rewrite review_record_absent.
  - destruct (PyDict.get record_id (records L)) as [r|] eqn:E.
    + left. now rewrite (verify_integrity_present _ _ _ _ _ _ _ r E).
    + left. now rewrite verify_integrity_absent.
  - left. now rewrite log_access_eq.
Qed.

Lemma reviewed_keeps reviewer_id decision now new_hash r :
  let r' := reviewed reviewer_id decision now new_hash r in
  LedgerRecord.record_id r' = LedgerRecord.record_id r
  /\ LedgerRecord.owner_household_id r' = LedgerRecord.owner_household_id r
  /\ LedgerRecord.flag_status r' = LedgerRecord.flag_status r
  /\ LedgerRecord.created_by r' = LedgerRecord.created_by r
  /\ LedgerRecord.created_at r' = LedgerRecord.created_at r
  /\ LedgerRecord.version r' = LedgerRecord.version r + 1.
Proof.
  unfold reviewed. destruct (Py.truthy_opt_str new_hash); simpl; auto 10.
Qed.

(** X3. A record, once stored, stays: no sequence of calls removes it or
    changes the id it carries, its household, its flag, or who created it
    and when; its version never goes down. *)
Theorem run_keeps_records calls : forall L record_id r,
  PyDict.get record_id (records L) = Some r ->
  exists r',
    PyDict.get record_id (records (run calls L)) = Some r'
    /\ LedgerRecord.record_id r' = LedgerRecord.record_id r
    /\ LedgerRecord.owner_household_id r' = LedgerRecord.owner_household_id r
    /\ LedgerRecord.flag_status r' = LedgerRecord.flag_status r
    /\ LedgerRecord.created_by r' = LedgerRecord.created_by r
    /\ LedgerRecord.created_at r' = LedgerRecord.created_at r
    /\ LedgerRecord.version r <= LedgerRecord.version r'.
Proof.
  induction calls as [|c calls IH]; intros L rid r Hr; simpl.
  - exists r. split; [exact Hr|]. repeat split; lia.
  - assert (Hstep : exists r1,
              PyDict.get rid (records (snd (exec c L))) = Some r1
              /\ LedgerRecord.record_id r1 = LedgerRecord.record_id r
              /\ LedgerRecord.owner_household_id r1 = LedgerRecord.owner_household_id r
              /\ LedgerRecord.flag_status r1 = LedgerRecord.flag_status r
              /\ LedgerRecord.created_by r1 = LedgerRecord.created_by r
              /\ LedgerRecord.created_at r1 = LedgerRecord.created_at r
              /\ LedgerRecord.version r <= LedgerRecord.version r1).
    { destruct (exec_records c L)
        as [-> | [(dh & hh & fs & u & now & Habs & ->)
                 | (rv & d & now & nh & ->)]].
      - exists r. split; [exact Hr|]. repeat split; lia.
      - exists r. split; [|repeat split; lia].
        rewrite get_set_ne; [exact Hr|]. intros ->. congruence.
      - destruct (String.eqb_spec rid (call_record_id c)) as [->|Hne].
        + rewrite get_alter_eq, Hr. simpl. eexists. split; [reflexivity|].
          destruct (reviewed_keeps rv d now nh r) as (H1 & H2 & H3 & H4 & H5 & H6).
          repeat split; try assumption. lia.
        + exists r. split; [|repeat split; lia].
          now rewrite get_alter_ne. }
    destruct Hstep as (r1 & Hr1 & E1 & E2 & E3 & E4 & E5 & Hv).
    destruct (IH _ _ _ Hr1) as (r' & Hr' & F1 & F2 & F3 & F4 & F5 & Hv').
    exists r'. split; [exact Hr'|].
    repeat split; try congruence. lia.
Qed.

(** The records of a store that started empty. *)
Lemma exec_well_keyed c L :
  NoDup (PyDict.keys (records L)) ->
  (forall k r, PyDict.get k (records L) = Some r ->
     LedgerRecord.record_id r = k /\ 1 <= LedgerRecord.version r) ->
  NoDup (PyDict.keys (records (snd (exec c L))))
  /\ (forall k r, PyDict.get k (records (snd (exec c L))) = Some r ->
        LedgerRecord.record_id r = k /\ 1 <= LedgerRecord.version r).
Proof.
  intros Hnd Hkey.
  destruct (exec_records c L)
    as [-> | [(dh & hh & fs & u & now & Habs & ->)
             | (rv & d & now & nh & ->)]].
  - auto.
  - split.
    + rewrite keys_set_new by exact Habs. apply NoDup_app. split; [exact Hnd|].
      split; [|apply NoDup_singleton].
      intros k Hk Hk'. apply list_elem_of_singleton in Hk'. subst k.
      now apply get_None_keys in Habs.
    + intros k r. destruct (String.eqb_spec k (call_record_id c)) as [->|Hne].
      * rewrite get_set_eq. intros [= <-]. simpl. split; [reflexivity|lia].
      * rewrite get_set_ne by exact Hne. apply Hkey.
  - split; [now rewrite keys_alter|].
    intros k r. destruct (String.eqb_spec k (call_record_id c)) as [->|Hne].
    + rewrite get_alter_eq.
      destruct (PyDict.get (call_record_id c) (records L)) as [r0|] eqn:E;
        [|discriminate].
      simpl. intros [= <-]. destruct (Hkey _ _ E) as [Hid Hv].
      destruct (reviewed_keeps rv d now nh r0) as (H1 & _ & _ & _ & _ & H6).
      split; [congruence|lia].
    + rewrite get_alter_ne by exact Hne. apply Hkey.
Qed.

Lemma run_well_keyed calls : forall L,
  NoDup (PyDict.keys (records L)) ->
  (forall k r, PyDict.get k (records L) = Some r ->
     LedgerRecord.record_id r = k /\ 1 <= LedgerRecord.version r) ->
  NoDup (PyDict.keys (records (run calls L)))
  /\ (forall k r, PyDict.get k (records (run calls L)) = Some r ->
        LedgerRecord.record_id r = k /\ 1 <= LedgerRecord.version r).
Proof.
  induction calls as [|c calls IH]; intros L Hnd Hkey; simpl; [auto|].
  destruct (exec_well_keyed c L Hnd Hkey) as [Hnd' Hkey']. now apply IH.
Qed.

(** X4. In a store that started empty there is one record per id, every
    record carries the id it is stored under, and every version is at
    least 1. *)
Theorem run_records_well_keyed calls :
  NoDup (PyDict.keys (records (run calls MockLedger.__init__)))
  /\ forall k r,
       PyDict.get k (records (run calls MockLedger.__init__)) = Some r ->
       LedgerRecord.record_id r = k /\ 1 <= LedgerRecord.version r.
Proof.
  apply run_well_keyed.
  - apply NoDup_nil_2.
  - intros k r Hget. discriminate.
Qed.

(** X5. Calls on other records do not touch a record or its audit trail. *)
Theorem run_other_records calls : forall L record_id,
  Forall (fun c => call_record_id c <> record_id) calls ->
  PyDict.get record_id (records (run calls L)) = PyDict.get record_id (records L)
  /\ audit_trail record_id (run calls L) = audit_trail record_id L.
Proof.
  induction calls as [|c calls IH]; intros L rid Hall; simpl; [auto|].
  apply Forall_cons in Hall as [Hc Hall].
  destruct (IH (snd (exec c L)) rid Hall) as [Hget Htrail].
  destruct (exec_other rid c L Hc) as [Hget1 Hent1].
  rewrite Hget, Htrail, Hget1, !audit_trail_filter, Hent1. auto.
Qed.
End RecordRuns.

Section RecordRunExamples.
Import MockLedger Trace.
#[local] Existing Instance Sample.env.

Lemma run_keeps_records_witness :
  PyDict.get "R1" (records Sample.approved_ledger) = Some Sample.approved_R1
  /\ exists r',
       PyDict.get "R1" (records (run Sample.calls Sample.approved_ledger)) = Some r'
       /\ LedgerRecord.record_id r' = LedgerRecord.record_id Sample.approved_R1
       /\ LedgerRecord.owner_household_id r'
          = LedgerRecord.owner_household_id Sample.approved_R1
       /\ LedgerRecord.flag_status r' = LedgerRecord.flag_status Sample.approved_R1
       /\ LedgerRecord.created_by r' = LedgerRecord.created_by Sample.approved_R1
       /\ LedgerRecord.created_at r' = LedgerRecord.created_at Sample.approved_R1
       /\ LedgerRecord.version Sample.approved_R1 <= LedgerRecord.version r'.
Proof.
  split; [vm_compute; reflexivity|].
  apply (run_keeps_records Sample.calls Sample.approved_ledger "R1"
           Sample.approved_R1).
  vm_compute; reflexivity.
Defined.

Lemma run_other_records_witness :
  Forall (fun c => call_record_id c <> "R1"%string) MoreSamples.other_calls
  /\ PyDict.get "R1" (records (run MoreSamples.other_calls Sample.approved_ledger))
     = PyDict.get "R1" (records Sample.approved_ledger)
  /\ audit_trail "R1" (run MoreSamples.other_calls Sample.approved_ledger)
     = audit_trail "R1" Sample.approved_ledger.
Proof.
  assert (Hall : Forall (fun c => call_record_id c <> "R1"%string) MoreSamples.other_calls)
    by (repeat constructor; discriminate).
  split; [exact Hall|].
  exact (run_other_records MoreSamples.other_calls Sample.approved_ledger "R1" Hall).
Defined.
End RecordRunExamples.

(** ** Single calls on the store *)

Section StoreCalls.
Context `{Environ}.
Import MockLedger.

(** X6. [log_access] does not look the record up: whether or not the store
    holds [record_id], it returns a transaction id, appends exactly one
    [ACCESS] entry carrying that id, the accessor and the reason, and
    leaves the records as they were. *)
Theorem log_access_always_logs record_id accessor_id reason now tx_now L :
  exists tx_id e,
    log_access record_id accessor_id reason now tx_now L
      = (inr tx_id, mk (records L) (access_logs L ++ [e]) (tx_counter L + 1))
    /\ AccessLogEntry.action_type e = "ACCESS"%string
    /\ AccessLogEntry.record_id e = record_id
    /\ AccessLogEntry.accessor_id e = accessor_id
    /\ AccessLogEntry.details e = reason
    /\ AccessLogEntry.timestamp e = isoformat now
    /\ AccessLogEntry.tx_id e = tx_id.
Proof.
  do 2 eexists. rewrite log_access_eq. split; [reflexivity|]. simpl. auto 10.
Qed.

(** X7. [verify_integrity] on a stored record changes no record; it appends
    exactly one [VERIFY] entry, whose details say PASSED exactly when the
    result says verified; the result is verified exactly when the stored
    hash equals the provided one, and reports the stored hash, status and
    time of last update with no error. *)
Theorem verify_integrity_known_record
    record_id provided_hash accessor_id now tx_now result_now L r :
  PyDict.get record_id (records L) = Some r ->
  exists result e,
    verify_integrity record_id provided_hash accessor_id now tx_now result_now L
      = (inr result, mk (records L) (access_logs L ++ [e]) (tx_counter L + 1))
    /\ (IntegrityResult.verified result = true
        <-> LedgerRecord.data_hash r = provided_hash)
    /\ IntegrityResult.on_chain_hash result = Some (LedgerRecord.data_hash r)
    /\ IntegrityResult.provided_hash result = Some provided_hash
    /\ IntegrityResult.current_status result = Some (LedgerRecord.current_status r)
    /\ IntegrityResult.last_updated_at result = Some (LedgerRecord.last_updated_at r)
    /\ IntegrityResult.error result = None
    /\ IntegrityResult.timestamp result = isoformat result_now
    /\ AccessLogEntry.action_type e = "VERIFY"%string
    /\ AccessLogEntry.record_id e = record_id
    /\ AccessLogEntry.details e
       = (if IntegrityResult.verified result
          then "Integrity check: PASSED" else "Integrity check: FAILED")%string.
Proof.
  intros Hpres. do 2 eexists.
  rewrite (verify_integrity_present _ _ _ _ _ _ _ r Hpres).
  split; [reflexivity|].
  cbn [IntegrityResult.verified IntegrityResult.on_chain_hash
         IntegrityResult.provided_hash IntegrityResult.current_status
         IntegrityResult.last_updated_at IntegrityResult.error
         IntegrityResult.timestamp AccessLogEntry.action_type
         AccessLogEntry.record_id AccessLogEntry.details].
  split; [apply String.eqb_eq|].
  repeat (split; [reflexivity|]).
  destruct (String.eqb (LedgerRecord.data_hash r) provided_hash); reflexivity.
Qed.
End StoreCalls.

Section StoreCallExamples.
Import MockLedger.
#[local] Existing Instance Sample.env.

Lemma verify_integrity_known_record_witness :
  PyDict.get "R1" (records Sample.approved_ledger) = Some Sample.approved_R1
  /\ exists result e,
       verify_integrity "R1" "00ff" "u3" Sample.t1 Sample.t2 Sample.t2
         Sample.approved_ledger
         = (inr result,
            mk (records Sample.approved_ledger)
               (access_logs Sample.approved_ledger ++ [e])
               (tx_counter Sample.approved_ledger + 1))
       /\ (IntegrityResult.verified result = true
           <-> LedgerRecord.data_hash Sample.approved_R1 = "00ff"%string)
       /\ IntegrityResult.on_chain_hash result
          = Some (LedgerRecord.data_hash Sample.approved_R1)
       /\ IntegrityResult.provided_hash result = Some "00ff"%string
       /\ IntegrityResult.current_status result
          = Some (LedgerRecord.current_status Sample.approved_R1)
       /\ IntegrityResult.last_updated_at result
          = Some (LedgerRecord.last_updated_at Sample.approved_R1)
       /\ IntegrityResult.error result = None
       /\ IntegrityResult.timestamp result = isoformat Sample.t2
       /\ AccessLogEntry.action_type e = "VERIFY"%string
       /\ AccessLogEntry.record_id e = "R1"%string
       /\ AccessLogEntry.details e
          = (if IntegrityResult.verified result
             then "Integrity check: PASSED" else "Integrity check: FAILED")%string.
Proof.
  split; [vm_compute; reflexivity|].
  apply (verify_integrity_known_record "R1" "00ff" "u3" Sample.t1 Sample.t2
           Sample.t2 Sample.approved_ledger Sample.approved_R1).
  vm_compute; reflexivity.
Defined.
End StoreCallExamples.

(** ** The shape of a hash *)

Lemma round_length s kw : length s = 8%nat -> length (SHA256.round s kw) = 8%nat.
Proof.
  intros Hlen.
  do 8 (destruct s as [|? s]; [discriminate|]).
  destruct s; [reflexivity|discriminate].
Qed.

Lemma rounds_length kws : forall s,
  length s = 8%nat -> length (fold_left SHA256.round kws s) = 8%nat.
Proof.
  induction kws as [|kw kws IH]; intros s Hlen; simpl; [exact Hlen|].
  apply IH. now apply round_length.
Qed.

Lemma compress_length h block :
  length h = 8%nat -> length (SHA256.compress h block) = 8%nat.
Proof.
  intros Hlen. unfold SHA256.compress.
  rewrite length_map, length_combine, rounds_length by exact Hlen. lia.
Qed.

Lemma blocks_length fuel : forall bs h,
  length h = 8%nat -> length (SHA256.blocks fuel bs h) = 8%nat.
Proof.
  induction fuel as [|fuel IH]; intros bs h Hlen; simpl; [exact Hlen|].
  destruct bs; [exact Hlen|]. apply IH. now apply compress_length.
Qed.

Lemma be_bytes_length n x : length (SHA256.be_bytes n x) = n.
Proof. induction n as [|n IH]; simpl; [reflexivity|]. now rewrite IH. Qed.

Lemma be_bytes_range n x :
  Forall (fun b => 0 <= b < 256) (SHA256.be_bytes n x).
Proof.
  induction n as [|n IH]; simpl; constructor; [|exact IH].
  change 0xff with (Z.ones 8). rewrite Z.land_ones by lia.
  apply Z.mod_pos_bound. lia.
Qed.

Lemma digest_shape msg :
  length (SHA256.digest msg) = 32%nat
  /\ Forall (fun b => 0 <= b < 256) (SHA256.digest msg).
Proof.
  unfold SHA256.digest.
  pose proof (blocks_length (length (SHA256.pad msg)) (SHA256.pad msg) SHA256.H0
                eq_refl) as Hlen.
  revert Hlen. generalize (SHA256.blocks (length (SHA256.pad msg)) (SHA256.pad msg)
                             SHA256.H0).
  intros ws Hlen. split.
  - do 8 (destruct ws as [|? ws]; [discriminate|]).
    destruct ws; [|discriminate]. reflexivity.
  - clear Hlen. induction ws as [|w ws IH]; cbn [flat_map]; [constructor|].
    apply Forall_app. split; [apply be_bytes_range|exact IH].
Qed.

Lemma hex_digit_lower d : 0 <= d < 16 -> is_lower_hex (SHA256.hex_digit d) = true.
Proof.
  intros Hd.
  assert (Hcases : d = 0 \/ d = 1 \/ d = 2 \/ d = 3 \/ d = 4 \/ d = 5 \/ d = 6
                   \/ d = 7 \/ d = 8 \/ d = 9 \/ d = 10 \/ d = 11 \/ d = 12
                   \/ d = 13 \/ d = 14 \/ d = 15) by lia.
  repeat (destruct Hcases as [-> | Hcases]; [reflexivity|]).
  subst d. reflexivity.
Qed.

Lemma hex_of_bytes_shape bs :
  Forall (fun b => 0 <= b < 256) bs ->
  String.length (SHA256.hex_of_bytes bs) = (2 * length bs)%nat
  /\ all_chars is_lower_hex (SHA256.hex_of_bytes bs) = true.
Proof.
  induction bs as [|b bs IH]; intros Hall; [split; reflexivity|].
  apply Forall_cons in Hall as [Hb Hall].
  destruct (IH Hall) as [Hlen Hhex].
  cbn [SHA256.hex_of_bytes String.length all_chars length].
  split; [rewrite Hlen; lia|].
  rewrite Hhex, !hex_digit_lower; [reflexivity| |].
  - change 0xf with (Z.ones 4). rewrite Z.land_ones by lia.
    apply Z.mod_pos_bound. lia.
  - rewrite Z.shiftr_div_pow2 by lia. change (2 ^ 4) with 16.
    split; [apply Z.div_pos; lia|apply Z.div_lt_upper_bound; lia].
Qed.

Lemma hexdigest_shape b :
  String.length (SHA256.hexdigest b) = 64%nat
  /\ all_chars is_lower_hex (SHA256.hexdigest b) = true.
Proof.
  unfold SHA256.hexdigest.
  destruct (digest_shape (SHA256.bytes_of_string b)) as [Hlen Hrange].
  destruct (hex_of_bytes_shape _ Hrange) as [Hl Hh].
  rewrite Hlen in Hl. split; [exact Hl|exact Hh].
Qed.

Lemma compute_record_hash_nonempty record :
  exists c h, compute_record_hash record = String c h.
Proof.
  unfold compute_record_hash.
  destruct (hexdigest_shape (Py.encode_utf8 (canonical_json record))) as [Hl _].
  destruct (SHA256.hexdigest _) as [|c h]; [discriminate|eauto].
Qed.

(** X8. The hash of a record is always 64 characters long, each one of
    [0]..[9], [a]..[f]; in particular it is never the empty string, which
    is what makes the facade's review chain it. *)
Theorem compute_record_hash_shape record :
  String.length (compute_record_hash record) = 64%nat
  /\ all_chars is_lower_hex (compute_record_hash record) = true
  /\ Py.truthy_opt_str (Some (compute_record_hash record)) = true.
Proof.
  destruct (hexdigest_shape (Py.encode_utf8 (canonical_json record))) as [Hl Hh].
  split; [exact Hl|]. split; [exact Hh|].
  destruct (compute_record_hash_nonempty record) as (c & h & ->). reflexivity.
Qed.

(** ** The facade, call by call *)

Lemma upper_char_idempotent c : Py.upper_char (Py.upper_char c) = Py.upper_char c.
Proof. destruct c as [[] [] [] [] [] [] [] []]; reflexivity. Qed.

Lemma upper_idempotent s : Py.upper (Py.upper s) = Py.upper s.
Proof.
  induction s as [|c s IH]; simpl; [reflexivity|].
  now rewrite upper_char_idempotent, IH.
Qed.

Lemma normalized_flag_enumerated fs :
  In (normalized_flag fs) ["NORMAL"; "REVIEW"; "PRIORITY"]%string.
Proof.
  unfold normalized_flag.
  destruct (str_in (Py.upper fs) (map FlagStatus.value FlagStatus.members)) eqn:E;
    simpl.
  - now apply str_in_true in E.
  - now left.
Qed.

Lemma bind_returned {S A B} (m : M S A) (k : A -> M S B) s a s1 :
  m s = (inr a, s1) -> bind m k s = k a s1.
Proof. unfold bind. now intros ->. Qed.

Lemma bind_raised {S A B} (m : M S A) (k : A -> M S B) s e s1 :
  m s = (inl e, s1) -> bind m k s = (inl e, s1).
Proof. unfold bind. now intros ->. Qed.

Section FacadeCalls.
Context `{Environ}.
Import BlockchainService.

Lemma get_str_cases record key default S :
  (exists s, field_str record key default = Some s
             /\ get_str record key default S = (inr s, S))
  \/ (field_str record key default = None
      /\ exists e, get_str record key default S = (inl e, S)).
Proof.
  unfold get_str, field_str, ret, raise.
  destruct (record !! key) as [[| | | |s|]|]; try destruct (Py.latin1 s); eauto.
Qed.

Lemma get_flag_status_upper_cases record S :
  (exists fs, field_str record "flag_status" "NORMAL" = Some fs
              /\ get_flag_status_upper record S = (inr (Py.upper fs), S))
  \/ (field_str record "flag_status" "NORMAL" = None
      /\ exists e, get_flag_status_upper record S = (inl e, S)).
Proof.
  unfold get_flag_status_upper, field_str, ret, raise.
  destruct (record !! "flag_status"%string) as [[| | | |s|]|];
    try destruct (Py.latin1 s); cbn [type_name]; eauto.
Qed.

(** [anchor_record] either stops before the store is called, leaving the
    ledger as it was, or makes one [initialize_record] call. *)
Lemma anchor_record_cases record user_id now tx_now S :
  (exists e, anchor_record record user_id now tx_now S = (inl e, mk (ledger S) true)
             /\ (field_str record "record_id" EmptyString = None
                 \/ field_str record "household_id" EmptyString = None
                 \/ field_str record "flag_status" "NORMAL" = None))
  \/ (exists rid hh fs,
        field_str record "record_id" EmptyString = Some rid
        /\ field_str record "household_id" EmptyString = Some hh
        /\ field_str record "flag_status" "NORMAL" = Some fs
        /\ anchor_record record user_id now tx_now S
           = match MockLedger.initialize_record rid (compute_record_hash record)
                     hh (normalized_flag fs) user_id now tx_now (ledger S) with
             | (inr tx_id, L') =>
                 (inr {| anchored_tx_id := tx_id;
                         anchored_record_id := rid;
                         anchored_data_hash := compute_record_hash record;
                         anchored_status := "PENDING_REVIEW";
                         ledger_anchored := true |},
                  mk L' true)
             | (inl e, L') => (inl e, mk L' true)
             end).
Proof.
  unfold anchor_record.
  rewrite (bind_returned _ _ _ _ _ (initialize_eq S)).
  set (S1 := mk (ledger S) true).
  destruct (get_str_cases record "record_id" EmptyString S1)
    as [(rid & Frid & Hrid) | (Fnone & e & Hraise)].
  2:{ left. exists e. rewrite (bind_raised _ _ _ _ _ Hraise).
      split; [reflexivity|]. left. exact Fnone. }
  rewrite (bind_returned _ _ _ _ _ Hrid).
  destruct (get_str_cases record "household_id" EmptyString S1)
    as [(hh & Fhh & Hhh) | (Fnone & e & Hraise)].
  2:{ left. exists e. rewrite (bind_raised _ _ _ _ _ Hraise).
      split; [reflexivity|]. right. left. exact Fnone. }
  rewrite (bind_returned _ _ _ _ _ Hhh).
  destruct (get_flag_status_upper_cases record S1)
    as [(fs & Ffs & Hfs) | (Fnone & e & Hraise)].
  2:{ left. exists e. rewrite (bind_raised _ _ _ _ _ Hraise).
      split; [reflexivity|]. right. right. exact Fnone. }
  rewrite (bind_returned _ _ _ _ _ Hfs).
  right. exists rid, hh, fs. repeat (split; [assumption|]).
  unfold bind, on_ledger, ret. cbn [ledger _initialized S1].
  fold (normalized_flag fs).
  destruct (MockLedger.initialize_record _ _ _ _ _ _ _ _) as [[e|tx] L'];
    reflexivity.
Qed.

(** X9. Anchoring a record whose id the ledger does not hold. The id and
    the household are read from the record (the empty string when the key
    is missing), the flag is upper-cased and replaced by [NORMAL] when it
    is not a flag status. The call returns the hash of the record and the
    initial status; the ledger then holds the record at version 1, in
    [PENDING_REVIEW], with no previous hash, and one more audit entry,
    [INITIALIZE], by the user. *)
Theorem anchor_record_fresh record user_id now tx_now S rid hh fs :
  field_str record "record_id" EmptyString = Some rid ->
  field_str record "household_id" EmptyString = Some hh ->
  field_str record "flag_status" "NORMAL" = Some fs ->
  PyDict.get rid (MockLedger.records (ledger S)) = None ->
  exists result S' e,
    anchor_record record user_id now tx_now S = (inr result, S')
    /\ anchored_record_id result = rid
    /\ anchored_data_hash result = compute_record_hash record
    /\ anchored_status result = "PENDING_REVIEW"%string
    /\ ledger_anchored result = true
    /\ PyDict.get rid (MockLedger.records (ledger S'))
       = Some (LedgerRecord.mk rid (compute_record_hash record) hh
                 "PENDING_REVIEW" (normalized_flag fs) user_id (isoformat now)
                 user_id (isoformat now) 1 None)
    /\ MockLedger.access_logs (ledger S') = MockLedger.access_logs (ledger S) ++ [e]
    /\ AccessLogEntry.action_type e = "INITIALIZE"%string
    /\ AccessLogEntry.record_id e = rid
    /\ AccessLogEntry.accessor_id e = user_id
    /\ AccessLogEntry.tx_id e = anchored_tx_id result.
Proof.
  intros Frid Fhh Ffs Habs.
  destruct (anchor_record_cases record user_id now tx_now S)
    as [(e & _ & [E|[E|E]]) | (rid' & hh' & fs' & Frid' & Fhh' & Ffs' & Hrun)];
    try congruence.
  assert (rid' = rid) as -> by congruence.
  assert (hh' = hh) as -> by congruence.
  assert (fs' = fs) as -> by congruence.
  rewrite initialize_record_absent in Hrun by exact Habs.
  do 3 eexists. split; [exact Hrun|].
  cbn [anchored_record_id anchored_data_hash anchored_status ledger_anchored
         anchored_tx_id ledger MockLedger.records MockLedger.access_logs
         AccessLogEntry.action_type AccessLogEntry.record_id
         AccessLogEntry.accessor_id AccessLogEntry.tx_id].
  rewrite get_set_eq. auto 12.
Qed.

(** X10. Anchoring a record whose id the ledger already holds raises the
    "already exists" [ValueError] through the facade as well, and the
    ledger is left as it was. *)
Theorem anchor_record_duplicate record user_id now tx_now S rid hh fs r :
  field_str record "record_id" EmptyString = Some rid ->
  field_str record "household_id" EmptyString = Some hh ->
  field_str record "flag_status" "NORMAL" = Some fs ->
  PyDict.get rid (MockLedger.records (ledger S)) = Some r ->
  exists S',
    anchor_record record user_id now tx_now S
      = (inl (ValueError (Py.cat ["Record "; rid; " already exists on ledger"]%string)),
         S')
    /\ ledger S' = ledger S.
Proof.
  intros Frid Fhh Ffs Hpres.
  destruct (anchor_record_cases record user_id now tx_now S)
    as [(e & _ & [E|[E|E]]) | (rid' & hh' & fs' & Frid' & Fhh' & Ffs' & Hrun)];
    try congruence.
  assert (rid' = rid) as -> by congruence.
  rewrite (initialize_record_present _ _ _ _ _ _ _ _ r Hpres) in Hrun.
  eexists. split; [exact Hrun|]. reflexivity.
Qed.

(** X11. Whatever record is anchored, the flag the ledger stores for it is
    one of [NORMAL], [REVIEW], [PRIORITY]; a flag that is one of them up to
    case is stored upper-cased, any other as [NORMAL]. *)
Theorem anchor_record_flag record user_id now tx_now S result S' :
  anchor_record record user_id now tx_now S = (inr result, S') ->
  exists r fs,
    PyDict.get (anchored_record_id result) (MockLedger.records (ledger S')) = Some r
    /\ field_str record "flag_status" "NORMAL" = Some fs
    /\ In (LedgerRecord.flag_status r) ["NORMAL"; "REVIEW"; "PRIORITY"]%string
    /\ (In (Py.upper fs) ["NORMAL"; "REVIEW"; "PRIORITY"]%string ->
        LedgerRecord.flag_status r = Py.upper fs)
    /\ (~ In (Py.upper fs) ["NORMAL"; "REVIEW"; "PRIORITY"]%string ->
        LedgerRecord.flag_status r = "NORMAL"%string).
Proof.
  intros Hrun.
  destruct (anchor_record_cases record user_id now tx_now S)
    as [(e & Hraise & _) | (rid & hh & fs & Frid & Fhh & Ffs & Hcall)];
    [congruence|].
  rewrite Hcall in Hrun.
  destruct (PyDict.get rid (MockLedger.records (ledger S))) as [r0|] eqn:E.
  - rewrite (initialize_record_present _ _ _ _ _ _ _ _ r0 E) in Hrun. discriminate.
  - rewrite initialize_record_absent in Hrun by exact E.
    injection Hrun as <- <-.
    cbn [anchored_record_id ledger MockLedger.records].
    rewrite get_set_eq. do 2 eexists. split; [reflexivity|]. split; [exact Ffs|].
    cbn [LedgerRecord.flag_status].
    split; [apply normalized_flag_enumerated|].
    unfold normalized_flag. split.
    + intros Hin. apply (str_in_true (Py.upper fs)
        (map FlagStatus.value FlagStatus.members)) in Hin. now rewrite Hin.
    + intros Hout. apply (str_in_false (Py.upper fs)
        (map FlagStatus.value FlagStatus.members)) in Hout. now rewrite Hout.
Qed.

(** X12. A review through the facade with a corrected record. With an
    accepted decision, a stored record and an updated record that is not
    empty, the call returns the hash of the updated record as [new_hash];
    in the ledger the record has that hash, its former hash as
    [previous_hash], the upper-cased decision as status and the next
    version, and one [REVIEW] entry is appended. *)
Theorem review_record_chains_hash
    record_id reviewer_id decision updated now tx_now S r :
  In (Py.upper decision)
     ["APPROVED"; "REJECTED"; "NEEDS_VERIFICATION"; "PRIORITY"]%string ->
  updated <> ∅ ->
  PyDict.get record_id (MockLedger.records (ledger S)) = Some r ->
  exists result S' r' e,
    review_record record_id reviewer_id decision (Some updated) now tx_now S
      = (inr result, S')
    /\ new_hash result = Some (compute_record_hash updated)
    /\ new_status result = Py.upper decision
    /\ PyDict.get record_id (MockLedger.records (ledger S')) = Some r'
    /\ LedgerRecord.data_hash r' = compute_record_hash updated
    /\ LedgerRecord.previous_hash r' = Some (LedgerRecord.data_hash r)
    /\ LedgerRecord.current_status r' = Py.upper decision
    /\ LedgerRecord.version r' = LedgerRecord.version r + 1
    /\ LedgerRecord.last_updated_by r' = reviewer_id
    /\ MockLedger.access_logs (ledger S') = MockLedger.access_logs (ledger S) ++ [e]
    /\ AccessLogEntry.action_type e = "REVIEW"%string
    /\ AccessLogEntry.details e = Py.cat ["Decision: "; Py.upper decision]%string.
Proof.
  intros Hok Hne Hpres.
  assert (Hin : str_in (Py.upper decision) valid_decisions = true)
    by (apply str_in_true; now rewrite valid_decisions_eq).
  assert (Htruthy : truthy_opt_dict (Some updated) = true).
  { unfold truthy_opt_dict. now rewrite bool_decide_eq_false_2. }
  rewrite review_record_accepted by exact Hin.
  rewrite Htruthy.
  change (compute_record_hash <$> Some updated)
    with (Some (compute_record_hash updated)).
  rewrite (review_record_present _ _ _ _ _ _ _ r Hpres).
  do 4 eexists. split; [reflexivity|].
  cbn [new_hash new_status ledger MockLedger.records MockLedger.access_logs
         AccessLogEntry.action_type AccessLogEntry.details].
  rewrite get_alter_eq, Hpres.
  split; [reflexivity|]. split; [reflexivity|]. split; [reflexivity|].
  destruct (compute_record_hash_nonempty updated) as (c & h & Hhash).
  rewrite Hhash.
  unfold MockLedger.reviewed. cbn. auto 12.
Qed.

(** X13. A review through the facade of a record the ledger does not hold,
    with an accepted decision, raises the "not found" [ValueError]; nothing
    is logged and the ledger is left as it was. *)
Theorem review_record_unknown record_id reviewer_id decision updated now tx_now S :
  In (Py.upper decision)
     ["APPROVED"; "REJECTED"; "NEEDS_VERIFICATION"; "PRIORITY"]%string ->
  PyDict.get record_id (MockLedger.records (ledger S)) = None ->
  exists S',
    review_record record_id reviewer_id decision updated now tx_now S
      = (inl (ValueError (Py.cat ["Record "; record_id; " not found on ledger"]%string)),
         S')
    /\ ledger S' = ledger S.
Proof.
  intros Hok Habs.
  assert (Hin : str_in (Py.upper decision) valid_decisions = true)
    by (apply str_in_true; now rewrite valid_decisions_eq).
  rewrite review_record_accepted by exact Hin.
  rewrite review_record_absent by exact Habs.
  eexists. split; reflexivity.
Qed.

(** X14. The decision of a review is read without regard to case: a call
    with a decision and the call with the decision upper-cased give the
    same result and the same state. *)
Theorem review_record_case_insensitive
    record_id reviewer_id decision updated now tx_now S :
  review_record record_id reviewer_id decision updated now tx_now S
  = review_record record_id reviewer_id (Py.upper decision) updated now tx_now S.
Proof.
  destruct (str_in (Py.upper decision) valid_decisions) eqn:E.
  - rewrite !review_record_accepted by (rewrite ?upper_idempotent; exact E).
    now rewrite upper_idempotent.
  - rewrite !review_record_refused by (rewrite ?upper_idempotent; exact E).
    now rewrite upper_idempotent.
Qed.

Lemma get_ledger_record_eq record_id S :
  get_ledger_record record_id S
  = (inr (PyDict.get record_id (MockLedger.records (ledger S))), mk (ledger S) true).
Proof.
  unfold get_ledger_record.
  rewrite (bind_returned _ _ _ _ _ (initialize_eq S)).
  unfold bind, on_ledger, MockLedger.get_record, get_state, ret.
  cbn [ledger _initialized]. f_equal. f_equal.
  rewrite <- index_of_get.
  destruct (index_of record_id (MockLedger.records (ledger S))); reflexivity.
Qed.

Lemma get_access_logs_eq record_id S :
  get_access_logs record_id S
  = (inr (Trace.entries_of record_id (MockLedger.access_logs (ledger S))),
     mk (ledger S) true).
Proof.
  unfold get_access_logs.
  rewrite (bind_returned _ _ _ _ _ (initialize_eq S)).
  unfold bind, on_ledger, MockLedger.get_access_logs, get_state, ret.
  cbn [ledger _initialized]. f_equal. f_equal.
  rewrite omap_after_fmap.
  apply (select_from_contents _ [] (MockLedger.access_logs (ledger S))).
Qed.


(** X15. The facade's reads return values, not stored objects: the record
    the ledger holds for the id, field by field ([None] for an unknown id),
    and the audit entries of the id in log order; they log nothing and
    leave the ledger as it was. *)
Theorem facade_reads_copy record_id S :
  get_ledger_record record_id S
    = (inr (PyDict.get record_id (MockLedger.records (ledger S))),
       mk (ledger S) true)
  /\ get_access_logs record_id S
     = (inr (Trace.entries_of record_id (MockLedger.access_logs (ledger S))),
        mk (ledger S) true).
Proof. split; [apply get_ledger_record_eq|apply get_access_logs_eq]. Qed.
End FacadeCalls.

Section FacadeCallExamples.
Import BlockchainService.
#[local] Existing Instance Sample.env.

Lemma anchor_record_fresh_witness :
  field_str FacadeSamples.R2 "record_id" EmptyString = Some "R2"%string
  /\ field_str FacadeSamples.R2 "household_id" EmptyString = Some "H2"%string
  /\ field_str FacadeSamples.R2 "flag_status" "NORMAL" = Some "urgent"%string
  /\ PyDict.get "R2" (MockLedger.records (ledger Sample.anchored)) = None
  /\ exists result S' e,
       anchor_record FacadeSamples.R2 "u1" Sample.t2 Sample.t2 Sample.anchored
         = (inr result, S')
       /\ anchored_record_id result = "R2"%string
       /\ anchored_data_hash result = compute_record_hash FacadeSamples.R2
       /\ anchored_status result = "PENDING_REVIEW"%string
       /\ ledger_anchored result = true
       /\ PyDict.get "R2" (MockLedger.records (ledger S'))
          = Some (LedgerRecord.mk "R2" (compute_record_hash FacadeSamples.R2) "H2"
                    "PENDING_REVIEW" (normalized_flag "urgent") "u1"
                    (isoformat Sample.t2) "u1" (isoformat Sample.t2) 1 None)
       /\ MockLedger.access_logs (ledger S')
          = MockLedger.access_logs (ledger Sample.anchored) ++ [e]
       /\ AccessLogEntry.action_type e = "INITIALIZE"%string
       /\ AccessLogEntry.record_id e = "R2"%string
       /\ AccessLogEntry.accessor_id e = "u1"%string
       /\ AccessLogEntry.tx_id e = anchored_tx_id result.
Proof.
  split; [vm_compute; reflexivity|]. split; [vm_compute; reflexivity|].
  split; [vm_compute; reflexivity|]. split; [vm_compute; reflexivity|].
  apply (anchor_record_fresh FacadeSamples.R2 "u1" Sample.t2 Sample.t2
           Sample.anchored "R2" "H2" "urgent"); vm_compute; reflexivity.
Defined.

Lemma anchor_record_duplicate_witness :
  field_str Sample.R1_corrected "record_id" EmptyString = Some "R1"%string
  /\ field_str Sample.R1_corrected "household_id" EmptyString = Some EmptyString
  /\ field_str Sample.R1_corrected "flag_status" "NORMAL" = Some "NORMAL"%string
  /\ PyDict.get "R1" (MockLedger.records (ledger Sample.anchored))
     = Some Sample.anchored_R1
  /\ exists S',
       anchor_record Sample.R1_corrected "u5" Sample.t2 Sample.t2 Sample.anchored
         = (inl (ValueError
                   (Py.cat ["Record "; "R1"; " already exists on ledger"]%string)),
            S')
       /\ ledger S' = ledger Sample.anchored.
Proof.
  split; [vm_compute; reflexivity|]. split; [vm_compute; reflexivity|].
  split; [vm_compute; reflexivity|]. split; [vm_compute; reflexivity|].
  apply (anchor_record_duplicate Sample.R1_corrected "u5" Sample.t2 Sample.t2
           Sample.anchored "R1" EmptyString "NORMAL" Sample.anchored_R1);
    vm_compute; reflexivity.
Defined.

Lemma anchor_record_flag_witness :
  anchor_record FacadeSamples.R2 "u1" Sample.t2 Sample.t2 Sample.anchored
    = (inr FacadeSamples.R2_anchored, FacadeSamples.after_R2)
  /\ exists r fs,
       PyDict.get (anchored_record_id FacadeSamples.R2_anchored)
         (MockLedger.records (ledger FacadeSamples.after_R2)) = Some r
       /\ field_str FacadeSamples.R2 "flag_status" "NORMAL" = Some fs
       /\ In (LedgerRecord.flag_status r) ["NORMAL"; "REVIEW"; "PRIORITY"]%string
       /\ (In (Py.upper fs) ["NORMAL"; "REVIEW"; "PRIORITY"]%string ->
           LedgerRecord.flag_status r = Py.upper fs)
       /\ (~ In (Py.upper fs) ["NORMAL"; "REVIEW"; "PRIORITY"]%string ->
           LedgerRecord.flag_status r = "NORMAL"%string).
Proof.
  assert (Hrun : anchor_record FacadeSamples.R2 "u1" Sample.t2 Sample.t2
                   Sample.anchored
                 = (inr FacadeSamples.R2_anchored, FacadeSamples.after_R2))
    by (vm_compute; reflexivity).
  split; [exact Hrun|].
  exact (anchor_record_flag FacadeSamples.R2 "u1" Sample.t2 Sample.t2
           Sample.anchored FacadeSamples.R2_anchored FacadeSamples.after_R2 Hrun).
Defined.

Lemma review_record_chains_hash_witness :
  In (Py.upper "approved")
     ["APPROVED"; "REJECTED"; "NEEDS_VERIFICATION"; "PRIORITY"]%string
  /\ Sample.R1_corrected <> ∅
  /\ PyDict.get "R1" (MockLedger.records (ledger Sample.anchored))
     = Some Sample.anchored_R1
  /\ exists result S' r' e,
       review_record "R1" "u2" "approved" (Some Sample.R1_corrected)
         Sample.t2 Sample.t2 Sample.anchored = (inr result, S')
       /\ new_hash result = Some (compute_record_hash Sample.R1_corrected)
       /\ new_status result = Py.upper "approved"
       /\ PyDict.get "R1" (MockLedger.records (ledger S')) = Some r'
       /\ LedgerRecord.data_hash r' = compute_record_hash Sample.R1_corrected
       /\ LedgerRecord.previous_hash r'
          = Some (LedgerRecord.data_hash Sample.anchored_R1)
       /\ LedgerRecord.current_status r' = Py.upper "approved"
       /\ LedgerRecord.version r' = LedgerRecord.version Sample.anchored_R1 + 1
       /\ LedgerRecord.last_updated_by r' = "u2"%string
       /\ MockLedger.access_logs (ledger S')
          = MockLedger.access_logs (ledger Sample.anchored) ++ [e]
       /\ AccessLogEntry.action_type e = "REVIEW"%string
       /\ AccessLogEntry.details e = Py.cat ["Decision: "; Py.upper "approved"]%string.
Proof.
  assert (H1 : In (Py.upper "approved")
                 ["APPROVED"; "REJECTED"; "NEEDS_VERIFICATION"; "PRIORITY"]%string)
    by (vm_compute; auto).
  assert (H2 : Sample.R1_corrected <> ∅).
  { intros E. apply (f_equal (fun m => m !! "name"%string)) in E.
    vm_compute in E. discriminate. }
  assert (H3 : PyDict.get "R1" (MockLedger.records (ledger Sample.anchored))
               = Some Sample.anchored_R1) by (vm_compute; reflexivity).
  split; [exact H1|]. split; [exact H2|]. split; [exact H3|].
  exact (review_record_chains_hash "R1" "u2" "approved" Sample.R1_corrected
           Sample.t2 Sample.t2 Sample.anchored Sample.anchored_R1 H1 H2 H3).
Defined.

Lemma review_record_unknown_witness :
  In (Py.upper "Rejected")
     ["APPROVED"; "REJECTED"; "NEEDS_VERIFICATION"; "PRIORITY"]%string
  /\ PyDict.get "R7" (MockLedger.records (ledger Sample.anchored)) = None
  /\ exists S',
       review_record "R7" "u2" "Rejected" None Sample.t2 Sample.t2 Sample.anchored
         = (inl (ValueError (Py.cat ["Record "; "R7"; " not found on ledger"]%string)),
            S')
       /\ ledger S' = ledger Sample.anchored.
Proof.
  assert (H1 : In (Py.upper "Rejected")
                 ["APPROVED"; "REJECTED"; "NEEDS_VERIFICATION"; "PRIORITY"]%string)
    by (vm_compute; auto).
  assert (H2 : PyDict.get "R7" (MockLedger.records (ledger Sample.anchored)) = None)
    by (vm_compute; reflexivity).
  split; [exact H1|]. split; [exact H2|].
  exact (review_record_unknown "R7" "u2" "Rejected" None Sample.t2 Sample.t2
           Sample.anchored H1 H2).
Defined.
End FacadeCallExamples.

(** ** The facade over any sequence of calls *)


Section FacadeRuns.
Context `{Environ}.
Import BlockchainService FacadeTrace.



End FacadeRuns.

Section FacadeRunExamples.
Import BlockchainService FacadeTrace.
#[local] Existing Instance Sample.env.

End FacadeRunExamples.

(** ** The text that is hashed *)

Lemma all_chars_append p a b :
  all_chars p (a +:+ b) = all_chars p a && all_chars p b.
Proof.
  induction a as [|x a IH]; [reflexivity|].
  rewrite append_cons. simpl. now rewrite IH, andb_assoc.
Qed.

Lemma hex_digits_printable d :
  all_chars is_printable (HexadecimalString.NilEmpty.string_of_uint d) = true.
Proof. induction d; simpl; [reflexivity | exact IHd ..]. Qed.

Lemma hex_of_N_printable n : all_chars is_printable (Py.hex_of_N n) = true.
Proof.
  unfold Py.hex_of_N, HexadecimalString.NilZero.string_of_uint.
  destruct (N.to_hex_uint n); try apply hex_digits_printable. reflexivity.
Qed.

Lemma format_04x_printable n : all_chars is_printable (Py.format_04x n) = true.
Proof.
  unfold Py.format_04x, Py.zfill. rewrite all_chars_append, hex_of_N_printable.
  generalize (4 - String.length (Py.hex_of_N n))%nat. intros k.
  induction k as [|k IH]; [reflexivity|]. simpl. now rewrite andb_true_r in *.
Qed.

Lemma escape_char_printable n : all_chars is_printable (Json.escape_char n) = true.
Proof.
  unfold Json.escape_char.
  repeat match goal with
         | |- context [if (n =? ?k)%N then _ else _] =>
             destruct (n =? k)%N; [reflexivity|]
         end.
  destruct ((32 <=? n) && (n <=? 126))%N eqn:E.
  - apply andb_prop in E as [Hlo Hhi].
    apply N.leb_le in Hlo, Hhi.
    cbn [all_chars]. unfold is_printable.
    rewrite N_ascii_embedding by lia.
    apply N.leb_le in Hlo, Hhi. now rewrite Hlo, Hhi.
  - destruct (n <? 65536)%N; cbv zeta;
      rewrite ?all_chars_append; cbn [all_chars];
      rewrite !format_04x_printable; reflexivity.
Qed.

Lemma escape_printable s : all_chars is_printable (Json.escape s) = true.
Proof.
  unfold Json.escape. induction s as [|c s IH]; [reflexivity|].
  cbn [Py.map_points]. now rewrite all_chars_append, escape_char_printable, IH.
Qed.

Lemma encode_str_printable s : all_chars is_printable (Json.encode_str s) = true.
Proof.
  unfold Json.encode_str. cbn [all_chars].
  rewrite all_chars_append, escape_printable. reflexivity.
Qed.

Lemma encode_item_printable kv : all_chars is_printable (Json.encode_item kv) = true.
Proof.
  unfold Json.encode_item.
  rewrite !all_chars_append, !encode_str_printable. reflexivity.
Qed.

Lemma concat_printable l :
  Forall (fun s => all_chars is_printable s = true) l ->
  all_chars is_printable (String.concat "," l) = true.
Proof.
  induction l as [|x l IH]; intros Hall; [reflexivity|].
  apply Forall_cons in Hall as [Hx Hl].
  destruct l as [|y l]; [exact Hx|].
  rewrite concat_cons_cons, !all_chars_append, Hx, (IH Hl). reflexivity.
Qed.

Lemma dumps_printable d : all_chars is_printable (Json.dumps d) = true.
Proof.
  unfold Json.dumps. rewrite !all_chars_append, concat_printable; [reflexivity|].
  apply Forall_forall. intros s Hs.
  apply list_elem_of_In, in_map_iff in Hs as (kv & <- & _).
  apply encode_item_printable.
Qed.

Lemma encode_utf8_ascii s : all_chars is_printable s = true -> Py.encode_utf8 s = s.
Proof.
  unfold Py.encode_utf8. induction s as [|c s IH]; [reflexivity|].
  cbn [all_chars Py.map_chars]. intros Hp. apply andb_prop in Hp as [Hc Hs].
  rewrite (IH Hs).
  assert (Hu : Py.utf8_char c = String c EmptyString).
  { revert Hc. destruct c as [[] [] [] [] [] [] [] []]; intros Hc;
      try reflexivity; discriminate. }
  rewrite Hu. reflexivity.
Qed.

(** X17. The text that is hashed is printable ASCII whatever the record
    holds (every other character is written as an escape), so that its
    UTF-8 encoding is the text itself. *)
Theorem canonical_json_ascii record :
  all_chars is_printable (canonical_json record) = true
  /\ Py.encode_utf8 (canonical_json record) = canonical_json record
  /\ compute_record_hash record = SHA256.hexdigest (canonical_json record).
Proof.
  assert (Hp : all_chars is_printable (canonical_json record) = true)
    by apply dumps_printable.
  split; [exact Hp|]. split; [now apply encode_utf8_ascii|].
  unfold compute_record_hash. now rewrite encode_utf8_ascii.
Qed.

(** X18. A record that has none of the hashable fields is hashed as the
    empty record: its text is the empty object. *)
Theorem compute_record_hash_no_hashable_field record :
  (forall f, f ∈ hashable_fields -> record !! f = None) ->
  canonical_json record = "{}"%string
  /\ compute_record_hash record = compute_record_hash ∅.
Proof.
  intros Hnone.
  assert (Hsame : forall f, f ∈ hashable_fields ->
            canonical_units record f = canonical_units ∅ f).
  { intros f Hf. unfold canonical_units, canonical_field.
    now rewrite (Hnone f Hf), lookup_empty. }
  split.
  - apply canonical_json_same in Hsame. rewrite Hsame.
    vm_compute. reflexivity.
  - now apply same_fields_same_hash.
Qed.

Lemma compute_record_hash_no_hashable_field_witness :
  (forall f, f ∈ hashable_fields -> MoreSamples.storage_only !! f = None)
  /\ canonical_json MoreSamples.storage_only = "{}"%string
  /\ compute_record_hash MoreSamples.storage_only = compute_record_hash ∅.
Proof.
  assert (Hnone : forall f, f ∈ hashable_fields -> MoreSamples.storage_only !! f = None).
  { intros f Hf.
    assert (Hall : Forall (fun f => MoreSamples.storage_only !! f = None) hashable_fields)
      by (apply (bool_decide_unpack _); vm_compute; reflexivity).
    rewrite Forall_forall in Hall. exact (Hall f Hf). }
  split; [exact Hnone|].
  exact (compute_record_hash_no_hashable_field MoreSamples.storage_only Hnone).
Defined.

(** ** [verify_record_hash] and the facade's verification *)

Section VerifyAgreement.
Context `{Environ}.
Import BlockchainService.

(** X19. For a record id the ledger holds, the facade's verification of a
    mapping says verified exactly when [verify_record_hash] accepts the
    stored hash for that mapping. *)
Theorem verify_integrity_agrees_with_verify_record_hash
    record_id record accessor_id now tx_now result_now S h :
  stored_hash S record_id = Some h ->
  exists result S',
    verify_integrity record_id record accessor_id now tx_now result_now S
      = (inr result, S')
    /\ IntegrityResult.verified result = verify_record_hash record h.
Proof.
  unfold stored_hash. intros Hstored.
  destruct (PyDict.get record_id (MockLedger.records (ledger S))) as [r|] eqn:E;
    [|discriminate].
  injection Hstored as <-.
  destruct (verify_integrity_stored record_id record accessor_id now tx_now
              result_now S r E) as (result & S' & Hrun & Hver & _).
  exists result, S'. split; [exact Hrun|].
  rewrite Hver. unfold verify_record_hash. apply String.eqb_sym.
Qed.
End VerifyAgreement.

Section VerifyAgreementExamples.
Import BlockchainService.
#[local] Existing Instance Sample.env.

Lemma verify_integrity_agrees_with_verify_record_hash_witness :
  stored_hash Sample.anchored "R1" = Some (compute_record_hash Sample.R1)
  /\ exists result S',
       verify_integrity "R1" Sample.R1_as_text "u3" Sample.t2 Sample.t2 Sample.t2
         Sample.anchored = (inr result, S')
       /\ IntegrityResult.verified result
          = verify_record_hash Sample.R1_as_text (compute_record_hash Sample.R1).
Proof.
  assert (Hs : stored_hash Sample.anchored "R1" = Some (compute_record_hash Sample.R1))
    by (vm_compute; reflexivity).
  split; [exact Hs|].
  exact (verify_integrity_agrees_with_verify_record_hash "R1" Sample.R1_as_text
           "u3" Sample.t2 Sample.t2 Sample.t2 Sample.anchored
           (compute_record_hash Sample.R1) Hs).
Defined.
End VerifyAgreementExamples.

(** ** The digest on known inputs *)

Example sha256_abc :
  SHA256.hexdigest "abc"
  = "ba7816bf8f01cfea414140de5dae2223b00361a396177a9cb410ff61f20015ad"%string.
Proof. vm_compute. reflexivity. Qed.

Example sha256_empty :
  SHA256.hexdigest EmptyString
  = "e3b0c44298fc1c149afbf4c8996fb92427ae41e4649b934ca495991b7852b855"%string.
Proof. vm_compute. reflexivity. Qed.

Example sha256_two_blocks :
  SHA256.hexdigest "abcdbcdecdefdefgefghfghighijhijkijkljklmklmnlmnomnopnopq"
  = "248d6a61d20638b8e5c026930c3e6039a33ce45964ff2167f6ecedd419db06c1"%string.
Proof. vm_compute. reflexivity. Qed.

(** ** The escapes on known inputs *)

(** DEL, U+00FF, a lone surrogate, U+FFFF, the first and the last code
    point above the basic plane, NUL, U+001F, a space and a slash, as
    [json.dumps] writes them. *)
Example escape_known :
  Json.escape [0x7f; 0xff; 0xd800; 0xffff; 0x10000; 0x10ffff; 0; 0x1f; 32; 47]%N
  = "\u007f\u00ff\ud800\uffff\ud800\udc00\udbff\udfff\u0000\u001f /"%string.
Proof. vm_compute. reflexivity. Qed.

Example utf16_known :
  Py.utf16 [0x7f; 0xd800; 0xffff; 0x10000; 0x10ffff; 0x1f600]%N
  = [0x7f; 0xd800; 0xffff; 0xd800; 0xdc00; 0xdbff; 0xdfff; 0xd83d; 0xde00]%N.
Proof. vm_compute. reflexivity. Qed.

(** X20. What the canonical text keeps of a record: two records have the
    same canonical text exactly when every hashable field is in both or in
    neither and, where it is, its canonical string has the same UTF-16 code
    units in both. *)
Theorem canonical_json_faithful record1 record2 :
  canonical_json record1 = canonical_json record2
  <-> forall f, f ∈ hashable_fields ->
        canonical_units record1 f = canonical_units record2 f.
Proof. apply canonical_json_same. Qed.

(** ** The facade as a client of the store *)

Section Bridge.
Context `{Environ}.
Import BlockchainService FacadeTrace.




End Bridge.
